(** * MCP tutorial servers: code, database and document handler sets

    A shallow embedding of [servers/code_server.py],
    [servers/database_server.py] and [servers/document_server.py].

    Every [call_tool] is a function from the tool name, the argument map
    and the server's domain state to an outcome (the returned content
    blocks, or the exception that leaves the function) and the new state.

    Text is a sequence of code points below 256.  The file system, the
    Python interpreter started by [execute_code], SQLite's execution of
    free SQL text and [json.dumps] are the environment: the first is a
    finite map from paths to nodes, the others are section variables. *)

From Stdlib Require Import ZArith QArith Ascii List Bool Lia DecimalString PrimFloat Sorted.
From stdpp Require Import base option list gmap strings.

Local Open Scope Z_scope.
Local Set Warnings "-inexact-float,-register-all".

(** ** Python values, strings and exceptions *)

Module Py.

Definition LF : ascii := "010"%char.
Definition CR : ascii := "013"%char.
Definition NUL : ascii := "000"%char.
Definition nl : string := String LF EmptyString.

(** The values that reach a handler through [arguments]: null, a string
    or an integer.  Arrays, objects, booleans and fractions are not part
    of the model. *)
Inductive value :=
| VNone
| VStr (s : string)
| VInt (z : Z).

Global Instance value_eq_dec : EqDecision value.
Proof. solve_decision. Defined.

Definition is_empty (s : string) : bool :=
  match s with EmptyString => true | String _ _ => false end.

(** [bool(v)]: [None], the empty string and zero are falsy. *)
Definition truthy (v : value) : bool :=
  match v with
  | VNone => false
  | VStr s => negb (is_empty s)
  | VInt z => negb (z =? 0)
  end.

Definition is_None (v : value) : bool :=
  match v with VNone => true | _ => false end.

Definition str_of_nat (n : nat) : string :=
  NilZero.string_of_uint (Nat.to_uint n).

Definition str_of_Z (z : Z) : string :=
  NilZero.string_of_int (Z.to_int z).

(** [str(v)], the conversion an f-string applies. *)
Definition py_str (v : value) : string :=
  match v with
  | VNone => "None"
  | VStr s => s
  | VInt z => str_of_Z z
  end.

Definition type_name (v : value) : string :=
  match v with
  | VNone => "NoneType"
  | VStr _ => "str"
  | VInt _ => "int"
  end.

(** [dict.get(key)] on the argument map: a missing key reads as [None]. *)
Definition get (arguments : gmap string value) (key : string) : value :=
  default VNone (arguments !! key).

(** *** [str] methods *)

Definition startswith (s prefix : string) : bool :=
  Stdlib.Strings.String.prefix prefix s.

(** [s[n:]] *)
Fixpoint drop_chars (n : nat) (s : string) : string :=
  match n, s with
  | O, _ => s
  | S n', String _ s' => drop_chars n' s'
  | S _, EmptyString => EmptyString
  end.

Definition code (c : ascii) : N := N_of_ascii c.

Definition in_range (lo hi : N) (c : ascii) : bool :=
  ((lo <=? code c) && (code c <=? hi))%N.

(** [str.isspace] on one code point below 256. *)
Definition isspace (c : ascii) : bool :=
  in_range 9 13 c || in_range 28 32 c || (code c =? 133)%N || (code c =? 160)%N.

Fixpoint lstrip (s : string) : string :=
  match s with
  | EmptyString => EmptyString
  | String c s' => if isspace c then lstrip s' else s
  end.

Definition strip (s : string) : string :=
  String.rev (lstrip (String.rev (lstrip s))).

Definition shift_char (c : ascii) (up : bool) : ascii :=
  ascii_of_N (if up then code c - 32 else code c + 32)%N.

Definition lower_char (c : ascii) : ascii :=
  if in_range 65 90 c || in_range 192 214 c || in_range 216 222 c
  then shift_char c false else c.

Fixpoint lower (s : string) : string :=
  match s with
  | EmptyString => EmptyString
  | String c s' => String (lower_char c) (lower s')
  end.

(** [str.upper] of one code point.  The sharp s becomes two letters; the
    micro sign and y with diaeresis have their capitals above 255 and are
    kept: neither they nor their capitals are ASCII letters. *)
Definition upper_char (c : ascii) : string :=
  if in_range 97 122 c || in_range 224 246 c || in_range 248 254 c
  then String (shift_char c true) EmptyString
  else if (code c =? 223)%N then "SS"
  else String c EmptyString.

Fixpoint upper (s : string) : string :=
  match s with
  | EmptyString => EmptyString
  | String c s' => upper_char c +:+ upper s'
  end.

(** [sub in s] *)
Fixpoint contains (sub s : string) : bool :=
  startswith s sub ||
  match s with
  | EmptyString => false
  | String _ s' => contains sub s'
  end.

(** Occurrences of a non-empty [sub] that do not overlap, scanning from
    the left; [skip] characters of the last occurrence are still to pass. *)
Fixpoint count_from (sub s : string) (skip : nat) : nat :=
  match s with
  | EmptyString => O
  | String _ s' =>
      match skip with
      | S k => count_from sub s' k
      | O =>
          if startswith s sub
          then S (count_from sub s' (Nat.pred (String.length sub)))
          else count_from sub s' O
      end
  end.

(** [s.count(sub)] *)
Definition count (s sub : string) : nat :=
  if is_empty sub then S (String.length s) else count_from sub s O.

(** [sep.join(items)] *)
Fixpoint join (sep : string) (items : list string) : string :=
  match items with
  | [] => EmptyString
  | [x] => x
  | x :: rest => x +:+ sep +:+ join sep rest
  end.

Fixpoint has_char (c : ascii) (s : string) : bool :=
  match s with
  | EmptyString => false
  | String d s' => if ascii_dec c d then true else has_char c s'
  end.

(** *** [repr] of a string, as it appears in [OSError] messages *)

Definition hex_digit (n : N) : ascii :=
  ascii_of_N (if (n <? 10)%N then 48 + n else 87 + n)%N.

Definition printable (c : ascii) : bool :=
  in_range 32 126 c || (in_range 161 255 c && negb (code c =? 173)%N).

Definition repr_char (quote c : ascii) : string :=
  if ascii_dec c quote then String "\" (String c EmptyString)
  else if ascii_dec c "\" then "\\"
  else if (code c =? 9)%N then "\t"
  else if (code c =? 10)%N then "\n"
  else if (code c =? 13)%N then "\r"
  else if printable c then String c EmptyString
  else String "\" (String "x" (String (hex_digit (code c / 16))
         (String (hex_digit (code c mod 16)) EmptyString))).

Fixpoint repr_body (quote : ascii) (s : string) : string :=
  match s with
  | EmptyString => EmptyString
  | String c s' => repr_char quote c +:+ repr_body quote s'
  end.

Definition repr (s : string) : string :=
  let quote := if has_char "'" s && negb (has_char "034" s)
               then "034"%char else "'"%char in
  String quote (repr_body quote s +:+ String quote EmptyString).

(** *** Exceptions *)

Inductive exn_class :=
| ValueError
| TypeError
| AttributeError
| IndexError
| OverflowError
| FileNotFoundError
| FileExistsError
| IsADirectoryError
| NotADirectoryError
| TimeoutExpired
| IntegrityError
| OperationalError
| OtherError (name : string).

(** An exception with its [str(e)]. *)
Record exn := Exn { cls : exn_class; msg : string }.

Definition os_error (c : exn_class) (errno : nat) (strerror path : string) : exn :=
  Exn c ("[Errno " +:+ str_of_nat errno +:+ "] " +:+ strerror +:+ ": " +:+ repr path).

Definition no_attribute (v : value) (attr : string) : exn :=
  Exn AttributeError ("'" +:+ type_name v +:+ "' object has no attribute '" +:+ attr +:+ "'").

(** *** Protocol values *)

(** [TextContent(type="text", text=...)] *)
Inductive content := TextContent (text : string).

Definition text_of (c : content) : string :=
  match c with TextContent t => t end.

(** What a call of [call_tool] or [read_resource] ends in. *)
Inductive outcome (A : Type) :=
| Return (result : A)
| Raise (e : exn).
Global Arguments Return {A} _.
Global Arguments Raise {A} _.

Definition reply (text : string) : outcome (list content) :=
  Return [TextContent text].

(** [Tool(name, description, inputSchema)]; the schema is kept as the
    declared properties with their JSON type and the [required] list. *)
Record Tool := {
  name : string;
  description : string;
  properties : list (string * string);
  required : list string
}.

(** [Resource(uri, name, description, mimeType)] *)
Record Resource := {
  uri : string;
  resource_name : string;
  resource_description : string;
  mimeType : string
}.

(** *** Insertion-ordered dictionaries *)

Section Dict.
Context {K V : Type} `{EqDecision K}.

Definition dict := list (K * V).

Fixpoint dict_get (d : dict) (k : K) : option V :=
  match d with
  | [] => None
  | (k', v) :: rest => if decide (k = k') then Some v else dict_get rest k
  end.

Definition dict_in (k : K) (d : dict) : bool :=
  match dict_get d k with Some _ => true | None => false end.

(** [d[k] = v]: an existing key keeps its place, a new one goes last. *)
Fixpoint dict_set (d : dict) (k : K) (v : V) : dict :=
  match d with
  | [] => [(k, v)]
  | (k', v') :: rest =>
      if decide (k = k') then (k, v) :: rest else (k', v') :: dict_set rest k v
  end.

(** [d.pop(k, None)] *)
Fixpoint dict_pop (d : dict) (k : K) : dict :=
  match d with
  | [] => []
  | (k', v') :: rest =>
      if decide (k = k') then rest else (k', v') :: dict_pop rest k
  end.

Definition dict_keys (d : dict) : list K := map fst d.
End Dict.
Global Arguments dict : clear implicits.

End Py.

(** ** The file system as [pathlib] sees it

    The errors, their texts and the limits on names are those of Linux
    and CPython 3.11.  Paths are looked up as they are written: a [..]
    is a name like any other, there are no links, and a relative and an
    absolute path are different keys; the properties that say what a
    call does to a file are stated for paths without [..].  Access
    rights are not part of the model: what the files hold, and what can
    be made among them, may be read and written. *)

Module Fs.
Import Py.

(** A path in the form [pathlib] normalises it to: absolute or not, and
    the components that are neither empty nor a single dot.  A [..] is a
    component like any other, as it is for [pathlib].  A path that
    starts with exactly two slashes names the same file as with one;
    [pathlib] prints it with the two, which shows in the message of an
    [OSError] only, and is not kept here. *)
Definition path : Type := bool * list string.

Inductive node :=
| File (text : string)
| Dir.

Global Instance node_eq_dec : EqDecision node.
Proof. solve_decision. Defined.

(** The nodes below the root and below the working directory, which
    both always exist themselves. *)
Abbreviation filesystem := (gmap path node).

(** Cuts [s] at every slash; [cur] holds the current component reversed. *)
Fixpoint split_slash (cur : string) (s : string) : list string :=
  match s with
  | EmptyString => [String.rev cur]
  | String c s' =>
      if ascii_dec c "/" then String.rev cur :: split_slash EmptyString s'
      else split_slash (String c cur) s'
  end.

Definition is_part (s : string) : bool :=
  negb (is_empty s) && negb (Stdlib.Strings.String.eqb s ".").

(** [Path(s)] *)
Definition Path (s : string) : path :=
  (startswith s "/", List.filter is_part (split_slash EmptyString s)).

(** [str(p)] *)
Definition path_str (p : path) : string :=
  match p with
  | (true, parts) => "/" +:+ join "/" parts
  | (false, []) => "."
  | (false, parts) => join "/" parts
  end.

(** [p.parent] *)
Definition parent (p : path) : path := (fst p, removelast (snd p)).

(** [p / s] *)
Definition joinpath (p : path) (s : string) : path :=
  if startswith s "/" then Path s
  else (fst p, snd p ++ snd (Path s)).

(** [p.name] *)
Definition path_name (p : path) : string := List.last (snd p) EmptyString.

(** Position of the last dot of [s], counted from the end, if any. *)
Fixpoint last_dot (rev_s : string) : option nat :=
  match rev_s with
  | EmptyString => None
  | String c r => if ascii_dec c "." then Some O else S <$> last_dot r
  end.

Fixpoint take_chars (n : nat) (s : string) : string :=
  match n, s with
  | S n', String c s' => String c (take_chars n' s')
  | _, _ => EmptyString
  end.

(** [p.stem]: the name without its last suffix; a leading or trailing dot
    starts no suffix. *)
Definition stem_of_name (nm : string) : string :=
  match last_dot (String.rev nm) with
  | Some after =>
      let i := (String.length nm - S after)%nat in
      if (0 <? i)%nat && (0 <? after)%nat then take_chars i nm else nm
  | None => nm
  end.

Definition stem (p : path) : string := stem_of_name (path_name p).

Definition has_nul (p : path) : bool :=
  existsb (has_char NUL) (snd p).

Definition is_root (p : path) : bool :=
  match snd p with [] => true | _ => false end.

(** *** What a path names *)

(** The null device, which every POSIX system has at [/dev/null]: what
    is written to it is discarded, and reading it gives nothing. *)
Definition dev : path := (true, ["dev"]).
Definition dev_null : path := (true, ["dev"; "null"]).

Inductive entry :=
| Regular (text : string)
| Directory
| NullDevice.

Definition entry_at (fs : filesystem) (p : path) : option entry :=
  if is_root p || bool_decide (p = dev) then Some Directory
  else if bool_decide (p = dev_null) then Some NullDevice
  else match fs !! p with
       | Some (File text) => Some (Regular text)
       | Some Dir => Some Directory
       | None => None
       end.

(** *** The limits of Linux on names *)

(** Bytes of a name in UTF-8, the encoding of file names. *)
Fixpoint utf8_length (s : string) : nat :=
  match s with
  | EmptyString => O
  | String c s' => ((if (code c <? 128)%N then 1 else 2) + utf8_length s')%nat
  end.

Definition NAME_MAX : nat := 255.
Definition PATH_MAX : nat := 4096.

Definition name_too_long (s : string) : bool := (NAME_MAX <? utf8_length s)%nat.

(** *** Errors *)

Definition embedded_null : exn := Exn ValueError "embedded null byte".

Definition enoent (p : path) : exn :=
  os_error FileNotFoundError 2 "No such file or directory" (path_str p).
Definition eisdir (p : path) : exn :=
  os_error IsADirectoryError 21 "Is a directory" (path_str p).
Definition enotdir (p : path) : exn :=
  os_error NotADirectoryError 20 "Not a directory" (path_str p).
Definition eexist (p : path) : exn :=
  os_error FileExistsError 17 "File exists" (path_str p).
Definition enametoolong (p : path) : exn :=
  os_error (OtherError "OSError") 36 "File name too long" (path_str p).
Definition eacces (p : path) : exn :=
  os_error (OtherError "PermissionError") 13 "Permission denied" (path_str p).

(** *** Looking a path up *)

(** The first thing that stops the walk through the directories [dirs]
    below [(abs, done)]: a name too long, a name that is not there, or
    one that is no directory. *)
Fixpoint way_error (fs : filesystem) (abs : bool) (done dirs : list string)
    (target : path) : option exn :=
  match dirs with
  | [] => None
  | d :: rest =>
      if name_too_long d then Some (enametoolong target)
      else
        match entry_at fs (abs, done ++ [d]) with
        | Some Directory => way_error fs abs (done ++ [d]) rest target
        | Some _ => Some (enotdir target)
        | None => Some (enoent target)
        end
  end.

(** What stops a system call on [p] before it looks at what the last
    name names. *)
Definition walk (fs : filesystem) (p : path) : option exn :=
  if has_nul p then Some embedded_null
  else if (PATH_MAX <=? utf8_length (path_str p))%nat then Some (enametoolong p)
  else
    match way_error fs (fst p) [] (removelast (snd p)) p with
    | Some e => Some e
    | None => if name_too_long (path_name p) then Some (enametoolong p) else None
    end.

(** [os.stat(p)], as far as the kind of the file goes. *)
Definition look_up (fs : filesystem) (p : path) : outcome entry :=
  match walk fs p with
  | Some e => Raise e
  | None =>
      match entry_at fs p with
      | Some found => Return found
      | None => Raise (enoent p)
      end
  end.

(** The errors of [stat] that [exists] and [is_dir] answer [False] to
    (CPython 3.11): a missing name, a name below something that is no
    directory, and the [ValueError] of an embedded NUL. *)
Definition ignored (e : exn) : bool :=
  match cls e with
  | FileNotFoundError | NotADirectoryError | ValueError => true
  | _ => false
  end.

(** [p.exists()]: a name that is too long raises. *)
Definition exists_ (fs : filesystem) (p : path) : outcome bool :=
  match look_up fs p with
  | Return _ => Return true
  | Raise e => if ignored e then Return false else Raise e
  end.

(** [p.exists()] has not answered [False]. *)
Definition path_exists (fs : filesystem) (p : path) : bool :=
  match exists_ fs p with
  | Return false => false
  | _ => true
  end.

(** [p.is_dir()] and [p.is_file()], where they answer. *)
Definition is_dir (fs : filesystem) (p : path) : bool :=
  match look_up fs p with
  | Return Directory => true
  | _ => false
  end.

Definition is_file (fs : filesystem) (p : path) : bool :=
  match look_up fs p with
  | Return (Regular _) => true
  | _ => false
  end.

(** Reading in text mode: a carriage return, with the line feed after it
    if there is one, comes back as one line feed. *)
Fixpoint universal_newlines (s : string) : string :=
  match s with
  | EmptyString => EmptyString
  | String c s' =>
      if ascii_dec c CR then
        String LF match s' with
                  | String d s'' =>
                      if ascii_dec d LF then universal_newlines s''
                      else universal_newlines s'
                  | EmptyString => EmptyString
                  end
      else String c (universal_newlines s')
  end.

(** [p.read_text()] *)
Definition read_text (fs : filesystem) (p : path) : outcome string :=
  match look_up fs p with
  | Raise e => Raise e
  | Return (Regular text) => Return (universal_newlines text)
  | Return Directory => Raise (eisdir p)
  | Return NullDevice => Return EmptyString
  end.

(** Opening [p] for writing: every directory on the way has to be
    there; the file itself need not. *)
Definition open_w (fs : filesystem) (p : path) : option exn :=
  match walk fs p with
  | Some e => Some e
  | None =>
      match entry_at fs p with
      | Some Directory => Some (eisdir p)
      | _ => None
      end
  end.

(** [p.write_text(text)] for a [str] argument. *)
Definition write_text (fs : filesystem) (p : path) (text : string)
  : outcome unit * filesystem :=
  match open_w fs p with
  | Some e => (Raise e, fs)
  | None =>
      (Return tt,
       match entry_at fs p with
       | Some NullDevice => fs
       | _ => <[p := File text]> fs
       end)
  end.

(** The proper prefixes of [parts] and [parts] itself, shortest first. *)
Fixpoint prefixes (done parts : list string) : list (list string) :=
  match parts with
  | [] => []
  | x :: rest => (done ++ [x]) :: prefixes (done ++ [x]) rest
  end.

(** [p.mkdir(parents=True, exist_ok=True)]: every missing directory on the
    way to [p] is made, the shortest first; a name that is too long or
    that names something else than a directory stops it.  [made] tells
    whether a directory has been made: the error of a name too long then
    comes from the call that makes that directory, and carries its
    path. *)
Fixpoint make_dirs (fs : filesystem) (abs made : bool) (todo : list (list string))
    (target : path) : outcome unit * filesystem :=
  match todo with
  | [] => (Return tt, fs)
  | q :: rest =>
      if name_too_long (List.last q EmptyString) then
        (Raise (enametoolong (if made then (abs, q) else target)), fs)
      else
        match entry_at fs (abs, q) with
        | Some Directory => make_dirs fs abs made rest target
        | Some _ =>
            (Raise (match rest with [] => eexist target | _ => enotdir target end), fs)
        | None => make_dirs (<[(abs, q) := Dir]> fs) abs true rest target
        end
  end.

Definition mkdir_parents (fs : filesystem) (p : path) : outcome unit * filesystem :=
  if has_nul p then (Raise embedded_null, fs)
  else if (PATH_MAX <=? utf8_length (path_str p))%nat then (Raise (enametoolong p), fs)
  else make_dirs fs (fst p) false (prefixes [] (snd p)) p.

(** [p.unlink()]; the null device is the system's, and is not removed. *)
Definition unlink (fs : filesystem) (p : path) : outcome unit * filesystem :=
  match look_up fs p with
  | Raise e => (Raise e, fs)
  | Return (Regular _) => (Return tt, delete p fs)
  | Return Directory => (Raise (eisdir p), fs)
  | Return NullDevice => (Raise (eacces p), fs)
  end.

Definition endswith (s suffix : string) : bool :=
  startswith (String.rev s) (String.rev suffix).

(** [d.glob("*.txt")]: the entries of directory [d] whose name ends in
    [.txt], in the order the directory is listed. *)
Definition glob_txt (fs : filesystem) (d : path) : list path :=
  if is_dir fs d then
    List.filter (λ p, bool_decide (parent p = d) && negb (is_root p)
                 && endswith (path_name p) ".txt")
           (fst <$> map_to_list fs)
  else [].

End Fs.

(** ** [servers/code_server.py] *)

Module CodeServer.
Import Py Fs.

(** What a child interpreter does with a program, and what the
    processes that the program starts leave behind. *)
Record process := {
  runtime : option Q;        (* seconds until it exits; [None]: it never does *)
  output_closed : option Q;  (* seconds until nothing holds its output pipes *)
  stdout : string;
  stderr : string;
  returncode : Z;
  fs_at_exit : filesystem;   (* the files when its output is complete *)
  fs_at_kill : filesystem;   (* the files when the wait is given up *)
  started_at_exit : list string;  (* what it has started and is alive then *)
  started_at_kill : list string
}.

(** The child is still running [timeout] seconds after its start. *)
Definition outlives (timeout : nat) (child : process) : Prop :=
  match runtime child with
  | Some t => Qle_bool t (inject_Z (Z.of_nat timeout)) = false
  | None => True
  end.

Definition within (timeout : nat) (t : option Q) : bool :=
  match t with
  | Some t => Qle_bool t (inject_Z (Z.of_nat timeout))
  | None => false
  end.

(** [communicate(timeout=...)] has the whole output in time: the child
    has exited and its pipes are closed, also by the processes that
    inherited them. *)
Definition communicated (timeout : nat) (child : process) : bool :=
  within timeout (runtime child) && within timeout (output_closed child).

(** [subprocess.CompletedProcess] with captured text output. *)
Record CompletedProcess := {
  result_stdout : string;
  result_stderr : string;
  result_returncode : Z
}.

(** The domain state: the files, the module-level [code_store] and the
    programs of the processes that are alive: the interpreters started
    by [execute_code] and what they have started. *)
Record state := {
  fs : filesystem;
  code_store : dict value value;
  running : list string
}.

Definition set_fs (st : state) (fs' : filesystem) : state :=
  {| fs := fs'; code_store := code_store st; running := running st |}.

Definition set_running (st : state) (r : list string) : state :=
  {| fs := fs st; code_store := code_store st; running := r |}.

Definition initial_state (files : filesystem) : state :=
  {| fs := files; code_store := []; running := [] |}.

Definition list_tools : list Tool := [
  {| name := "read_file";
     description := "Read the contents of a file";
     properties := [("file_path", "string")];
     required := ["file_path"] |};
  {| name := "write_file";
     description := "Write content to a file";
     properties := [("file_path", "string"); ("content", "string")];
     required := ["file_path"; "content"] |};
  {| name := "execute_code";
     description := "Execute Python code and return the result";
     properties := [("code", "string")];
     required := ["code"] |};
  {| name := "save_code_snippet";
     description := "Save a code snippet for later retrieval";
     properties := [("name", "string"); ("code", "string")];
     required := ["name"; "code"] |};
  {| name := "list_code_snippets";
     description := "List all saved code snippets";
     properties := [];
     required := [] |}
].

Section Resources.
(** [Resource(uri=...)] validates its argument as a URL: the URL as it
    is kept, or the validation error. *)
Variable AnyUrl : string → outcome string.

(** The loop of [list_resources]: the first name that gives no URL ends
    it. *)
Fixpoint resources (items : list (value * value)) : outcome (list Resource) :=
  match items with
  | [] => Return []
  | item :: rest =>
      let name := py_str (fst item) in
      match AnyUrl ("code://" +:+ name) with
      | Raise e => Raise e
      | Return url =>
          match resources rest with
          | Raise e => Raise e
          | Return listed =>
              Return ({| uri := url;
                         resource_name := "Code: " +:+ name;
                         resource_description := "Stored code snippet: " +:+ name;
                         mimeType := "text/x-python" |} :: listed)
          end
      end
  end.

Definition list_resources (st : state) : outcome (list Resource) :=
  resources (code_store st).
End Resources.

Definition read_resource (uri : string) (st : state) : outcome value :=
  let not_found := Raise (Exn ValueError ("Resource not found: " +:+ uri)) in
  if startswith uri "code://" then
    let name := drop_chars 7 uri in
    match dict_get (code_store st) (VStr name) with
    | Some code => Return code
    | None => not_found
    end
  else not_found.

(** [Path(v)]: only a string names a path (wording of CPython 3.11). *)
Definition path_of (v : value) : outcome path :=
  match v with
  | VStr s => Return (Path s)
  | _ => Raise (Exn TypeError
           ("expected str, bytes or os.PathLike object, not " +:+ type_name v))
  end.

Definition read_file (file_path : value) (st : state) : outcome (list content) :=
  let failed e := reply ("Error reading file: " +:+ msg e) in
  match path_of file_path with
  | Raise e => failed e
  | Return path =>
      match exists_ (fs st) path with
      | Raise e => failed e
      | Return false => reply ("Error: File not found: " +:+ py_str file_path)
      | Return true =>
          match read_text (fs st) path with
          | Raise e => failed e
          | Return content =>
              reply ("File contents of " +:+ py_str file_path +:+ ":" +:+ nl +:+ nl
                     +:+ content)
          end
      end
  end.

Definition write_file (file_path content : value) (st : state)
  : outcome (list Py.content) * state :=
  let failed e st' := (reply ("Error writing file: " +:+ msg e), st') in
  match path_of file_path with
  | Raise e => failed e st
  | Return path =>
      match mkdir_parents (fs st) (parent path) with
      | (Raise e, fs1) => failed e (set_fs st fs1)
      | (Return _, fs1) =>
          match content with
          | VStr text =>
              match write_text fs1 path text with
              | (Raise e, fs2) => failed e (set_fs st fs2)
              | (Return _, fs2) =>
                  (reply ("Successfully wrote " +:+ str_of_nat (String.length text)
                          +:+ " characters to " +:+ py_str file_path),
                   set_fs st fs2)
              end
          | _ =>
              failed (Exn TypeError ("data must be str, not " +:+ type_name content))
                     (set_fs st fs1)
          end
      end
  end.

(** *** Processes *)

(** The first [program] of [procs] is gone. *)
Fixpoint without (program : string) (procs : list string) : list string :=
  match procs with
  | [] => []
  | p :: rest => if decide (p = program) then rest else p :: without program rest
  end.

(** [Popen(...)]: the child is started. *)
Definition Popen (program : string) (st : state) : state :=
  set_running st (program :: running st).

(** What the child has started by itself joins the live processes. *)
Definition started (procs : list string) (st : state) : state :=
  set_running st (running st ++ procs).

(** The child has exited by itself. *)
Definition exited (program : string) (st : state) : state :=
  set_running st (without program (running st)).

(** [process.kill()]: [SIGKILL] ends the child, and the child alone:
    what it has started goes on.  The [process.wait()] after it reaps a
    process that is no longer alive. *)
Definition kill (program : string) (st : state) : state :=
  set_running st (without program (running st)).

Section Interpreter.
(** The interpreter [sys.executable]: what running a program does, given
    the files it finds. *)
Variable python : string → filesystem → process.
(** [sys.executable] *)
Variable executable : string.

(** [subprocess.run([sys.executable, "-c", code], capture_output=True,
    text=True, timeout=...)]: the child is started and its output
    awaited; when the output is not complete at the timeout, the child
    is killed and reaped and [TimeoutExpired] raised. *)
Definition subprocess_run (code : value) (timeout : nat) (st : state)
  : outcome CompletedProcess * state :=
  match code with
  | VStr program =>
      if has_char NUL program then (Raise embedded_null, st)
      else
        let st := Popen program st in
        let child := python program (fs st) in
        if communicated timeout child then
          let st := started (started_at_exit child) (set_fs st (fs_at_exit child)) in
          (Return {| result_stdout := stdout child;
                     result_stderr := stderr child;
                     result_returncode := returncode child |},
           exited program st)
        else
          let st := started (started_at_kill child) (set_fs st (fs_at_kill child)) in
          (Raise (Exn TimeoutExpired
                    ("Command '[" +:+ repr executable +:+ ", '-c', " +:+ repr program
                     +:+ "]' timed out after " +:+ str_of_nat timeout +:+ " seconds")),
           kill program st)
  | _ =>
      (Raise (Exn TypeError
                ("expected str, bytes or os.PathLike object, not " +:+ type_name code)),
       st)
  end.

Definition execute_code (code : value) (st : state)
  : outcome (list content) * state :=
  match subprocess_run code 10 st with
  | (Return result, st') =>
      let output := result_stdout result in
      let output :=
        if negb (is_empty (result_stderr result))
        then output +:+ nl +:+ "[stderr]" +:+ nl +:+ result_stderr result
        else output in
      let output :=
        if negb (result_returncode result =? 0)
        then "[Error - exit code " +:+ str_of_Z (result_returncode result) +:+ "]"
             +:+ nl +:+ output
        else output in
      (reply ("Execution result:" +:+ nl +:+ output), st')
  | (Raise e, st') =>
      match cls e with
      | TimeoutExpired =>
          (reply "Error: Code execution timed out (max 10 seconds)", st')
      | _ => (reply ("Error executing code: " +:+ msg e), st')
      end
  end.

Definition call_tool (name : string) (arguments : gmap string value) (st : state)
  : outcome (list content) * state :=
  if decide (name = "read_file") then
    let file_path := get arguments "file_path" in
    if negb (truthy file_path) then
      (Raise (Exn ValueError "file_path is required"), st)
    else (read_file file_path st, st)
  else if decide (name = "write_file") then
    let file_path := get arguments "file_path" in
    let content := get arguments "content" in
    if negb (truthy file_path) || is_None content then
      (Raise (Exn ValueError "file_path and content are required"), st)
    else write_file file_path content st
  else if decide (name = "execute_code") then
    let code := get arguments "code" in
    if negb (truthy code) then
      (Raise (Exn ValueError "code is required"), st)
    else execute_code code st
  else if decide (name = "save_code_snippet") then
    let name := get arguments "name" in
    let code := get arguments "code" in
    if negb (truthy name) || negb (truthy code) then
      (Raise (Exn ValueError "name and code are required"), st)
    else
      (reply ("Code snippet '" +:+ py_str name +:+ "' saved successfully"),
       {| fs := fs st;
          code_store := dict_set (code_store st) name code;
          running := running st |})
  else if decide (name = "list_code_snippets") then
    match code_store st with
    | [] => (reply "No code snippets saved yet", st)
    | _ =>
        let snippets :=
          join nl (map (λ name, "- " +:+ py_str name) (dict_keys (code_store st))) in
        (reply ("Saved code snippets:" +:+ nl +:+ snippets), st)
    end
  else (Raise (Exn ValueError ("Unknown tool: " +:+ name)), st).
End Interpreter.

End CodeServer.

(** ** [sorted] *)

Module Sorting.
Import Py.

Section Sort.
Context {A : Type} (leb : A → A → bool).

Fixpoint insert_sorted (x : A) (l : list A) : list A :=
  match l with
  | [] => [x]
  | y :: rest => if leb x y then x :: l else y :: insert_sorted x rest
  end.

(** A stable sort, as [sorted] is. *)
Fixpoint sort (l : list A) : list A :=
  match l with
  | [] => []
  | x :: rest => insert_sorted x (sort rest)
  end.
End Sort.

Definition str_leb (a b : string) : bool := Stdlib.Strings.String.leb a b.

(** Order of the tuples [(name, count)] whose names have one type. *)
Definition match_leb (a b : value * nat) : bool :=
  match fst a, fst b with
  | VStr s, VStr t =>
      match Stdlib.Strings.String.compare s t with
      | Lt => true
      | Eq => (snd a <=? snd b)%nat
      | Gt => false
      end
  | VInt x, VInt y =>
      match Z.compare x y with
      | Lt => true
      | Eq => (snd a <=? snd b)%nat
      | Gt => false
      end
  | _, _ => true
  end.

Definition same_type (a b : value) : bool :=
  match a, b with
  | VNone, VNone | VStr _, VStr _ | VInt _, VInt _ => true
  | _, _ => false
  end.

(** [sorted(matches)]: names of two types cannot be ordered.  The message
    names the first entry whose type differs from the entries before it
    (exact below 64 entries, where the sort is one binary insertion sort). *)
Definition sorted_matches (matches : list (value * nat))
  : outcome (list (value * nat)) :=
  match matches with
  | [] => Return []
  | first :: rest =>
      match List.filter (λ m, negb (same_type (fst m) (fst first))) rest with
      | [] => Return (sort match_leb matches)
      | other :: _ =>
          Raise (Exn TypeError
                   ("'<' not supported between instances of '"
                    +:+ type_name (fst other) +:+ "' and '"
                    +:+ type_name (fst first) +:+ "'"))
      end
  end.

End Sorting.

(** ** [servers/document_server.py] *)

Module DocumentServer.
Import Py Fs Sorting.

(** The domain state: the files and the module-level [document_index]. *)
Record state := {
  fs : filesystem;
  document_index : dict value string
}.

Definition DOCUMENTS_DIR : path := Path "documents".

(** [DOCUMENTS_DIR / f"{doc_name}.txt"] *)
Definition doc_path (doc_name : value) : path :=
  joinpath DOCUMENTS_DIR (py_str doc_name +:+ ".txt").

Definition index_document (name : value) (content : string) (st : state) : state :=
  {| fs := fs st;
     document_index := dict_set (document_index st) name (lower content) |}.

Definition set_fs (st : state) (fs' : filesystem) : state :=
  {| fs := fs'; document_index := document_index st |}.

Definition list_tools : list Tool := [
  {| name := "create_document";
     description := "Create a new text document";
     properties := [("name", "string"); ("content", "string")];
     required := ["name"; "content"] |};
  {| name := "read_document";
     description := "Read the contents of a document";
     properties := [("name", "string")];
     required := ["name"] |};
  {| name := "list_documents";
     description := "List all available documents";
     properties := [];
     required := [] |};
  {| name := "search_documents";
     description := "Search for text in all documents";
     properties := [("query", "string")];
     required := ["query"] |};
  {| name := "append_to_document";
     description := "Append text to an existing document";
     properties := [("name", "string"); ("content", "string")];
     required := ["name"; "content"] |};
  {| name := "delete_document";
     description := "Delete a document";
     properties := [("name", "string")];
     required := ["name"] |}
].

Section Resources.
(** [Resource(uri=...)] validates its argument as a URL: the URL as it
    is kept, or the validation error. *)
Variable AnyUrl : string → outcome string.

(** The loop of [list_resources]: the first stem that gives no URL ends
    it. *)
Fixpoint resources (files : list path) : outcome (list Resource) :=
  match files with
  | [] => Return []
  | doc_file :: rest =>
      match AnyUrl ("doc://" +:+ stem doc_file) with
      | Raise e => Raise e
      | Return url =>
          match resources rest with
          | Raise e => Raise e
          | Return listed =>
              Return ({| uri := url;
                         resource_name := "Document: " +:+ stem doc_file;
                         resource_description := "Text document: " +:+ stem doc_file;
                         mimeType := "text/plain" |} :: listed)
          end
      end
  end.

Definition list_resources (st : state) : outcome (list Resource) :=
  resources (glob_txt (fs st) DOCUMENTS_DIR).
End Resources.

Definition read_resource (uri : string) (st : state) : outcome string :=
  if startswith uri "doc://" then
    let doc_name := drop_chars 6 uri in
    let doc_path := doc_path (VStr doc_name) in
    match exists_ (fs st) doc_path with
    | Raise e => Raise e
    | Return true => read_text (fs st) doc_path
    | Return false => Raise (Exn ValueError ("Document not found: " +:+ doc_name))
    end
  else Raise (Exn ValueError ("Unknown resource URI: " +:+ uri)).

Definition create_document (doc_name content : value) (st : state)
  : outcome (list Py.content) * state :=
  let failed e st' := (reply ("Error creating document: " +:+ msg e), st') in
  match content with
  | VStr text =>
      match write_text (fs st) (doc_path doc_name) text with
      | (Raise e, fs') => failed e (set_fs st fs')
      | (Return _, fs') =>
          (reply ("Document '" +:+ py_str doc_name +:+ "' created successfully ("
                  +:+ str_of_nat (String.length text) +:+ " characters)"),
           index_document doc_name text (set_fs st fs'))
      end
  | _ => failed (Exn TypeError ("data must be str, not " +:+ type_name content)) st
  end.

Definition read_document (doc_name : value) (st : state) : outcome (list content) :=
  let failed e := reply ("Error reading document: " +:+ msg e) in
  match exists_ (fs st) (doc_path doc_name) with
  | Raise e => failed e
  | Return false => reply ("Document '" +:+ py_str doc_name +:+ "' not found")
  | Return true =>
      match read_text (fs st) (doc_path doc_name) with
      | Raise e => failed e
      | Return content =>
          reply ("Document '" +:+ py_str doc_name +:+ "':" +:+ nl +:+ nl +:+ content)
      end
  end.

Definition list_documents (st : state) : outcome (list content) :=
  let docs := glob_txt (fs st) DOCUMENTS_DIR in
  match docs with
  | [] => reply "No documents found"
  | _ =>
      let sorted_docs := sort (λ a b, str_leb (path_name a) (path_name b)) docs in
      let doc_list := join nl (map (λ doc, "- " +:+ stem doc) sorted_docs) in
      reply ("Available documents (" +:+ str_of_nat (length docs) +:+ "):" +:+ nl
             +:+ doc_list)
  end.

(** The first loop of [search_documents], over [document_index.items()]. *)
Definition search_index (query_lower : string) (index : dict value string)
  : list (value * nat) :=
  map (λ item : value * string, (fst item, count (snd item) query_lower))
      (List.filter (λ item : value * string, contains query_lower (snd item)) index).

(** The second loop, over the files the index does not know.  A file that
    cannot be read ends the loop with what was indexed until then. *)
Fixpoint search_files (query_lower : string) (files : list path)
    (matches : list (value * nat)) (st : state)
  : outcome (list (value * nat)) * state :=
  match files with
  | [] => (Return matches, st)
  | doc_file :: rest =>
      if negb (dict_in (VStr (stem doc_file)) (document_index st)) then
        match read_text (fs st) doc_file with
        | Raise e => (Raise e, st)
        | Return text =>
            let content := lower text in
            if contains query_lower content then
              search_files query_lower rest
                (matches ++ [(VStr (stem doc_file), count content query_lower)])
                (index_document (VStr (stem doc_file)) text st)
            else search_files query_lower rest matches st
        end
      else search_files query_lower rest matches st
  end.

Definition render_match (m : value * nat) : string :=
  "- " +:+ py_str (fst m) +:+ " (" +:+ str_of_nat (snd m) +:+ " occurrence(s))".

Definition search_documents (query : value) (st : state)
  : outcome (list content) * state :=
  let failed e st' := (reply ("Error searching documents: " +:+ msg e), st') in
  match query with
  | VStr q =>
      let query_lower := lower q in
      let matches := search_index query_lower (document_index st) in
      match search_files query_lower (glob_txt (fs st) DOCUMENTS_DIR) matches st with
      | (Raise e, st') => failed e st'
      | (Return matches, st') =>
          match matches with
          | [] => (reply ("No documents found containing '" +:+ q +:+ "'"), st')
          | _ =>
              match sorted_matches matches with
              | Raise e => failed e st'
              | Return sorted =>
                  (reply ("Search results for '" +:+ q +:+ "':" +:+ nl
                          +:+ join nl (map render_match sorted)), st')
              end
          end
      end
  | _ => failed (no_attribute query "lower") st
  end.

Definition append_to_document (doc_name content : value) (st : state)
  : outcome (list Py.content) * state :=
  let failed e st' := (reply ("Error appending to document: " +:+ msg e), st') in
  match exists_ (fs st) (doc_path doc_name) with
  | Raise e => failed e st
  | Return false =>
      (reply ("Document '" +:+ py_str doc_name
              +:+ "' not found. Use create_document first."), st)
  | Return true =>
      match read_text (fs st) (doc_path doc_name) with
      | Raise e => failed e st
      | Return existing_content =>
          match content with
          | VStr text =>
              let new_content := existing_content +:+ nl +:+ text in
              match write_text (fs st) (doc_path doc_name) new_content with
              | (Raise e, fs') => failed e (set_fs st fs')
              | (Return _, fs') =>
                  (reply ("Appended " +:+ str_of_nat (String.length text)
                          +:+ " characters to '" +:+ py_str doc_name +:+ "'"),
                   index_document doc_name new_content (set_fs st fs'))
              end
          | _ =>
              failed (Exn TypeError
                        ("can only concatenate str (not "
                         +:+ String "034" (type_name content)
                         +:+ String "034" ") to str")) st
          end
      end
  end.

Definition delete_document (doc_name : value) (st : state)
  : outcome (list content) * state :=
  let failed e st' := (reply ("Error deleting document: " +:+ msg e), st') in
  match exists_ (fs st) (doc_path doc_name) with
  | Raise e => failed e st
  | Return false => (reply ("Document '" +:+ py_str doc_name +:+ "' not found"), st)
  | Return true =>
      match unlink (fs st) (doc_path doc_name) with
      | (Raise e, fs') => failed e (set_fs st fs')
      | (Return _, fs') =>
          (reply ("Document '" +:+ py_str doc_name +:+ "' deleted successfully"),
           {| fs := fs'; document_index := dict_pop (document_index st) doc_name |})
      end
  end.

Definition call_tool (name : string) (arguments : gmap string value) (st : state)
  : outcome (list content) * state :=
  if decide (name = "create_document") then
    let doc_name := get arguments "name" in
    let content := get arguments "content" in
    if negb (truthy doc_name) || negb (truthy content) then
      (Raise (Exn ValueError "name and content are required"), st)
    else create_document doc_name content st
  else if decide (name = "read_document") then
    let doc_name := get arguments "name" in
    if negb (truthy doc_name) then
      (Raise (Exn ValueError "name is required"), st)
    else (read_document doc_name st, st)
  else if decide (name = "list_documents") then
    (list_documents st, st)
  else if decide (name = "search_documents") then
    let query := get arguments "query" in
    if negb (truthy query) then
      (Raise (Exn ValueError "query is required"), st)
    else search_documents query st
  else if decide (name = "append_to_document") then
    let doc_name := get arguments "name" in
    let content := get arguments "content" in
    if negb (truthy doc_name) || negb (truthy content) then
      (Raise (Exn ValueError "name and content are required"), st)
    else append_to_document doc_name content st
  else if decide (name = "delete_document") then
    let doc_name := get arguments "name" in
    if negb (truthy doc_name) then
      (Raise (Exn ValueError "name is required"), st)
    else delete_document doc_name st
  else (Raise (Exn ValueError ("Unknown tool: " +:+ name)), st).

(** Import and [main] before the transport loop: the directory is made
    if it is missing and every document found is indexed. *)
Fixpoint index_all (files : list path) (st : state) : outcome unit * state :=
  match files with
  | [] => (Return tt, st)
  | doc_file :: rest =>
      match read_text (fs st) doc_file with
      | Raise e => (Raise e, st)
      | Return text => index_all rest (index_document (VStr (stem doc_file)) text st)
      end
  end.

Definition startup (files : filesystem) : outcome unit * state :=
  let st := {| fs := files; document_index := [] |} in
  match files !! DOCUMENTS_DIR with
  | Some (File _) => (Raise (eexist DOCUMENTS_DIR), st)
  | Some Dir => index_all (glob_txt files DOCUMENTS_DIR) st
  | None =>
      let st := set_fs st (<[DOCUMENTS_DIR := Dir]> files) in
      index_all (glob_txt (fs st) DOCUMENTS_DIR) st
  end.

End DocumentServer.


(** ** [servers/database_server.py] *)

Module DatabaseServer.
Import Py.

(** A value stored in a table or returned in a row. *)
Inductive sqlvalue :=
| SNull
| SInteger (z : Z)
| SReal (x : float)
| SText (s : string).

(** A Python value bound to a [?] placeholder. *)
Inductive param :=
| PNull
| PInteger (z : Z)
| PText (s : string).

(** A [sqlite3.Row]: the columns in order, each with its name. *)
Definition row : Type := list (string * sqlvalue).

(** What [json.dumps] is given. *)
Inductive json :=
| JNull
| JInt (z : Z)
| JReal (x : float)
| JStr (s : string)
| JList (items : list json)
| JObj (fields : list (string * json)).

Record user_row := {
  user_id : Z;
  user_name : string;
  user_email : string;
  user_age : sqlvalue;
  user_created_at : sqlvalue
}.

Record product_row := {
  product_id : Z;
  product_name : string;
  price : sqlvalue;
  category : sqlvalue;
  stock : sqlvalue
}.

(** The database file [example.db]: the names [sqlite_master] lists as
    tables, the rows of [users] and [products] (which have the schema
    [init_database] gives them) and their [sqlite_sequence] entries. *)
Record database := {
  tables : list string;
  users : list user_row;
  users_seq : Z;
  products : list product_row;
  products_seq : Z
}.

(** The domain state: the database and the SQL text handed to
    [cursor.execute] so far. *)
Record state := {
  db : database;
  executed : list string
}.

Inductive exec_result :=
| ExecRaise (e : exn)
| ExecOk (rows : list row) (rowcount : Z) (db' : database).

Definition table_exists (t : string) (d : database) : bool :=
  existsb (Stdlib.Strings.String.eqb t) (tables d).

Definition execute (sql : string) (st : state) : state :=
  {| db := db st; executed := executed st ++ [sql] |}.

Definition commit (d : database) (st : state) : state :=
  {| db := d; executed := executed st |}.

Definition list_tools : list Tool := [
  {| name := "execute_query";
     description := "Execute a SQL query and return results";
     properties := [("query", "string")];
     required := ["query"] |};
  {| name := "list_tables";
     description := "List all tables in the database";
     properties := [];
     required := [] |};
  {| name := "describe_table";
     description := "Get schema information for a specific table";
     properties := [("table_name", "string")];
     required := ["table_name"] |};
  {| name := "insert_user";
     description := "Insert a new user into the users table";
     properties := [("name", "string"); ("email", "string"); ("age", "integer")];
     required := ["name"; "email"; "age"] |};
  {| name := "get_user";
     description := "Get a user by email";
     properties := [("email", "string")];
     required := ["email"] |}
].

Definition list_resources : list Resource := [
  {| uri := "db://schema";
     resource_name := "Database Schema";
     resource_description := "Schema information for the database";
     mimeType := "application/json" |};
  {| uri := "db://tables";
     resource_name := "Database Tables";
     resource_description := "List of all tables in the database";
     mimeType := "application/json" |}
].

(** Binding a Python value: SQLite integers have 64 bits. *)
Definition bind (v : value) : outcome param :=
  match v with
  | VNone => Return PNull
  | VStr s => Return (PText s)
  | VInt z =>
      if (- 2 ^ 63 <=? z) && (z <? 2 ^ 63) then Return (PInteger z)
      else Raise (Exn OverflowError "Python int too large to convert to SQLite INTEGER")
  end.

(** A parameter as a [TEXT] column stores or compares it. *)
Definition text_affinity (p : param) : option string :=
  match p with
  | PNull => None
  | PInteger z => Some (str_of_Z z)
  | PText s => Some s
  end.

Definition max_rowid (ids : list Z) : Z := fold_right Z.max 0 ids.

(** The key an [AUTOINCREMENT] column gives the next row. *)
Definition next_rowid (seq : Z) (ids : list Z) : Z := Z.max seq (max_rowid ids) + 1.

Definition truthy_sql (v : sqlvalue) : bool :=
  match v with
  | SNull => false
  | SInteger z => negb (z =? 0)
  | SReal x => negb (PrimFloat.eqb x 0%float)
  | SText s => negb (is_empty s)
  end.

Definition json_of (v : sqlvalue) : json :=
  match v with
  | SNull => JNull
  | SInteger z => JInt z
  | SReal x => JReal x
  | SText s => JStr s
  end.

Definition ascii_lower (c : ascii) : ascii :=
  if in_range 65 90 c then shift_char c false else c.

Fixpoint is_ascii (s : string) : bool :=
  match s with
  | EmptyString => true
  | String c s' => (code c <? 128)%N && is_ascii s'
  end.

Fixpoint ascii_lowered (s : string) : string :=
  match s with
  | EmptyString => EmptyString
  | String c s' => String (ascii_lower c) (ascii_lowered s')
  end.

(** The comparison [row[name]] makes with a column's name: the two are
    equal, or both are ASCII and differ in the case of letters only. *)
Definition same_column (column name : string) : bool :=
  Stdlib.Strings.String.eqb column name
  || (is_ascii column && is_ascii name
      && Stdlib.Strings.String.eqb (ascii_lowered column) (ascii_lowered name)).

(** [row[name]]: the first column that answers to the name. *)
Definition row_named (r : row) (name : string) : option sqlvalue :=
  option_map snd (List.find (λ kv, same_column (fst kv) name) r).

(** [dict(row)]: every column name of [row.keys()] in turn, with
    [row[name]] as its value. *)
Definition dict_of_row (r : row) : json :=
  JObj (fold_left
          (λ d kv, dict_set d (fst kv) (json_of (default (snd kv) (row_named r (fst kv)))))
          r []).

Definition row_of_user (u : user_row) : row := [
  ("id", SInteger (user_id u));
  ("name", SText (user_name u));
  ("email", SText (user_email u));
  ("age", user_age u);
  ("created_at", user_created_at u)
].

(** [row[i]] *)
Definition row_item (r : row) (i : nat) : outcome sqlvalue :=
  match nth_error r i with
  | Some kv => Return (snd kv)
  | None => Raise (Exn IndexError "Index out of range")
  end.

Section Sqlite.
(** SQLite running one statement given as text, outside or inside the
    transaction [sqlite3] opens for it. *)
Variable sqlite_execute : string → database → exec_result.
(** The value an [INTEGER] column stores for a text. *)
Variable numeric_affinity : string → sqlvalue.
(** The [CREATE TABLE] text [sqlite_master] keeps for a table. *)
Variable recorded_sql : string → string.
(** [CURRENT_TIMESTAMP] when the statement after [n] others runs. *)
Variable CURRENT_TIMESTAMP : nat → string.
(** [json.dumps(obj, indent=2)] and [str] of a float. *)
Variable json_dumps : json → string.
Variable float_str : float → string.

Definition sql_str (v : sqlvalue) : string :=
  match v with
  | SNull => "None"
  | SInteger z => str_of_Z z
  | SReal x => float_str x
  | SText s => s
  end.

Definition integer_affinity (p : param) : sqlvalue :=
  match p with
  | PNull => SNull
  | PInteger z => SInteger z
  | PText s => numeric_affinity s
  end.

Definition no_such_table (t : string) : exn :=
  Exn OperationalError ("no such table: " +:+ t).

(** [INSERT INTO users (name, email, age) VALUES (?, ?, ?)] run to its
    end: the new row's key, or the error that leaves the table as it was. *)
Definition insert_into_users (name email age : param) (now : string) (d : database)
  : outcome Z * database :=
  if negb (table_exists "users" d) then (Raise (no_such_table "users"), d)
  else
    let id := next_rowid (users_seq d) (map user_id (users d)) in
    if 2 ^ 63 <=? id then (Raise (Exn OperationalError "database or disk is full"), d)
    else
      match text_affinity name, text_affinity email with
      | None, _ =>
          (Raise (Exn IntegrityError "NOT NULL constraint failed: users.name"), d)
      | Some _, None =>
          (Raise (Exn IntegrityError "NOT NULL constraint failed: users.email"), d)
      | Some n, Some e =>
          if existsb (λ u, Stdlib.Strings.String.eqb (user_email u) e) (users d) then
            (Raise (Exn IntegrityError "UNIQUE constraint failed: users.email"), d)
          else
            (Return id,
             {| tables := tables d;
                users := users d ++ [{| user_id := id;
                                        user_name := n;
                                        user_email := e;
                                        user_age := integer_affinity age;
                                        user_created_at := SText now |}];
                users_seq := id;
                products := products d;
                products_seq := products_seq d |})
      end.

(** [SELECT * FROM users WHERE email = ?], first row. *)
Definition select_user (email : param) (d : database) : outcome (option user_row) :=
  if negb (table_exists "users" d) then Raise (no_such_table "users")
  else
    match text_affinity email with
    | None => Return None
    | Some e =>
        Return (List.find (λ u, Stdlib.Strings.String.eqb (user_email u) e) (users d))
    end.

Definition execute_query (query : value) (st : state)
  : outcome (list content) * state :=
  let failed e st' := (reply ("Error executing query: " +:+ msg e), st') in
  match query with
  | VStr q =>
      let query_upper := upper (strip q) in
      if negb (existsb (startswith query_upper) ["SELECT"; "INSERT"; "UPDATE"; "DELETE"])
      then (reply "Error: Only SELECT, INSERT, UPDATE, DELETE queries are allowed", st)
      else
        let st := execute q st in
        match sqlite_execute q (db st) with
        | ExecRaise e => failed e st
        | ExecOk rows rowcount db' =>
            if startswith query_upper "SELECT" then
              match rows with
              | [] =>
                  (reply "Query executed successfully, but returned no results",
                   commit db' st)
              | _ =>
                  let results := map dict_of_row rows in
                  (reply ("Query results (" +:+ str_of_nat (length results) +:+ " rows):"
                          +:+ nl +:+ json_dumps (JList results)),
                   commit db' st)
              end
            else
              (reply ("Query executed successfully. Rows affected: " +:+ str_of_Z rowcount),
               commit db' st)
        end
  | _ => failed (no_attribute query "strip") st
  end.

(** [list_tables]: the query on [sqlite_master] has nothing to fail on
    in a database that could be opened. *)
Definition list_tables (st : state) : outcome (list content) * state :=
  let st := execute "SELECT name FROM sqlite_master WHERE type='table'" st in
  (reply ("Database tables:" +:+ nl
          +:+ join nl (map (λ table, "- " +:+ table) (tables (db st)))), st).

(** One line of [column_info] for a row of [PRAGMA table_info]. *)
Definition describe_column (col : row) : outcome string :=
  match row_item col 1 with
  | Raise e => Raise e
  | Return col_name =>
      match row_item col 2 with
      | Raise e => Raise e
      | Return col_type =>
          match row_item col 3 with
          | Raise e => Raise e
          | Return notnull =>
              Return ("- " +:+ sql_str col_name +:+ " (" +:+ sql_str col_type +:+ ")"
                      +:+ (if truthy_sql notnull then " NOT NULL" else EmptyString))
          end
      end
  end.

Fixpoint describe_columns (columns : list row) : outcome (list string) :=
  match columns with
  | [] => Return []
  | col :: rest =>
      match describe_column col with
      | Raise e => Raise e
      | Return line =>
          match describe_columns rest with
          | Raise e => Raise e
          | Return lines => Return (line :: lines)
          end
      end
  end.

Definition describe_table (table_name : value) (st : state)
  : outcome (list content) * state :=
  let failed e st' := (reply ("Error describing table: " +:+ msg e), st') in
  let sql := "PRAGMA table_info(" +:+ py_str table_name +:+ ")" in
  let st := execute sql st in
  match sqlite_execute sql (db st) with
  | ExecRaise e => failed e st
  | ExecOk columns _ db' =>
      let st := commit db' st in
      match columns with
      | [] => (reply ("Table '" +:+ py_str table_name +:+ "' not found"), st)
      | _ =>
          match describe_columns columns with
          | Raise e => failed e st
          | Return column_info =>
              (reply ("Table '" +:+ py_str table_name +:+ "' schema:" +:+ nl
                      +:+ join nl column_info), st)
          end
      end
  end.

Definition bind3 (a b c : value) : outcome (param * param * param) :=
  match bind a with
  | Raise e => Raise e
  | Return pa =>
      match bind b with
      | Raise e => Raise e
      | Return pb =>
          match bind c with
          | Raise e => Raise e
          | Return pc => Return (pa, pb, pc)
          end
      end
  end.

Definition insert_user (name email age : value) (st : state)
  : outcome (list content) * state :=
  let now := CURRENT_TIMESTAMP (length (executed st)) in
  let st := execute "INSERT INTO users (name, email, age) VALUES (?, ?, ?)" st in
  let inserted :=
    if negb (table_exists "users" (db st)) then (Raise (no_such_table "users"), db st)
    else
      match bind3 name email age with
      | Raise e => (Raise e, db st)
      | Return (n, e, a) => insert_into_users n e a now (db st)
      end in
  match inserted with
  | (Return lastrowid, db') =>
      (reply ("User '" +:+ py_str name +:+ "' inserted successfully with ID "
              +:+ str_of_Z lastrowid), commit db' st)
  | (Raise e, _) =>
      match cls e with
      | IntegrityError => (reply ("Error: " +:+ msg e), st)
      | _ => (reply ("Error inserting user: " +:+ msg e), st)
      end
  end.

Definition get_user (email : value) (st : state) : outcome (list content) * state :=
  let st := execute "SELECT * FROM users WHERE email = ?" st in
  if negb (table_exists "users" (db st)) then (Raise (no_such_table "users"), st)
  else
    match bind email with
    | Raise e => (Raise e, st)
    | Return e =>
        match select_user e (db st) with
        | Raise err => (Raise err, st)
        | Return (Some user) =>
            (reply ("User found:" +:+ nl +:+ json_dumps (dict_of_row (row_of_user user))),
             st)
        | Return None => (reply ("No user found with email: " +:+ py_str email), st)
        end
    end.

(** Past its test of the arguments, every handler opens [example.db]
    anew with [get_connection()], which makes the file when it is
    missing.  Opening is taken to succeed, as it does while the file is
    where [init_database] left it; the state is what the file holds. *)
Definition call_tool (name : string) (arguments : gmap string value) (st : state)
  : outcome (list content) * state :=
  if decide (name = "execute_query") then
    let query := get arguments "query" in
    if negb (truthy query) then (Raise (Exn ValueError "query is required"), st)
    else execute_query query st
  else if decide (name = "list_tables") then list_tables st
  else if decide (name = "describe_table") then
    let table_name := get arguments "table_name" in
    if negb (truthy table_name) then
      (Raise (Exn ValueError "table_name is required"), st)
    else describe_table table_name st
  else if decide (name = "insert_user") then
    let name := get arguments "name" in
    let email := get arguments "email" in
    let age := get arguments "age" in
    if negb (forallb id [truthy name; truthy email; negb (is_None age)]) then
      (Raise (Exn ValueError "name, email, and age are required"), st)
    else insert_user name email age st
  else if decide (name = "get_user") then
    let email := get arguments "email" in
    if negb (truthy email) then (Raise (Exn ValueError "email is required"), st)
    else get_user email st
  else (Raise (Exn ValueError ("Unknown tool: " +:+ name)), st).

Definition read_resource (uri : string) (st : state) : outcome string * state :=
  if decide (uri = "db://schema") then
    let st := execute "SELECT name, sql FROM sqlite_master WHERE type='table'" st in
    let schema :=
      fold_left (λ d t, dict_set d t (JStr (recorded_sql t))) (tables (db st)) [] in
    (Return (json_dumps (JObj schema)), st)
  else if decide (uri = "db://tables") then
    let st := execute "SELECT name FROM sqlite_master WHERE type='table'" st in
    (Return (json_dumps (JList (map JStr (tables (db st))))), st)
  else (Raise (Exn ValueError ("Unknown resource: " +:+ uri)), st).

(** [CREATE TABLE IF NOT EXISTS t (... AUTOINCREMENT ...)]: a new table
    is listed, after it [sqlite_sequence] when that is new too. *)
Definition create_table (t : string) (d : list string) : list string :=
  if existsb (Stdlib.Strings.String.eqb t) d then d
  else if existsb (Stdlib.Strings.String.eqb "sqlite_sequence") d then d ++ [t]
  else d ++ [t; "sqlite_sequence"].

(** [INSERT INTO products (name, price, category, stock) VALUES (?, ?, ?, ?)]
    for one of the sample rows. *)
Definition insert_into_products (p : string * float * string * Z) (d : database)
  : outcome Z * database :=
  if negb (table_exists "products" d) then (Raise (no_such_table "products"), d)
  else
    let id := next_rowid (products_seq d) (map product_id (products d)) in
    if 2 ^ 63 <=? id then (Raise (Exn OperationalError "database or disk is full"), d)
    else
      (Return id,
       {| tables := tables d;
          users := users d;
          users_seq := users_seq d;
          products := products d ++ [{| product_id := id;
                                        product_name := fst (fst (fst p));
                                        price := SReal (snd (fst (fst p)));
                                        category := SText (snd (fst p));
                                        stock := SInteger (snd p) |}];
          products_seq := id |}).

(** [cursor.executemany] of the two [INSERT] statements: the rows in
    order; the first one SQLite refuses ends the call. *)
Fixpoint executemany_users (now : string) (seeds : list (string * string * Z))
  (d : database) : outcome unit * database :=
  match seeds with
  | [] => (Return tt, d)
  | u :: rest =>
      match insert_into_users (PText (fst (fst u))) (PText (snd (fst u)))
              (PInteger (snd u)) now d with
      | (Raise e, d') => (Raise e, d')
      | (Return _, d') => executemany_users now rest d'
      end
  end.

Fixpoint executemany_products (seeds : list (string * float * string * Z))
  (d : database) : outcome unit * database :=
  match seeds with
  | [] => (Return tt, d)
  | p :: rest =>
      match insert_into_products p d with
      | (Raise e, d') => (Raise e, d')
      | (Return _, d') => executemany_products rest d'
      end
  end.

(** [init_database]: the two [CREATE TABLE] statements run outside a
    transaction and stay; the sample rows are one transaction, which the
    [conn.commit()] at the end keeps and an exception before it loses.
    The result is the exception, if any, and the database file as the
    call leaves it. *)
Definition init_database (d : database) (now : string) : outcome unit * database :=
  let had_users := table_exists "users" d in
  let d := {| tables := create_table "users" (tables d);
              users := if had_users then users d else [];
              users_seq := if had_users then users_seq d else 0;
              products := products d;
              products_seq := products_seq d |} in
  let had_products := table_exists "products" d in
  let created := {| tables := create_table "products" (tables d);
                    users := users d;
                    users_seq := users_seq d;
                    products := if had_products then products d else [];
                    products_seq := if had_products then products_seq d else 0 |} in
  let with_users :=
    match users created with
    | [] => executemany_users now [
              ("Alice Johnson", "alice@example.com", 30);
              ("Bob Smith", "bob@example.com", 25);
              ("Charlie Brown", "charlie@example.com", 35)] created
    | _ => (Return tt, created)
    end in
  match with_users with
  | (Raise e, _) => (Raise e, created)
  | (Return _, d) =>
      let with_products :=
        match products d with
        | [] => executemany_products [
                  ("Laptop", 999.99%float, "Electronics", 10);
                  ("Mouse", 29.99%float, "Electronics", 50);
                  ("Desk Chair", 199.99%float, "Furniture", 15)] d
        | _ => (Return tt, d)
        end in
      match with_products with
      | (Raise e, _) => (Raise e, created)
      | (Return _, d) => (Return tt, d)
      end
  end.

(** The file [sqlite3.connect] makes when there is none. *)
Definition empty_database : database :=
  {| tables := []; users := []; users_seq := 0; products := []; products_seq := 0 |}.

End Sqlite.

End DatabaseServer.


(** ** The three servers behind one dispatcher *)

Inductive server := Code | Database | Document.

Definition server_state (s : server) : Type :=
  match s with
  | Code => CodeServer.state
  | Database => DatabaseServer.state
  | Document => DocumentServer.state
  end.

(** The static tool catalog of a server. *)
Definition tools (s : server) : list Py.Tool :=
  match s with
  | Code => CodeServer.list_tools
  | Database => DatabaseServer.list_tools
  | Document => DocumentServer.list_tools
  end.

(** A required key that is absent from the argument map, or null in it. *)
Definition missing (arguments : gmap string Py.value) (key : string) : Prop :=
  arguments !! key = None ∨ arguments !! key = Some Py.VNone.

(** The five parts of the environment that the servers call out to. *)
Section Dispatcher.
Import Py Fs.

Variable python : string → filesystem → CodeServer.process.
Variable executable : string.
Variable sqlite_execute : string → DatabaseServer.database → DatabaseServer.exec_result.
Variable numeric_affinity : string → DatabaseServer.sqlvalue.
Variable CURRENT_TIMESTAMP : nat → string.
Variable json_dumps : DatabaseServer.json → string.
Variable float_str : float → string.

(** [call_tool] of the server [s]. *)
Definition call_tool (s : server) (name : string) (arguments : gmap string value)
  : server_state s → outcome (list content) * server_state s :=
  match s with
  | Code => CodeServer.call_tool python executable name arguments
  | Database =>
      DatabaseServer.call_tool sqlite_execute numeric_affinity CURRENT_TIMESTAMP
        json_dumps float_str name arguments
  | Document => DocumentServer.call_tool name arguments
  end.

(** Whether [execute_query] lets a statement through to SQLite. *)
Definition allowed (query : string) : bool :=
  existsb (startswith (upper (strip query))) ["SELECT"; "INSERT"; "UPDATE"; "DELETE"].

Definition rejection : string :=
  "Error: Only SELECT, INSERT, UPDATE, DELETE queries are allowed".

(** The e-mail address is the one of some row of [users]. *)
Definition email_taken (e : string) (d : DatabaseServer.database) : bool :=
  existsb (λ u, Stdlib.Strings.String.eqb (DatabaseServer.user_email u) e)
          (DatabaseServer.users d).

(** The entries of [matches] all carry a string for a name. *)
Definition named_by_strings {B : Type} (entries : list (value * B)) : Prop :=
  ∀ key b, In (key, b) entries → ∃ n, key = VStr n.

(** The file [p] is not indexed under its stem and its lowercased text
    holds [query_lower], [k] times. *)
Definition file_hit (query_lower : string) (st : DocumentServer.state)
    (p : path) (k : nat) : Prop :=
  dict_in (VStr (stem p)) (DocumentServer.document_index st) = false
  ∧ ∃ text, read_text (DocumentServer.fs st) p = Return text
            ∧ contains query_lower (lower text) = true
            ∧ k = count (lower text) query_lower.

(** The entry of the index under [key] holds [query_lower], [k] times. *)
Definition index_hit (query_lower : string) (st : DocumentServer.state)
    (key : value) (k : nat) : Prop :=
  ∃ text, In (key, text) (DocumentServer.document_index st)
          ∧ contains query_lower text = true
          ∧ k = count text query_lower.

(** The index holds, under the stem of [p], the lowercased text of [p]. *)
Definition indexed_from (st : DocumentServer.state) (p : path) : Prop :=
  ∃ text, read_text (DocumentServer.fs st) p = Return text
          ∧ dict_get (DocumentServer.document_index st) (VStr (stem p))
            = Some (lower text).

(** Every file of [files] that the index does not know can be read. *)
Definition readable (files : list path) (st : DocumentServer.state) : Prop :=
  ∀ p, In p files →
       dict_in (VStr (stem p)) (DocumentServer.document_index st) = false →
       ∃ text, read_text (DocumentServer.fs st) p = Return text.

(** The text [search_documents] returns for the entries it lists. *)
Definition search_reply (q : string) (listed : list (value * nat)) : string :=
  match listed with
  | [] => "No documents found containing '" +:+ q +:+ "'"
  | _ => "Search results for '" +:+ q +:+ "':" +:+ nl
         +:+ join nl (map DocumentServer.render_match listed)
  end.

End Dispatcher.

(** An environment to run the servers in: an interpreter whose programs
    all print nothing and take the given time, and an SQLite that finds
    no column for any table name and no sense in any other statement. *)
Module Fixture.
Import Py Fs.

(** A program that starts a [sleep] and does not wait for it. *)
Definition spawn : string := "subprocess.Popen(['sleep', '60'])".

(** A program that starts the [sleep] and sleeps fifteen seconds. *)
Definition spawning : string :=
  "import subprocess, time; " +:+ spawn +:+ "; time.sleep(15)".

(** An interpreter whose programs print nothing, write nothing and take
    [seconds]; a program with [spawn] in it starts the [sleep] at once. *)
Definition python (seconds : Q) (program : string) (files : filesystem)
  : CodeServer.process :=
  let started := if contains spawn program then ["sleep 60"] else [] in
  {| CodeServer.runtime := Some seconds;
     CodeServer.output_closed := Some seconds;
     CodeServer.stdout := EmptyString;
     CodeServer.stderr := EmptyString;
     CodeServer.returncode := 0;
     CodeServer.fs_at_exit := files;
     CodeServer.fs_at_kill := files;
     CodeServer.started_at_exit := started;
     CodeServer.started_at_kill := started |}.

Definition executable : string := "/usr/bin/python3".

Definition sqlite_execute (sql : string) (d : DatabaseServer.database)
  : DatabaseServer.exec_result :=
  if startswith sql "PRAGMA table_info(" then DatabaseServer.ExecOk [] (-1) d
  else DatabaseServer.ExecRaise
         (Exn OperationalError ("near " +:+ repr sql +:+ ": syntax error")).

Definition numeric_affinity (s : string) : DatabaseServer.sqlvalue :=
  DatabaseServer.SText s.

Definition CURRENT_TIMESTAMP (n : nat) : string := "2025-12-01 00:00:00".

Definition json_dumps (j : DatabaseServer.json) : string := "{}".

Definition float_str (x : float) : string := "0.0".

(** A text of two lines, the first ended by a carriage return. *)
Definition two_lines : string := "a" +:+ String CR "b".

(** The working directory with an empty [documents] directory. *)
Definition files : filesystem := <[DocumentServer.DOCUMENTS_DIR := Dir]> ∅.

Definition code_state : CodeServer.state := CodeServer.initial_state files.

Definition document_state : DocumentServer.state :=
  {| DocumentServer.fs := files; DocumentServer.document_index := [] |}.

(** The same with a file [documents/x.txt] put there behind the
    server's back, which the index does not know. *)
Definition stray_state : DocumentServer.state :=
  {| DocumentServer.fs := <[Path "documents/x.txt" := File "abc"]> files;
     DocumentServer.document_index := [] |}.

(** A database file whose [users] table has lost its rows and has
    handed out the last key there is. *)
Definition exhausted : DatabaseServer.database :=
  {| DatabaseServer.tables := ["users"; "sqlite_sequence"; "products"];
     DatabaseServer.users := [];
     DatabaseServer.users_seq := 2 ^ 63 - 1;
     DatabaseServer.products := [];
     DatabaseServer.products_seq := 0 |}.

(** The database after [init_database] on a new file. *)
Definition database_state : DatabaseServer.state :=
  {| DatabaseServer.db :=
       snd (DatabaseServer.init_database numeric_affinity
              DatabaseServer.empty_database (CURRENT_TIMESTAMP 0));
     DatabaseServer.executed := [] |}.

(** The three servers in this environment, with programs that take
    fifteen seconds. *)
Definition run :=
  call_tool (python 15) executable sqlite_execute numeric_affinity CURRENT_TIMESTAMP
    json_dumps float_str.

End Fixture.

(** ** Properties of the dispatchers *)

Section Properties.
Import Py Fs.

Variable python : string → filesystem → CodeServer.process.
Variable executable : string.
Variable sqlite_execute : string → DatabaseServer.database → DatabaseServer.exec_result.
Variable numeric_affinity : string → DatabaseServer.sqlvalue.
Variable CURRENT_TIMESTAMP : nat → string.
Variable json_dumps : DatabaseServer.json → string.
Variable float_str : float → string.

Local Abbreviation dispatch :=
  (call_tool python executable sqlite_execute numeric_affinity CURRENT_TIMESTAMP
     json_dumps float_str).

(** *** Reading the argument map *)

Lemma get_missing (arguments : gmap string value) (key : string) :
  missing arguments key → get arguments key = VNone.
Proof. unfold get. intros [-> | ->]; reflexivity. Qed.

Lemma get_present (arguments : gmap string value) (key : string) (v : value) :
  arguments !! key = Some v → get arguments key = v.
Proof. unfold get. intros ->. reflexivity. Qed.

Section DictFacts.
Context {K V : Type} `{EqDecision K}.

Lemma dict_get_set_eq (d : dict K V) (k : K) (v : V) :
  dict_get (dict_set d k v) k = Some v.
Proof.
  induction d as [ | [k' v'] d IH]; cbn.
  - rewrite decide_True by reflexivity. reflexivity.
  - destruct (decide (k = k')) as [-> | Hne]; cbn.
    + rewrite decide_True by reflexivity. reflexivity.
    + rewrite decide_False by assumption. exact IH.
Qed.

Lemma dict_get_set_ne (d : dict K V) (k k' : K) (v : V) :
  k ≠ k' → dict_get (dict_set d k v) k' = dict_get d k'.
Proof.
  intros Hne. induction d as [ | [k0 v0] d IH]; cbn.
  - rewrite decide_False by congruence. reflexivity.
  - destruct (decide (k = k0)) as [-> | Hne0]; cbn.
    + rewrite !decide_False by congruence. reflexivity.
    + destruct (decide (k' = k0)); [ reflexivity | exact IH ].
Qed.

Lemma dict_in_set (d : dict K V) (k k' : K) (v : V) :
  dict_in k' (dict_set d k v) = bool_decide (k = k') || dict_in k' d.
Proof.
  unfold dict_in. destruct (decide (k = k')) as [-> | Hne].
  - rewrite dict_get_set_eq, bool_decide_eq_true_2 by reflexivity. reflexivity.
  - rewrite dict_get_set_ne, bool_decide_eq_false_2 by assumption. reflexivity.
Qed.

Lemma dict_get_In (d : dict K V) (k : K) (v : V) :
  dict_get d k = Some v → In (k, v) d.
Proof.
  induction d as [ | [k' v'] d IH]; cbn; [ discriminate | ].
  destruct (decide (k = k')) as [-> | Hne].
  - intros [= ->]. left. reflexivity.
  - intros H. right. exact (IH H).
Qed.

Lemma In_dict_in (d : dict K V) (k : K) (v : V) :
  In (k, v) d → dict_in k d = true.
Proof.
  unfold dict_in. induction d as [ | [k' v'] d IH]; cbn; [ contradiction | ].
  intros [[= -> ->] | Hin].
  - rewrite decide_True by reflexivity. reflexivity.
  - destruct (decide (k = k')); [ reflexivity | exact (IH Hin) ].
Qed.
End DictFacts.

(** Picks the branch of [call_tool] that a literal tool name selects. *)
Ltac select_tool :=
  repeat first [ rewrite decide_True by reflexivity
               | rewrite decide_False by discriminate ];
  cbv beta iota.

Ltac unfold_dispatch :=
  unfold call_tool, CodeServer.call_tool, DatabaseServer.call_tool,
    DocumentServer.call_tool.

(** C1: for every declared tool of each server and every argument map in
    which a required key is absent or null, [call_tool] raises a
    [ValueError] and leaves the domain state as it was: no file, snippet,
    process or SQL statement is touched. *)
Theorem missing_required_argument_raises
    (s : server) (tool : Tool) (key : string)
    (arguments : gmap string value) (st : server_state s) :
  In tool (tools s) →
  In key (required tool) →
  missing arguments key →
  ∃ e, dispatch s (name tool) arguments st = (Raise e, st) ∧ cls e = ValueError.
Proof.
  intros Htool Hkey Hmissing%get_missing.
  destruct s; simpl in Htool;
    repeat (destruct Htool as [<- | Htool]; [ | ]); try contradiction;
    simpl in Hkey;
    repeat (destruct Hkey as [<- | Hkey]; [ | ]); try contradiction;
    unfold_dispatch; cbn [name];
    select_tool; rewrite Hmissing; cbn [truthy is_None negb orb forallb id andb];
    rewrite ?orb_true_r, ?andb_false_r; cbn [negb];
    eexists; (split; [ reflexivity | reflexivity ]).
Qed.

(** C9: for every tool name that the catalog of a server does not list,
    [call_tool] raises [ValueError("Unknown tool: ...")] and leaves the
    domain state as it was. *)
Theorem unknown_tool_raises
    (s : server) (tool_name : string)
    (arguments : gmap string value) (st : server_state s) :
  ¬ In tool_name (map name (tools s)) →
  dispatch s tool_name arguments st
  = (Raise (Exn ValueError ("Unknown tool: " +:+ tool_name)), st).
Proof.
  intros Hnew.
  destruct s; simpl in Hnew; unfold_dispatch;
    repeat (rewrite decide_False by (intros ->; apply Hnew; tauto));
    reflexivity.
Qed.

Lemma truthy_str (s : string) : s ≠ EmptyString → truthy (VStr s) = true.
Proof. destruct s; [ congruence | reflexivity ]. Qed.

Lemma get_str (arguments : gmap string value) (key s : string) :
  arguments !! key = Some (VStr s) → s ≠ EmptyString →
  get arguments key = VStr s ∧ truthy (get arguments key) = true.
Proof.
  intros Hkey Hs. rewrite (get_present _ _ _ Hkey). auto using truthy_str.
Qed.

Lemma without_first (program : string) (procs : list string) :
  CodeServer.without program (program :: procs) = procs.
Proof. cbn [CodeServer.without]. rewrite decide_True by reflexivity. reflexivity. Qed.

(** A child that outlives the ten seconds is killed and reaped, and
    [execute_code] reports the timeout; what the child has started by
    then is still there. *)
Lemma execute_code_timeout (program : string) (st : CodeServer.state) :
  has_char NUL program = false →
  CodeServer.outlives 10 (python program (CodeServer.fs st)) →
  ∃ st',
    CodeServer.execute_code python executable (VStr program) st
    = (reply "Error: Code execution timed out (max 10 seconds)", st')
    ∧ CodeServer.running st'
      = CodeServer.running st
        ++ CodeServer.started_at_kill (python program (CodeServer.fs st))
    ∧ CodeServer.code_store st' = CodeServer.code_store st.
Proof.
  intros Hnul Hlong.
  unfold CodeServer.execute_code, CodeServer.subprocess_run.
  rewrite Hnul.
  cbn [CodeServer.Popen CodeServer.set_running CodeServer.fs].
  assert (CodeServer.communicated 10 (python program (CodeServer.fs st)) = false) as ->.
  { unfold CodeServer.communicated, CodeServer.within.
    unfold CodeServer.outlives in Hlong.
    destruct (CodeServer.runtime (python program (CodeServer.fs st))) as [t | ];
      [ rewrite Hlong | ]; reflexivity. }
  eexists. split; [ reflexivity | ].
  cbn [CodeServer.kill CodeServer.started CodeServer.set_fs CodeServer.set_running
         CodeServer.running CodeServer.code_store].
  unfold CodeServer.Popen.
  cbn [CodeServer.set_running CodeServer.running CodeServer.code_store app].
  rewrite without_first. split; reflexivity.
Qed.

(** C7, as the code has it: an [execute_code] call whose program is
    still running after the ten seconds returns the timeout as error
    text, not a completion.  The interpreter that ran the program is
    killed and reaped; the processes that the program itself has started
    by then are not, and are all that the call leaves running. *)
Theorem execute_code_times_out
    (arguments : gmap string value) (program : string) (st : CodeServer.state) :
  arguments !! "code" = Some (VStr program) →
  program ≠ EmptyString →
  has_char NUL program = false →
  CodeServer.outlives 10 (python program (CodeServer.fs st)) →
  ∃ st',
    dispatch Code "execute_code" arguments st
    = (reply "Error: Code execution timed out (max 10 seconds)", st')
    ∧ CodeServer.running st'
      = CodeServer.running st
        ++ CodeServer.started_at_kill (python program (CodeServer.fs st)).
Proof.
  intros Hcode Hprogram Hnul Hlong.
  destruct (get_str _ _ _ Hcode Hprogram) as [Hget Htruthy].
  unfold_dispatch. select_tool. rewrite Htruthy, Hget. cbn [negb].
  destruct (execute_code_timeout program st Hnul Hlong) as (st' & -> & Hrun & _).
  eauto.
Qed.

(** *** The file system *)

Lemma path_exists_false (files : filesystem) (p : path) :
  path_exists files p = false → exists_ files p = Return false.
Proof.
  unfold path_exists. destruct (exists_ files p) as [[ | ] | e]; congruence.
Qed.

Lemma read_text_look_up (files : filesystem) (p : path) (text : string) :
  read_text files p = Return text → ∃ found, look_up files p = Return found.
Proof.
  unfold read_text. destruct (look_up files p) as [found | e]; [ eauto | discriminate ].
Qed.

(** What can be read is there. *)
Lemma read_text_exists_ (files : filesystem) (p : path) (text : string) :
  read_text files p = Return text → exists_ files p = Return true.
Proof.
  intros [found Hfound]%read_text_look_up. unfold exists_. rewrite Hfound. reflexivity.
Qed.

Lemma read_text_exists (files : filesystem) (p : path) (text : string) :
  read_text files p = Return text → path_exists files p = true.
Proof.
  intros Hread%read_text_exists_. unfold path_exists. rewrite Hread. reflexivity.
Qed.

(** Where [exists] raises, reading raises the same. *)
Lemma exists_raises (files : filesystem) (p : path) (e : exn) :
  exists_ files p = Raise e → read_text files p = Raise e.
Proof.
  unfold exists_, read_text.
  destruct (look_up files p) as [found | e']; [ discriminate | ].
  destruct (ignored e'); congruence.
Qed.

(** A node put at [p] changes what [p] names, and nothing else. *)
Lemma entry_at_insert_ne (files : filesystem) (p q : path) (n : node) :
  q ≠ p → entry_at (<[p := n]> files) q = entry_at files q.
Proof.
  intros Hne. unfold entry_at. rewrite lookup_insert_ne by congruence. reflexivity.
Qed.

Lemma entry_at_delete_ne (files : filesystem) (p q : path) :
  q ≠ p → entry_at (delete p files) q = entry_at files q.
Proof.
  intros Hne. unfold entry_at. rewrite lookup_delete_ne by congruence. reflexivity.
Qed.

(** A path that the system does not provide names what the files have
    there. *)
Lemma entry_at_files (files : filesystem) (p : path) :
  is_root p || bool_decide (p = dev) = false →
  bool_decide (p = dev_null) = false →
  entry_at files p
  = match files !! p with
    | Some (File text) => Some (Regular text)
    | Some Dir => Some Directory
    | None => None
    end.
Proof. intros Hsystem Hnull. unfold entry_at. rewrite Hsystem, Hnull. reflexivity. Qed.

Lemma entry_at_not_system (files : filesystem) (p : path) :
  entry_at files p ≠ Some Directory →
  entry_at files p ≠ Some NullDevice →
  is_root p || bool_decide (p = dev) = false ∧ bool_decide (p = dev_null) = false.
Proof.
  unfold entry_at.
  destruct (is_root p || bool_decide (p = dev)); [ congruence | ].
  destruct (bool_decide (p = dev_null)); [ congruence | ]. auto.
Qed.

(** The walk to a path looks at the proper prefixes of the path only. *)
Lemma way_error_change (files files' : filesystem) (abs : bool) (target : path)
    (dirs : list string) :
  ∀ done : list string,
    (∀ q, (length (snd q) <= length done + length dirs)%nat →
          entry_at files' q = entry_at files q) →
    way_error files' abs done dirs target = way_error files abs done dirs target.
Proof.
  induction dirs as [ | d rest IH]; intros done Hsame; [ reflexivity | ].
  cbn [way_error]. destruct (name_too_long d); [ reflexivity | ].
  rewrite Hsame by (cbn [snd length]; rewrite length_app; cbn [length]; lia).
  destruct (entry_at files (abs, done ++ [d])) as [[text | | ] | ]; try reflexivity.
  apply IH. intros q Hq. apply Hsame.
  rewrite length_app in Hq. cbn [length] in *. lia.
Qed.

Lemma length_removelast (l : list string) :
  l ≠ [] → S (length (removelast l)) = length l.
Proof.
  intros Hl. destruct (exists_last Hl) as (l' & x & ->).
  rewrite removelast_last, length_app. cbn [length]. lia.
Qed.

Lemma walk_change (files files' : filesystem) (p : path) :
  (∀ q, (length (snd q) < length (snd p))%nat → entry_at files' q = entry_at files q) →
  walk files' p = walk files p.
Proof.
  intros Hsame. unfold walk.
  destruct (snd p) as [ | x l] eqn:Hparts; [ reflexivity | ].
  rewrite (way_error_change files files').
  - reflexivity.
  - intros q Hq. apply Hsame.
    pose proof (length_removelast (x :: l) ltac:(discriminate)) as Hlen.
    cbn [length] in *. lia.
Qed.

Lemma walk_insert (files : filesystem) (p q : path) (n : node) :
  (length (snd q) <= length (snd p))%nat →
  walk (<[p := n]> files) q = walk files q.
Proof.
  intros Hlen. apply walk_change. intros r Hr.
  apply entry_at_insert_ne. intros ->. lia.
Qed.

Lemma walk_delete (files : filesystem) (p q : path) :
  (length (snd q) <= length (snd p))%nat →
  walk (delete p files) q = walk files q.
Proof.
  intros Hlen. apply walk_change. intros r Hr.
  apply entry_at_delete_ne. intros ->. lia.
Qed.

(** What [write_text] leaves: the files as they were when the path names
    the null device, and the text at the path otherwise. *)
Lemma write_text_run (files files' : filesystem) (p : path) (text : string) :
  write_text files p text = (Return tt, files') →
  walk files p = None
  ∧ ((entry_at files p = Some NullDevice ∧ files' = files)
     ∨ (is_root p || bool_decide (p = dev) = false
        ∧ bool_decide (p = dev_null) = false
        ∧ files !! p ≠ Some Dir
        ∧ files' = <[p := File text]> files)).
Proof.
  unfold write_text, open_w.
  destruct (walk files p) as [e | ]; [ discriminate | ].
  destruct (entry_at files p) as [[text0 | | ] | ] eqn:Hentry; try discriminate;
    intros [= <-]; (split; [ reflexivity | ]); [ right | left; auto | right ].
  - destruct (entry_at_not_system files p) as [Hsystem Hnull]; try congruence.
    rewrite (entry_at_files _ _ Hsystem Hnull) in Hentry.
    repeat split; try assumption. intros Hdir. rewrite Hdir in Hentry. discriminate.
  - destruct (entry_at_not_system files p) as [Hsystem Hnull]; try congruence.
    rewrite (entry_at_files _ _ Hsystem Hnull) in Hentry.
    repeat split; try assumption. intros Hdir. rewrite Hdir in Hentry. discriminate.
Qed.





(** [execute_query] on a non-empty statement, by whether it is let through. *)
Lemma execute_query_rejected (q : string) (st : DatabaseServer.state) :
  allowed q = false →
  DatabaseServer.execute_query sqlite_execute json_dumps (VStr q) st
  = (reply rejection, st).
Proof.
  intros Hq. unfold DatabaseServer.execute_query. fold (allowed q).
  rewrite Hq. reflexivity.
Qed.

Lemma execute_query_executed (q : string) (st : DatabaseServer.state) :
  allowed q = true →
  ∃ text db',
    DatabaseServer.execute_query sqlite_execute json_dumps (VStr q) st
    = (reply text, {| DatabaseServer.db := db';
                      DatabaseServer.executed := DatabaseServer.executed st ++ [q] |})
    ∧ text ≠ rejection.
Proof.
  intros Hq. unfold DatabaseServer.execute_query. fold (allowed q).
  rewrite Hq. cbn [negb DatabaseServer.execute DatabaseServer.db].
  destruct (sqlite_execute q (DatabaseServer.db st)) as [e | rows rowcount db'].
  - eexists _, _. split; [ reflexivity | ].
    intros H. lazy beta iota delta [String.append rejection] in H. discriminate H.
  - destruct (startswith (upper (strip q)) "SELECT"); [ destruct rows | ];
      (eexists _, _; split; [ reflexivity | ]);
      intros H; lazy beta iota delta [String.append rejection] in H; discriminate H.
Qed.

(** C4, as the code has it: a non-empty query is rejected, with the text
    [Error: Only SELECT, INSERT, UPDATE, DELETE queries are allowed] in a
    returned response and nothing handed to SQLite, exactly when its
    stripped, uppercased text starts with none of the four verbs;
    otherwise the statement is handed to SQLite.  [DROP TABLE users] is
    rejected and the database is as it was. *)
Theorem execute_query_rejects_other_verbs
    (arguments : gmap string value) (q : string) (st : DatabaseServer.state) :
  arguments !! "query" = Some (VStr q) →
  q ≠ EmptyString →
  let result := dispatch Database "execute_query" arguments st in
  (fst result = reply rejection ↔ allowed q = false)
  ∧ (allowed q = false → snd result = st)
  ∧ (allowed q = true →
     DatabaseServer.executed (snd result) = DatabaseServer.executed st ++ [q])
  ∧ (q = "DROP TABLE users" →
     result = (reply rejection, st)
     ∧ DatabaseServer.table_exists "users" (DatabaseServer.db (snd result))
       = DatabaseServer.table_exists "users" (DatabaseServer.db st)).
Proof.
  intros Hkey Hq result.
  destruct (get_str _ _ _ Hkey Hq) as [Hget Htruthy].
  assert (result = DatabaseServer.execute_query sqlite_execute json_dumps (VStr q) st)
    as Hresult.
  { unfold result. unfold_dispatch. select_tool.
    rewrite Htruthy, Hget. reflexivity. }
  rewrite Hresult. clear Hresult result.
  destruct (allowed q) eqn:Hallowed.
  - destruct (execute_query_executed q st Hallowed) as (text & db' & -> & Htext).
    cbn [fst snd DatabaseServer.executed].
    split; [ split | split; [ | split ] ].
    + intros H. injection H as H. contradiction.
    + discriminate.
    + discriminate.
    + reflexivity.
    + intros ->. discriminate Hallowed.
  - rewrite (execute_query_rejected q st Hallowed). cbn [fst snd].
    split; [ split | split; [ | split ] ]; auto; discriminate.
Qed.

Lemma max_rowid_app (ids : list Z) (x : Z) :
  DatabaseServer.max_rowid (ids ++ [x])
  = Z.max (DatabaseServer.max_rowid ids) (Z.max x 0).
Proof.
  unfold DatabaseServer.max_rowid.
  induction ids as [ | y ids IH]; cbn [app fold_right]; [ lia | ].
  rewrite IH. lia.
Qed.

Lemma bind_int (z : Z) :
  - 2 ^ 63 <= z < 2 ^ 63 → DatabaseServer.bind (VInt z) = Return (DatabaseServer.PInteger z).
Proof.
  intros [Hlo Hhi]. unfold DatabaseServer.bind.
  apply Z.leb_le in Hlo. apply Z.ltb_lt in Hhi. rewrite Hlo, Hhi. reflexivity.
Qed.

(** [insert_user] with a name, an address and an age of the declared
    types, on a database that has the table and room for a row. *)
Lemma insert_user_run (n e : string) (a : Z) (st : DatabaseServer.state) :
  - 2 ^ 63 <= a < 2 ^ 63 →
  DatabaseServer.table_exists "users" (DatabaseServer.db st) = true →
  DatabaseServer.next_rowid (DatabaseServer.users_seq (DatabaseServer.db st))
    (map DatabaseServer.user_id (DatabaseServer.users (DatabaseServer.db st))) < 2 ^ 63 →
  DatabaseServer.insert_user numeric_affinity CURRENT_TIMESTAMP
    (VStr n) (VStr e) (VInt a) st
  = let d := DatabaseServer.db st in
    let log := DatabaseServer.executed st
               ++ ["INSERT INTO users (name, email, age) VALUES (?, ?, ?)"] in
    let id := DatabaseServer.next_rowid (DatabaseServer.users_seq d)
                (map DatabaseServer.user_id (DatabaseServer.users d)) in
    if email_taken e d then
      (reply "Error: UNIQUE constraint failed: users.email",
       {| DatabaseServer.db := d; DatabaseServer.executed := log |})
    else
      (reply ("User '" +:+ n +:+ "' inserted successfully with ID " +:+ str_of_Z id),
       {| DatabaseServer.db :=
            {| DatabaseServer.tables := DatabaseServer.tables d;
               DatabaseServer.users :=
                 DatabaseServer.users d
                 ++ [{| DatabaseServer.user_id := id;
                        DatabaseServer.user_name := n;
                        DatabaseServer.user_email := e;
                        DatabaseServer.user_age := DatabaseServer.SInteger a;
                        DatabaseServer.user_created_at :=
                          DatabaseServer.SText
                            (CURRENT_TIMESTAMP (length (DatabaseServer.executed st))) |}];
               DatabaseServer.users_seq := id;
               DatabaseServer.products := DatabaseServer.products d;
               DatabaseServer.products_seq := DatabaseServer.products_seq d |};
          DatabaseServer.executed := log |}).
Proof.
  intros Ha Htable Hroom.
  unfold DatabaseServer.insert_user, DatabaseServer.bind3.
  cbn [DatabaseServer.execute DatabaseServer.db].
  rewrite Htable, (bind_int a Ha). cbn [negb DatabaseServer.bind].
  unfold DatabaseServer.insert_into_users. rewrite Htable. cbn [negb].
  apply Z.leb_gt in Hroom. rewrite Hroom.
  cbn [DatabaseServer.text_affinity]. fold (email_taken e (DatabaseServer.db st)).
  destruct (email_taken e (DatabaseServer.db st)); reflexivity.
Qed.

(** C2, as the code has it: each handler reports these failures in its
    own words, as one text block in a returned response: [read_file] a
    missing file and [execute_code] a timeout with a text that begins
    with [Error:]; [execute_query] and [describe_table] an SQL error
    behind [Error executing query: ] and [Error describing table: ];
    [describe_table] without columns [Table '...' not found];
    [insert_user] an integrity error behind [Error: ] and any other SQL
    error, such as the missing [users] table, behind [Error inserting
    user: ]; [read_document] and [delete_document] [Document '...' not
    found], and [append_to_document] the same with a hint after it.
    [get_user] has no handler for SQL errors: without the [users] table
    the call raises the [OperationalError]. *)
Theorem domain_failures_are_reported_in_band :
  (∀ (arguments : gmap string value) (p : string) (st : CodeServer.state),
      arguments !! "file_path" = Some (VStr p) → p ≠ EmptyString →
      path_exists (CodeServer.fs st) (Path p) = false →
      dispatch Code "read_file" arguments st
      = (reply ("Error: File not found: " +:+ p), st))
  ∧ (∀ (arguments : gmap string value) (program : string) (st : CodeServer.state),
      arguments !! "code" = Some (VStr program) → program ≠ EmptyString →
      has_char NUL program = false →
      CodeServer.outlives 10 (python program (CodeServer.fs st)) →
      fst (dispatch Code "execute_code" arguments st)
      = reply "Error: Code execution timed out (max 10 seconds)")
  ∧ (∀ (arguments : gmap string value) (n : string) (st : DocumentServer.state),
      arguments !! "name" = Some (VStr n) → n ≠ EmptyString →
      path_exists (DocumentServer.fs st) (DocumentServer.doc_path (VStr n)) = false →
      dispatch Document "read_document" arguments st
      = (reply ("Document '" +:+ n +:+ "' not found"), st))
  ∧ (∀ (arguments : gmap string value) (t : string) (st : DatabaseServer.state),
      arguments !! "table_name" = Some (VStr t) → t ≠ EmptyString →
      match sqlite_execute ("PRAGMA table_info(" +:+ t +:+ ")") (DatabaseServer.db st) with
      | DatabaseServer.ExecOk [] _ _ =>
          fst (dispatch Database "describe_table" arguments st)
          = reply ("Table '" +:+ t +:+ "' not found")
      | DatabaseServer.ExecRaise e =>
          fst (dispatch Database "describe_table" arguments st)
          = reply ("Error describing table: " +:+ msg e)
      | _ => True
      end)
  ∧ (∀ (arguments : gmap string value) (q : string) (st : DatabaseServer.state)
       (e : exn),
      arguments !! "query" = Some (VStr q) → q ≠ EmptyString →
      allowed q = true →
      sqlite_execute q (DatabaseServer.db st) = DatabaseServer.ExecRaise e →
      dispatch Database "execute_query" arguments st
      = (reply ("Error executing query: " +:+ msg e),
         {| DatabaseServer.db := DatabaseServer.db st;
            DatabaseServer.executed := DatabaseServer.executed st ++ [q] |}))
  ∧ (∀ (arguments : gmap string value) (n e : string) (a : Z)
       (st : DatabaseServer.state),
      arguments !! "name" = Some (VStr n) → arguments !! "email" = Some (VStr e) →
      arguments !! "age" = Some (VInt a) →
      n ≠ EmptyString → e ≠ EmptyString → - 2 ^ 63 <= a < 2 ^ 63 →
      DatabaseServer.table_exists "users" (DatabaseServer.db st) = true →
      DatabaseServer.next_rowid (DatabaseServer.users_seq (DatabaseServer.db st))
        (map DatabaseServer.user_id (DatabaseServer.users (DatabaseServer.db st)))
      < 2 ^ 63 →
      email_taken e (DatabaseServer.db st) = true →
      fst (dispatch Database "insert_user" arguments st)
      = reply "Error: UNIQUE constraint failed: users.email")
  ∧ (∀ (arguments : gmap string value) (n e : string) (a : value)
       (st : DatabaseServer.state),
      arguments !! "name" = Some (VStr n) → arguments !! "email" = Some (VStr e) →
      arguments !! "age" = Some a →
      n ≠ EmptyString → e ≠ EmptyString → a ≠ VNone →
      DatabaseServer.table_exists "users" (DatabaseServer.db st) = false →
      fst (dispatch Database "insert_user" arguments st)
      = reply "Error inserting user: no such table: users")
  ∧ (∀ (arguments : gmap string value) (n c : string) (st : DocumentServer.state),
      arguments !! "name" = Some (VStr n) → arguments !! "content" = Some (VStr c) →
      n ≠ EmptyString → c ≠ EmptyString →
      path_exists (DocumentServer.fs st) (DocumentServer.doc_path (VStr n)) = false →
      dispatch Document "append_to_document" arguments st
      = (reply ("Document '" +:+ n +:+ "' not found. Use create_document first."), st))
  ∧ (∀ (arguments : gmap string value) (n : string) (st : DocumentServer.state),
      arguments !! "name" = Some (VStr n) → n ≠ EmptyString →
      path_exists (DocumentServer.fs st) (DocumentServer.doc_path (VStr n)) = false →
      dispatch Document "delete_document" arguments st
      = (reply ("Document '" +:+ n +:+ "' not found"), st))
  ∧ (∀ (arguments : gmap string value) (e : string) (st : DatabaseServer.state),
      arguments !! "email" = Some (VStr e) → e ≠ EmptyString →
      DatabaseServer.table_exists "users" (DatabaseServer.db st) = false →
      dispatch Database "get_user" arguments st
      = (Raise (Exn OperationalError "no such table: users"),
         {| DatabaseServer.db := DatabaseServer.db st;
            DatabaseServer.executed :=
              DatabaseServer.executed st ++ ["SELECT * FROM users WHERE email = ?"] |})).
Proof.
  split; [ | split; [ | split; [ | split; [ | split; [ | split; [ | split;
    [ | split; [ | split ] ] ] ] ] ] ] ].
  - intros arguments p st Hkey Hp Hexists%path_exists_false.
    destruct (get_str _ _ _ Hkey Hp) as [Hget Htruthy].
    unfold_dispatch. select_tool. rewrite Htruthy, Hget. cbn [negb].
    unfold CodeServer.read_file. cbn [CodeServer.path_of]. rewrite Hexists.
    reflexivity.
  - intros arguments program st Hkey Hp Hnul Hlong.
    destruct (get_str _ _ _ Hkey Hp) as [Hget Htruthy].
    unfold_dispatch. select_tool. rewrite Htruthy, Hget. cbn [negb].
    destruct (execute_code_timeout program st Hnul Hlong) as (st' & -> & _).
    reflexivity.
  - intros arguments n st Hkey Hn Hexists%path_exists_false.
    destruct (get_str _ _ _ Hkey Hn) as [Hget Htruthy].
    unfold_dispatch. select_tool. rewrite Htruthy, Hget. cbn [negb].
    unfold DocumentServer.read_document. rewrite Hexists. reflexivity.
  - intros arguments t st Hkey Ht.
    destruct (get_str _ _ _ Hkey Ht) as [Hget Htruthy].
    unfold_dispatch. select_tool. rewrite Htruthy, Hget. cbn [negb].
    unfold DatabaseServer.describe_table.
    cbn [py_str DatabaseServer.execute DatabaseServer.db].
    destruct (sqlite_execute _ _) as [e | [ | col columns] rowcount db']; auto.
  - intros arguments q st e Hkey Hq Hallowed Hraise.
    destruct (get_str _ _ _ Hkey Hq) as [Hget Htruthy].
    unfold_dispatch. select_tool. rewrite Htruthy, Hget. cbn [negb].
    unfold DatabaseServer.execute_query. fold (allowed q). rewrite Hallowed.
    cbn [negb DatabaseServer.execute DatabaseServer.db]. rewrite Hraise.
    reflexivity.
  - intros arguments n e a st Hn He Ha Hname Hemail Hage Htable Hroom Htaken.
    destruct (get_str _ _ _ Hn Hname) as [Hget Htruthy].
    destruct (get_str _ _ _ He Hemail) as [Hget' Htruthy'].
    unfold_dispatch. select_tool.
    rewrite Htruthy, Hget, Htruthy', Hget', (get_present _ _ _ Ha).
    cbn [is_None negb forallb id andb].
    rewrite (insert_user_run n e a st Hage Htable Hroom). cbv zeta.
    rewrite Htaken. reflexivity.
  - intros arguments n e a st Hn He Ha Hname Hemail Hage Htable.
    destruct (get_str _ _ _ Hn Hname) as [Hget Htruthy].
    destruct (get_str _ _ _ He Hemail) as [Hget' Htruthy'].
    unfold_dispatch. select_tool.
    rewrite Htruthy, Hget, Htruthy', Hget', (get_present _ _ _ Ha).
    assert (is_None a = false) as -> by (destruct a; [ congruence | reflexivity | reflexivity ]).
    cbn [negb forallb id andb].
    unfold DatabaseServer.insert_user.
    cbn [DatabaseServer.execute DatabaseServer.db]. rewrite Htable. reflexivity.
  - intros arguments n c st Hkey Hcontent Hn Hc Hexists%path_exists_false.
    destruct (get_str _ _ _ Hkey Hn) as [Hget Htruthy].
    destruct (get_str _ _ _ Hcontent Hc) as [Hgetc Htruthyc].
    unfold_dispatch. select_tool. rewrite Htruthy, Hget, Htruthyc, Hgetc.
    cbn [negb orb].
    unfold DocumentServer.append_to_document. rewrite Hexists. reflexivity.
  - intros arguments n st Hkey Hn Hexists%path_exists_false.
    destruct (get_str _ _ _ Hkey Hn) as [Hget Htruthy].
    unfold_dispatch. select_tool. rewrite Htruthy, Hget. cbn [negb].
    unfold DocumentServer.delete_document. rewrite Hexists. reflexivity.
  - intros arguments e st Hkey He Htable.
    destruct (get_str _ _ _ Hkey He) as [Hget Htruthy].
    unfold_dispatch. select_tool. rewrite Htruthy, Hget. cbn [negb].
    unfold DatabaseServer.get_user.
    cbn [DatabaseServer.execute DatabaseServer.db]. rewrite Htable. reflexivity.
Qed.

(** C5: [insert_user] twice with the same e-mail address, the address
    being new to the table: the first call inserts one row and reports
    its key; the second returns the integrity error as text in a returned
    response and leaves the rows of [users], hence their number, as the
    first call left them. *)
Theorem insert_user_twice_same_email
    (first second : gmap string value) (n n' e : string) (a a' : Z)
    (st : DatabaseServer.state) :
  first !! "name" = Some (VStr n) → first !! "email" = Some (VStr e) →
  first !! "age" = Some (VInt a) →
  second !! "name" = Some (VStr n') → second !! "email" = Some (VStr e) →
  second !! "age" = Some (VInt a') →
  n ≠ EmptyString → n' ≠ EmptyString → e ≠ EmptyString →
  - 2 ^ 63 <= a < 2 ^ 63 → - 2 ^ 63 <= a' < 2 ^ 63 →
  DatabaseServer.table_exists "users" (DatabaseServer.db st) = true →
  email_taken e (DatabaseServer.db st) = false →
  DatabaseServer.next_rowid (DatabaseServer.users_seq (DatabaseServer.db st))
    (map DatabaseServer.user_id (DatabaseServer.users (DatabaseServer.db st)))
  < 2 ^ 63 - 1 →
  let once := dispatch Database "insert_user" first st in
  let twice := dispatch Database "insert_user" second (snd once) in
  fst once
  = reply ("User '" +:+ n +:+ "' inserted successfully with ID "
           +:+ str_of_Z (DatabaseServer.next_rowid
                           (DatabaseServer.users_seq (DatabaseServer.db st))
                           (map DatabaseServer.user_id
                              (DatabaseServer.users (DatabaseServer.db st)))))
  ∧ length (DatabaseServer.users (DatabaseServer.db (snd once)))
    = S (length (DatabaseServer.users (DatabaseServer.db st)))
  ∧ fst twice = reply "Error: UNIQUE constraint failed: users.email"
  ∧ DatabaseServer.users (DatabaseServer.db (snd twice))
    = DatabaseServer.users (DatabaseServer.db (snd once)).
Proof.
  intros Hn He Ha Hn' He' Ha' Hname Hname' Hemail Hage Hage' Htable Hfresh Hroom
         once twice.
  assert (∀ (arguments : gmap string value) (m : string) (z : Z) st0,
            arguments !! "name" = Some (VStr m) → arguments !! "email" = Some (VStr e) →
            arguments !! "age" = Some (VInt z) → m ≠ EmptyString →
            dispatch Database "insert_user" arguments st0
            = DatabaseServer.insert_user numeric_affinity CURRENT_TIMESTAMP
                (VStr m) (VStr e) (VInt z) st0) as Hcall.
  { intros arguments m z st0 Hm Hmail Hz Hne.
    destruct (get_str _ _ _ Hm Hne) as [Hget Htruthy].
    destruct (get_str _ _ _ Hmail Hemail) as [Hget' Htruthy'].
    unfold_dispatch. select_tool.
    rewrite Htruthy, Hget, Htruthy', Hget', (get_present _ _ _ Hz). reflexivity. }
  unfold twice, once.
  rewrite (Hcall first n a st Hn He Ha Hname).
  rewrite (insert_user_run n e a st Hage Htable) by lia.
  cbv zeta. rewrite Hfresh. cbn [fst snd].
  rewrite (Hcall second n' a' _ Hn' He' Ha' Hname').
  rewrite insert_user_run; cbn [DatabaseServer.db DatabaseServer.tables
    DatabaseServer.users DatabaseServer.users_seq]; try assumption.
  - cbv zeta.
    match goal with
    | |- context [email_taken e ?d] => assert (email_taken e d = true) as ->
    end.
    { unfold email_taken. cbn [DatabaseServer.users].
      rewrite existsb_app. cbn [existsb DatabaseServer.user_email].
      rewrite Stdlib.Strings.String.eqb_refl. apply orb_true_r. }
    cbn [fst snd DatabaseServer.db DatabaseServer.users].
    rewrite length_app. cbn [length]. repeat split; try reflexivity. lia.
  - rewrite map_app. cbn [map DatabaseServer.user_id].
    unfold DatabaseServer.next_rowid in *. rewrite max_rowid_app. lia.
Qed.

(** C6, as the code has it: the document server returns the text of a
    document that is a regular file, raises [Document not found] for a
    [doc://] URI whose document is not there, and the distinct [Unknown
    resource URI] for any other URI; the code server returns a stored
    snippet and raises the one error [Resource not found] both for a
    [code://] URI with no such snippet and for a URI of any other form. *)
Theorem read_resource_outcomes :
  (∀ (uri text : string) (st : DocumentServer.state),
      startswith uri "doc://" = true →
      path_exists (DocumentServer.fs st)
        (DocumentServer.doc_path (VStr (drop_chars 6 uri))) = true →
      read_text (DocumentServer.fs st)
        (DocumentServer.doc_path (VStr (drop_chars 6 uri))) = Return text →
      DocumentServer.read_resource uri st = Return text)
  ∧ (∀ (uri : string) (st : DocumentServer.state),
      startswith uri "doc://" = true →
      path_exists (DocumentServer.fs st)
        (DocumentServer.doc_path (VStr (drop_chars 6 uri))) = false →
      DocumentServer.read_resource uri st
      = Raise (Exn ValueError ("Document not found: " +:+ drop_chars 6 uri)))
  ∧ (∀ (uri : string) (st : DocumentServer.state),
      startswith uri "doc://" = false →
      DocumentServer.read_resource uri st
      = Raise (Exn ValueError ("Unknown resource URI: " +:+ uri)))
  ∧ (∀ (uri : string) (code : value) (st : CodeServer.state),
      startswith uri "code://" = true →
      dict_get (CodeServer.code_store st) (VStr (drop_chars 7 uri)) = Some code →
      CodeServer.read_resource uri st = Return code)
  ∧ (∀ (uri : string) (st : CodeServer.state),
      startswith uri "code://" = true →
      dict_get (CodeServer.code_store st) (VStr (drop_chars 7 uri)) = None →
      CodeServer.read_resource uri st
      = Raise (Exn ValueError ("Resource not found: " +:+ uri)))
  ∧ (∀ (uri : string) (st : CodeServer.state),
      startswith uri "code://" = false →
      CodeServer.read_resource uri st
      = Raise (Exn ValueError ("Resource not found: " +:+ uri))).
Proof.
  unfold DocumentServer.read_resource, CodeServer.read_resource.
  repeat split.
  - intros uri text st -> _ Hread. cbv zeta.
    rewrite (read_text_exists_ _ _ _ Hread). exact Hread.
  - intros uri st -> Hexists%path_exists_false. cbv zeta.
    rewrite Hexists. reflexivity.
  - intros uri st ->. reflexivity.
  - intros uri code st -> ->. reflexivity.
  - intros uri st -> ->. reflexivity.
  - intros uri st ->. reflexivity.
Qed.

(** C10, as the code has it: [append_to_document] with a non-empty
    name and a non-empty content, on a document that is a regular file
    which text mode reads as [s], reports the appended length, leaves
    [s], a newline and the content in the file, and puts that whole
    text, lowercased as [index_document] does, in the index. *)
Theorem append_inserts_newline
    (arguments : gmap string value) (n c s : string) (st : DocumentServer.state) :
  arguments !! "name" = Some (VStr n) →
  arguments !! "content" = Some (VStr c) →
  n ≠ EmptyString →
  c ≠ EmptyString →
  is_file (DocumentServer.fs st) (DocumentServer.doc_path (VStr n)) = true →
  read_text (DocumentServer.fs st) (DocumentServer.doc_path (VStr n)) = Return s →
  ∃ st',
    dispatch Document "append_to_document" arguments st
    = (reply ("Appended " +:+ str_of_nat (String.length c) +:+ " characters to '"
              +:+ n +:+ "'"), st')
    ∧ DocumentServer.fs st' !! DocumentServer.doc_path (VStr n)
      = Some (File (s +:+ nl +:+ c))
    ∧ dict_get (DocumentServer.document_index st') (VStr n)
      = Some (lower (s +:+ nl +:+ c)).
Proof.
  intros Hname Hcontent Hn Hc Hfile Hread.
  pose proof (read_text_exists_ _ _ _ Hread) as Hexists.
  destruct (get_str _ _ _ Hname Hn) as [Hget Htruthy].
  destruct (get_str _ _ _ Hcontent Hc) as [Hgetc Htruthyc].
  unfold_dispatch. select_tool.
  rewrite Htruthy, Hget, Htruthyc, Hgetc. cbn [negb orb].
  unfold DocumentServer.append_to_document. rewrite Hexists, Hread. cbn [py_str].
  destruct (write_text (DocumentServer.fs st) (DocumentServer.doc_path (VStr n))
              (s +:+ nl +:+ c)) as [written fs'] eqn:Hwrite.
  assert (written = Return tt
          ∧ fs' = <[DocumentServer.doc_path (VStr n) := File (s +:+ nl +:+ c)]>
                    (DocumentServer.fs st)) as [-> ->].
  { revert Hwrite. unfold write_text, open_w. unfold is_file, look_up in Hfile.
    destruct (walk _ _); [ discriminate | ].
    destruct (entry_at _ _) as [[text | | ] | ]; try discriminate.
    intros [= <- <-]. auto. }
  eexists. split; [ reflexivity | ].
  destruct (write_text_run _ _ _ _ Hwrite)
    as (_ & [[Hnull _] | (Hsystem & Hnull & _ & _)]).
  { unfold is_file, look_up in Hfile.
    destruct (walk _ _); [ discriminate | ]. rewrite Hnull in Hfile. discriminate. }
  cbn [DocumentServer.index_document DocumentServer.set_fs DocumentServer.fs
         DocumentServer.document_index].
  split; [ apply lookup_insert_eq | apply dict_get_set_eq ].
Qed.

(** *** [sorted] permutes and orders *)

Section SortFacts.
Context {A : Type} (leb : A → A → bool).
Hypothesis leb_total : ∀ a b, leb a b = true ∨ leb b a = true.

Lemma In_insert_sorted (x y : A) (l : list A) :
  In y (Sorting.insert_sorted leb x l) ↔ y = x ∨ In y l.
Proof.
  induction l as [ | z l IH]; cbn.
  - intuition congruence.
  - destruct (leb x z); cbn; [ intuition congruence | ].
    rewrite IH. intuition congruence.
Qed.

Lemma In_sort (y : A) (l : list A) : In y (Sorting.sort leb l) ↔ In y l.
Proof.
  induction l as [ | x l IH]; cbn; [ reflexivity | ].
  rewrite In_insert_sorted, IH. intuition congruence.
Qed.

Lemma HdRel_insert_sorted (a x : A) (l : list A) :
  leb a x = true → HdRel (λ u v, leb u v = true) a l →
  HdRel (λ u v, leb u v = true) a (Sorting.insert_sorted leb x l).
Proof.
  intros Hax Hhd. destruct l as [ | z l]; cbn.
  - constructor. exact Hax.
  - destruct (leb x z); constructor; [ exact Hax | ].
    inversion Hhd. assumption.
Qed.

Lemma Sorted_insert_sorted (x : A) (l : list A) :
  Sorted (λ u v, leb u v = true) l →
  Sorted (λ u v, leb u v = true) (Sorting.insert_sorted leb x l).
Proof.
  induction l as [ | z l IH]; cbn; intros Hsorted.
  - repeat constructor.
  - destruct (leb x z) eqn:Hxz.
    + constructor; [ exact Hsorted | constructor; exact Hxz ].
    + inversion Hsorted as [ | ? ? Htail Hhd]; subst.
      constructor; [ exact (IH Htail) | ].
      apply HdRel_insert_sorted; [ | exact Hhd ].
      destruct (leb_total z x) as [H | H]; [ exact H | congruence ].
Qed.

Lemma Sorted_sort (l : list A) : Sorted (λ u v, leb u v = true) (Sorting.sort leb l).
Proof.
  induction l as [ | x l IH]; cbn; [ constructor | ].
  apply Sorted_insert_sorted. exact IH.
Qed.
End SortFacts.

Lemma match_leb_total (a b : value * nat) :
  Sorting.match_leb a b = true ∨ Sorting.match_leb b a = true.
Proof.
  assert ((snd a <=? snd b)%nat = true ∨ (snd b <=? snd a)%nat = true) as Hcount.
  { destruct (Nat.leb_spec (snd a) (snd b)); [ auto | ].
    right. apply Nat.leb_le. lia. }
  unfold Sorting.match_leb.
  destruct (fst a) as [ | s | x], (fst b) as [ | t | y]; auto.
  - rewrite (Stdlib.Strings.String.compare_antisym t s).
    destruct (Stdlib.Strings.String.compare s t); cbn; auto.
  - rewrite (Z.compare_antisym x y).
    destruct (Z.compare x y); cbn; auto.
Qed.

Lemma sorted_matches_strings (matches : list (value * nat)) :
  named_by_strings matches →
  Sorting.sorted_matches matches = Return (Sorting.sort Sorting.match_leb matches).
Proof.
  intros Hnames. unfold Sorting.sorted_matches.
  destruct matches as [ | [key k] rest]; [ reflexivity | ].
  destruct (Hnames key k (or_introl eq_refl)) as [n ->].
  assert (named_by_strings rest) as Hrest.
  { intros key b Hin. apply (Hnames key b). right. exact Hin. }
  cbn [fst]. clear Hnames.
  induction rest as [ | [key' k'] rest IH]; [ reflexivity | ].
  destruct (Hrest key' k' (or_introl eq_refl)) as [n' ->].
  cbn [List.filter fst Sorting.same_type negb].
  assert (named_by_strings rest) as Hrest'.
  { intros key b Hin. apply (Hrest key b). right. exact Hin. }
  specialize (IH Hrest').
  destruct (List.filter _ rest); [ reflexivity | discriminate IH ].
Qed.

(** *** [search_documents] *)

Lemma In_search_index (query_lower : string) (st : DocumentServer.state)
    (key : value) (k : nat) :
  In (key, k) (DocumentServer.search_index query_lower (DocumentServer.document_index st))
  ↔ index_hit query_lower st key k.
Proof.
  unfold DocumentServer.search_index, index_hit. rewrite in_map_iff. split.
  - intros ([key' text] & [= <- <-] & Hin). apply filter_In in Hin as [Hin Hc]. eauto.
  - intros (text & Hin & Hc & ->). exists (key, text).
    split; [ reflexivity | ]. apply filter_In. auto.
Qed.

Lemma file_hit_index_document (query_lower : string) (st : DocumentServer.state)
    (name : value) (text : string) (p : path) (k : nat) :
  file_hit query_lower (DocumentServer.index_document name text st) p k →
  file_hit query_lower st p k.
Proof.
  unfold file_hit. cbn [DocumentServer.index_document DocumentServer.document_index
                          DocumentServer.fs].
  rewrite dict_in_set. intros [Hnew Hhit]. apply orb_false_elim in Hnew. tauto.
Qed.

(** The second loop of [search_documents]: it adds one entry for each
    stem of a file that hits, indexes exactly those stems, each with the
    lowercased text of the file, and keeps the entries the index had. *)
Lemma search_files_run (query_lower : string) (files : list path) :
  ∀ (matches : list (value * nat)) (st : DocumentServer.state),
    readable files st →
    ∃ found st',
      DocumentServer.search_files query_lower files matches st
      = (Return (matches ++ found), st')
      ∧ DocumentServer.fs st' = DocumentServer.fs st
      ∧ (∀ key k, In (key, k) found →
                  ∃ p, In p files ∧ key = VStr (stem p) ∧ file_hit query_lower st p k
                       ∧ indexed_from st' p)
      ∧ (∀ p k, In p files → file_hit query_lower st p k →
                ∃ k', In (VStr (stem p), k') found)
      ∧ (∀ key, dict_in key (DocumentServer.document_index st) = true →
                dict_get (DocumentServer.document_index st') key
                = dict_get (DocumentServer.document_index st) key)
      ∧ (∀ key, dict_in key (DocumentServer.document_index st') = true
                ↔ dict_in key (DocumentServer.document_index st) = true
                  ∨ ∃ k, In (key, k) found).
Proof.
  induction files as [ | p rest IH]; intros matches st Hreadable.
  - exists [], st. cbn [DocumentServer.search_files]. rewrite app_nil_r.
    split; [ reflexivity | ]. split; [ reflexivity | ].
    split; [ intros key k [] | ]. split; [ intros p k [] | ].
    split; [ reflexivity | ].
    intros key. split; [ auto | intros [H | [k []]]; exact H ].
  - cbn [DocumentServer.search_files].
    destruct (dict_in (VStr (stem p)) (DocumentServer.document_index st)) eqn:Hindexed;
      cbn [negb].
    + destruct (IH matches st) as (found & st' & -> & Hfs & Hsound & Hcomplete & Hold & Hnew).
      { intros p' Hin. apply Hreadable. right. exact Hin. }
      exists found, st'. repeat split; auto.
      * intros key k Hin. destruct (Hsound key k Hin) as (p' & Hp' & Hrest).
        exists p'. split; [ right; exact Hp' | exact Hrest ].
      * intros p' k [<- | Hin] Hhit; [ | eauto ].
        destruct Hhit as [Hfree _]. congruence.
      * apply Hnew.
      * apply Hnew.
    + destruct (Hreadable p (or_introl eq_refl) Hindexed) as [text Hread].
      rewrite Hread.
      destruct (contains query_lower (lower text)) eqn:Hcontains.
      * set (st2 := DocumentServer.index_document (VStr (stem p)) text st).
        destruct (IH (matches ++ [(VStr (stem p), count (lower text) query_lower)]) st2)
          as (found & st' & -> & Hfs & Hsound & Hcomplete & Hold & Hnew).
        { intros p' Hin Hfree. apply (Hreadable p'); [ right; exact Hin | ].
          unfold st2 in Hfree.
          cbn [DocumentServer.index_document DocumentServer.document_index] in Hfree.
          rewrite dict_in_set in Hfree. apply orb_false_elim in Hfree. tauto. }
        exists ((VStr (stem p), count (lower text) query_lower) :: found), st'.
        rewrite <- app_assoc. split; [ reflexivity | ]. split; [ exact Hfs | ].
        split; [ | split; [ | split ] ].
        -- intros key k [[= <- <-] | Hin].
           ++ exists p. split; [ left; reflexivity | ]. split; [ reflexivity | ].
              split; [ split; [ exact Hindexed | eauto ] | ].
              exists text. rewrite Hfs. split; [ exact Hread | ].
              rewrite Hold.
              ** unfold st2.
                 cbn [DocumentServer.index_document DocumentServer.document_index].
                 apply dict_get_set_eq.
              ** unfold st2.
                 cbn [DocumentServer.index_document DocumentServer.document_index].
                 rewrite dict_in_set, bool_decide_eq_true_2 by reflexivity.
                 reflexivity.
           ++ destruct (Hsound key k Hin) as (p' & Hp' & -> & Hhit & Hstored).
              exists p'. split; [ right; exact Hp' | ]. split; [ reflexivity | ].
              split; [ exact (file_hit_index_document _ _ _ _ _ _ Hhit) | exact Hstored ].
        -- intros p' k Hin Hhit.
           destruct (decide (stem p' = stem p)) as [-> | Hstem].
           { eexists. left. reflexivity. }
           destruct Hin as [<- | Hin]; [ congruence | ].
           destruct (Hcomplete p' k Hin) as [k' Hk'].
           { destruct Hhit as [Hfree Hhit]. split; [ | exact Hhit ].
             unfold st2.
             cbn [DocumentServer.index_document DocumentServer.document_index].
             rewrite dict_in_set, Hfree, bool_decide_eq_false_2 by congruence.
             reflexivity. }
           exists k'. right. exact Hk'.
        -- intros key Hkey. rewrite Hold.
           ++ unfold st2.
              cbn [DocumentServer.index_document DocumentServer.document_index].
              apply dict_get_set_ne. intros <-. congruence.
           ++ unfold st2.
              cbn [DocumentServer.index_document DocumentServer.document_index].
              rewrite dict_in_set, Hkey. apply orb_true_r.
        -- intros key. rewrite Hnew. unfold st2.
           cbn [DocumentServer.index_document DocumentServer.document_index].
           rewrite dict_in_set, orb_true_iff, bool_decide_eq_true. split.
           ++ intros [[<- | Hkey] | [k Hin]]; [ right | left | right ]; eauto.
              ** eexists. left. reflexivity.
              ** exists k. right. exact Hin.
           ++ intros [Hkey | [k [[= <- <-] | Hin]]]; eauto.
      * destruct (IH matches st) as (found & st' & -> & Hfs & Hsound & Hcomplete & Hold & Hnew).
        { intros p' Hin. apply Hreadable. right. exact Hin. }
        exists found, st'. repeat split; auto.
        -- intros key k Hin. destruct (Hsound key k Hin) as (p' & Hp' & Hrest).
           exists p'. split; [ right; exact Hp' | exact Hrest ].
        -- intros p' k [<- | Hin] Hhit; [ | eauto ].
           destruct Hhit as (_ & text' & Hread' & Hcontains' & _). congruence.
        -- apply Hnew.
        -- apply Hnew.
Qed.

(** C8, as the code has it: for a non-empty query, when the names in
    the index are strings and the files not yet indexed can be read,
    [search_documents] lists, ordered by name, each indexed document
    whose indexed (lowercased) text holds the lowercased query, with the
    number of occurrences that do not overlap, and each file of
    [documents/*.txt] not yet indexed whose lowercased text holds it; it
    adds to the index exactly the files that hit, each under its stem
    and with its lowercased text, keeps what the index held, and leaves
    the other files unindexed.  After [create_document("a", "hello world")] and
    [create_document("b", "goodbye")] in an empty directory,
    [search_documents("hello")] lists only [a], with one occurrence. *)
Theorem search_counts_case_insensitively :
  (∀ (arguments : gmap string value) (q : string) (st : DocumentServer.state),
      arguments !! "query" = Some (VStr q) →
      q ≠ EmptyString →
      named_by_strings (DocumentServer.document_index st) →
      readable (glob_txt (DocumentServer.fs st) DocumentServer.DOCUMENTS_DIR) st →
      ∃ listed st',
        dispatch Document "search_documents" arguments st
        = (reply (search_reply q listed), st')
        ∧ Sorted (λ a b, Sorting.match_leb a b = true) listed
        ∧ DocumentServer.fs st' = DocumentServer.fs st
        ∧ (∀ key k,
             In (key, k) listed →
             index_hit (lower q) st key k
             ∨ ∃ p, In p (glob_txt (DocumentServer.fs st) DocumentServer.DOCUMENTS_DIR)
                    ∧ key = VStr (stem p) ∧ file_hit (lower q) st p k
                    ∧ indexed_from st' p)
        ∧ (∀ key k, index_hit (lower q) st key k → In (key, k) listed)
        ∧ (∀ p k,
             In p (glob_txt (DocumentServer.fs st) DocumentServer.DOCUMENTS_DIR) →
             file_hit (lower q) st p k →
             ∃ k', In (VStr (stem p), k') listed)
        ∧ (∀ key,
             dict_in key (DocumentServer.document_index st) = true →
             dict_get (DocumentServer.document_index st') key
             = dict_get (DocumentServer.document_index st) key)
        ∧ (∀ key,
             dict_in key (DocumentServer.document_index st') = true
             ↔ dict_in key (DocumentServer.document_index st) = true
               ∨ ∃ p k,
                   In p (glob_txt (DocumentServer.fs st) DocumentServer.DOCUMENTS_DIR)
                   ∧ key = VStr (stem p) ∧ file_hit (lower q) st p k))
  ∧ (let created_a :=
       DocumentServer.call_tool "create_document"
         {[ "name" := VStr "a"; "content" := VStr "hello world" ]}
         Fixture.document_state in
     let created_b :=
       DocumentServer.call_tool "create_document"
         {[ "name" := VStr "b"; "content" := VStr "goodbye" ]} (snd created_a) in
     fst (DocumentServer.call_tool "search_documents"
            {[ "query" := VStr "hello" ]} (snd created_b))
     = reply ("Search results for 'hello':" +:+ nl +:+ "- a (1 occurrence(s))")).
Proof.
  split; [ | vm_compute; reflexivity ].
  intros arguments q st Hkey Hq Hnames Hreadable.
  destruct (get_str _ _ _ Hkey Hq) as [Hget Htruthy].
  unfold_dispatch. select_tool. rewrite Htruthy, Hget. cbn [negb].
  unfold DocumentServer.search_documents.
  destruct (search_files_run (lower q) _
              (DocumentServer.search_index (lower q) (DocumentServer.document_index st))
              st Hreadable)
    as (found & st' & -> & Hfs & Hsound & Hcomplete & Hold & Hnew).
  set (matches := DocumentServer.search_index (lower q) (DocumentServer.document_index st)
                  ++ found).
  assert (∀ key k, In (key, k) matches
                   ↔ index_hit (lower q) st key k ∨ In (key, k) found) as Hmatches.
  { intros key k. unfold matches. rewrite in_app_iff, In_search_index. reflexivity. }
  assert (named_by_strings matches) as Hstrings.
  { intros key k [(text & Hin & _) | Hin]%Hmatches.
    - exact (Hnames key text Hin).
    - destruct (Hsound key k Hin) as (p & _ & -> & _). eauto. }
  exists (Sorting.sort Sorting.match_leb matches), st'.
  split; [ | split; [ | split; [ | split; [ | split; [ | split; [ | split ] ] ] ] ] ].
  - rewrite (sorted_matches_strings matches Hstrings).
    destruct matches as [ | m matches'] eqn:Hm; [ reflexivity | ].
    unfold search_reply.
    destruct (Sorting.sort Sorting.match_leb (m :: matches')) as [ | m' sorted] eqn:Hs;
      [ | reflexivity ].
    assert (In m (Sorting.sort Sorting.match_leb (m :: matches'))) as Hin.
    { apply In_sort. left. reflexivity. }
    rewrite Hs in Hin. contradiction.
  - apply Sorted_sort. exact match_leb_total.
  - exact Hfs.
  - intros key k [Hhit | Hin]%In_sort%Hmatches; [ left; exact Hhit | right ].
    exact (Hsound key k Hin).
  - intros key k Hhit. apply In_sort, Hmatches. left. exact Hhit.
  - intros p k Hin Hhit. destruct (Hcomplete p k Hin Hhit) as [k' Hk'].
    exists k'. apply In_sort, Hmatches. right. exact Hk'.
  - exact Hold.
  - intros key. rewrite Hnew. split; (intros [Hkey' | Hrest]; [ left; exact Hkey' | right ]).
    + destruct Hrest as [k Hin].
      destruct (Hsound key k Hin) as (p & Hp & -> & Hhit & _). eauto.
    + destruct Hrest as (p & k & Hp & -> & Hhit). exact (Hcomplete p k Hp Hhit).
Qed.

End Properties.

(** ** The properties at work on the fixture *)

Section Examples.
Import Py Fs.

(** C1 at [read_file] with no argument at all. *)
Lemma missing_required_argument_witness :
  In {| name := "read_file";
        description := "Read the contents of a file";
        properties := [("file_path", "string")];
        required := ["file_path"] |} (tools Code)
  ∧ missing ∅ "file_path"
  ∧ ∃ e, Fixture.run Code "read_file" ∅ Fixture.code_state
         = (Raise e, Fixture.code_state) ∧ cls e = ValueError.
Proof.
  split; [ left; reflexivity | ]. split; [ left; reflexivity | ].
  apply (missing_required_argument_raises _ _ _ _ _ _ _ Code
           {| name := "read_file";
              description := "Read the contents of a file";
              properties := [("file_path", "string")];
              required := ["file_path"] |}
           "file_path" ∅ Fixture.code_state).
  - left. reflexivity.
  - left. reflexivity.
  - left. reflexivity.
Defined.

(** C9 at a name no catalog has. *)
Lemma unknown_tool_witness :
  ¬ In "drop_database" (map name (tools Database))
  ∧ Fixture.run Database "drop_database" ∅ Fixture.database_state
    = (Raise (Exn ValueError "Unknown tool: drop_database"), Fixture.database_state).
Proof.
  assert (¬ In "drop_database" (map name (tools Database))) as Hnew.
  { cbn. intros H. repeat (destruct H as [H | H]; [ discriminate H | ]). exact H. }
  split; [ exact Hnew | ].
  exact (unknown_tool_raises _ _ _ _ _ _ _ Database "drop_database" ∅
           Fixture.database_state Hnew).
Defined.

(** C7 at a program that sleeps fifteen seconds and starts nothing. *)
Lemma execute_code_times_out_witness :
  CodeServer.outlives 10
    (Fixture.python 15 "import time; time.sleep(15)" (CodeServer.fs Fixture.code_state))
  ∧ ∃ st',
      Fixture.run Code "execute_code" {[ "code" := VStr "import time; time.sleep(15)" ]}
        Fixture.code_state
      = (reply "Error: Code execution timed out (max 10 seconds)", st')
      ∧ CodeServer.running st' = [].
Proof.
  split; [ reflexivity | ].
  destruct (execute_code_times_out (Fixture.python 15) Fixture.executable
              Fixture.sqlite_execute Fixture.numeric_affinity Fixture.CURRENT_TIMESTAMP
              Fixture.json_dumps Fixture.float_str
              {[ "code" := VStr "import time; time.sleep(15)" ]}
              "import time; time.sleep(15)" Fixture.code_state)
    as (st' & Hcall & Hrunning).
  - reflexivity.
  - discriminate.
  - reflexivity.
  - reflexivity.
  - exists st'. split; [ exact Hcall | ]. rewrite Hrunning.
    vm_compute. reflexivity.
Defined.

(** C7 as stated fails: a program that starts a [sleep] of a minute and
    then sleeps fifteen seconds itself is reported as timed out, and the
    [sleep] that it started is running after the call. *)
Lemma spawned_process_survives :
  CodeServer.running Fixture.code_state = []
  ∧ ∃ st',
      Fixture.run Code "execute_code" {[ "code" := VStr Fixture.spawning ]}
        Fixture.code_state
      = (reply "Error: Code execution timed out (max 10 seconds)", st')
      ∧ CodeServer.running st' = ["sleep 60"].
Proof. split; [ reflexivity | ]. eexists. split; vm_compute; reflexivity. Qed.

(** C2 as stated fails: a document that is not there is reported in a
    returned text block, and the text does not begin with [Error:]. *)
Lemma missing_document_has_no_error_marker :
  DocumentServer.call_tool "read_document" {[ "name" := VStr "nope" ]}
    Fixture.document_state
  = (reply "Document 'nope' not found", Fixture.document_state)
  ∧ startswith "Document 'nope' not found" "Error:" = false.
Proof. split; vm_compute; reflexivity. Qed.

(** C2 at a table SQLite has no columns for. *)
Lemma domain_failures_witness :
  ({[ "table_name" := VStr "orders" ]} : gmap string value) !! "table_name"
  = Some (VStr "orders")
  ∧ "orders" ≠ EmptyString
  ∧ fst (Fixture.run Database "describe_table" {[ "table_name" := VStr "orders" ]}
           Fixture.database_state)
    = reply "Table 'orders' not found".
Proof.
  split; [ reflexivity | ]. split; [ discriminate | ].
  apply (proj1 (proj2 (proj2 (proj2
           (domain_failures_are_reported_in_band (Fixture.python 15) Fixture.executable
              Fixture.sqlite_execute Fixture.numeric_affinity Fixture.CURRENT_TIMESTAMP
              Fixture.json_dumps Fixture.float_str))))
           {[ "table_name" := VStr "orders" ]} "orders" Fixture.database_state).
  - reflexivity.
  - discriminate.
Defined.



(** C4 as stated fails: the empty query starts with none of the four
    verbs, and is answered by an exception, not by error text. *)
Lemma empty_query_raises :
  allowed EmptyString = false
  ∧ Fixture.run Database "execute_query" {[ "query" := VStr EmptyString ]}
      Fixture.database_state
    = (Raise (Exn ValueError "query is required"), Fixture.database_state).
Proof. split; vm_compute; reflexivity. Qed.

(** C4 at [DROP TABLE users] on the seeded database. *)
Lemma execute_query_witness :
  Fixture.run Database "execute_query" {[ "query" := VStr "DROP TABLE users" ]}
    Fixture.database_state
  = (reply rejection, Fixture.database_state)
  ∧ DatabaseServer.table_exists "users" (DatabaseServer.db Fixture.database_state)
    = true.
Proof.
  split; [ | reflexivity ].
  apply (execute_query_rejects_other_verbs (Fixture.python 15) Fixture.executable
           Fixture.sqlite_execute Fixture.numeric_affinity Fixture.CURRENT_TIMESTAMP
           Fixture.json_dumps Fixture.float_str
           {[ "query" := VStr "DROP TABLE users" ]} "DROP TABLE users"
           Fixture.database_state).
  - reflexivity.
  - discriminate.
  - reflexivity.
Defined.

(** C5 at a fourth user of the seeded database. *)
Lemma insert_user_twice_witness :
  email_taken "dana@example.com" (DatabaseServer.db Fixture.database_state) = false
  ∧ fst (Fixture.run Database "insert_user"
           {[ "name" := VStr "Dana"; "email" := VStr "dana@example.com";
              "age" := VInt 41 ]} Fixture.database_state)
    = reply "User 'Dana' inserted successfully with ID 4"
  ∧ fst (Fixture.run Database "insert_user"
           {[ "name" := VStr "Dana"; "email" := VStr "dana@example.com";
              "age" := VInt 41 ]}
           (snd (Fixture.run Database "insert_user"
                   {[ "name" := VStr "Dana"; "email" := VStr "dana@example.com";
                      "age" := VInt 41 ]} Fixture.database_state)))
    = reply "Error: UNIQUE constraint failed: users.email".
Proof.
  split; [ vm_compute; reflexivity | ].
  pose proof (insert_user_twice_same_email (Fixture.python 15) Fixture.executable
              Fixture.sqlite_execute Fixture.numeric_affinity Fixture.CURRENT_TIMESTAMP
              Fixture.json_dumps Fixture.float_str
              {[ "name" := VStr "Dana"; "email" := VStr "dana@example.com";
                 "age" := VInt 41 ]}
              {[ "name" := VStr "Dana"; "email" := VStr "dana@example.com";
                 "age" := VInt 41 ]}
              "Dana" "Dana" "dana@example.com" 41 41 Fixture.database_state) as H.
  assert (H1 : ({[ "name" := VStr "Dana"; "email" := VStr "dana@example.com";
                 "age" := VInt 41 ]} : gmap string value) !! "name" = Some (VStr "Dana")) by (vm_compute; reflexivity).
  specialize (H H1).
  specialize (H ltac:(vm_compute; reflexivity) ltac:(vm_compute; reflexivity)).
  specialize (H ltac:(vm_compute; reflexivity) ltac:(vm_compute; reflexivity) ltac:(vm_compute; reflexivity)).
  specialize (H ltac:(discriminate) ltac:(discriminate) ltac:(discriminate)).
  specialize (H ltac:(lia) ltac:(lia)).
  specialize (H ltac:(vm_compute; reflexivity) ltac:(vm_compute; reflexivity)).
  specialize (H ltac:(vm_compute; reflexivity)).
  destruct H as (Hfirst & _ & Hsecond & _).
  split; [ exact Hfirst | exact Hsecond ].
Defined.

(** C6 as stated fails: on the code server a URI of an unknown scheme
    raises the same [Resource not found] error as a snippet that is not
    there. *)
Lemma unknown_scheme_is_not_distinct :
  startswith "file://x" "code://" = false
  ∧ CodeServer.read_resource "file://x" Fixture.code_state
    = Raise (Exn ValueError "Resource not found: file://x")
  ∧ startswith "code://x" "code://" = true
  ∧ CodeServer.read_resource "code://x" Fixture.code_state
    = Raise (Exn ValueError "Resource not found: code://x").
Proof. repeat split; vm_compute; reflexivity. Qed.

(** C6 at two URIs the document server has nothing for. *)
Lemma read_resource_witness :
  DocumentServer.read_resource "doc://nope" Fixture.document_state
  = Raise (Exn ValueError "Document not found: nope")
  ∧ DocumentServer.read_resource "file://nope" Fixture.document_state
    = Raise (Exn ValueError "Unknown resource URI: file://nope").
Proof.
  split.
  - apply (proj1 (proj2 read_resource_outcomes) "doc://nope" Fixture.document_state);
      vm_compute; reflexivity.
  - apply (proj1 (proj2 (proj2 read_resource_outcomes)) "file://nope"
             Fixture.document_state).
    reflexivity.
Defined.

(** C8 as stated fails: a search that a file does not hit leaves that
    file out of the index. *)
Lemma search_leaves_other_files_unindexed :
  glob_txt (DocumentServer.fs Fixture.stray_state) DocumentServer.DOCUMENTS_DIR
  = [Path "documents/x.txt"]
  ∧ DocumentServer.call_tool "search_documents" {[ "query" := VStr "zzz" ]}
      Fixture.stray_state
    = (reply "No documents found containing 'zzz'", Fixture.stray_state)
  ∧ dict_in (VStr "x") (DocumentServer.document_index Fixture.stray_state) = false.
Proof. repeat split; vm_compute; reflexivity. Qed.

(** C8 at a file the index does not know, which the query hits. *)
Lemma search_witness :
  ∃ listed st',
    Fixture.run Document "search_documents" {[ "query" := VStr "B" ]} Fixture.stray_state
    = (reply (search_reply "B" listed), st')
    ∧ In (VStr "x", 1%nat) listed
    ∧ dict_get (DocumentServer.document_index st') (VStr "x") = Some "abc".
Proof.
  assert (glob_txt (DocumentServer.fs Fixture.stray_state) DocumentServer.DOCUMENTS_DIR
          = [Path "documents/x.txt"]) as Hglob by (vm_compute; reflexivity).
  assert (read_text (DocumentServer.fs Fixture.stray_state) (Path "documents/x.txt")
          = Return "abc") as Hread by (vm_compute; reflexivity).
  assert (stem (Path "documents/x.txt") = "x") as Hstem by (vm_compute; reflexivity).
  assert (lower "abc" = "abc") as Hlower by (vm_compute; reflexivity).
  assert (file_hit (lower "B") Fixture.stray_state (Path "documents/x.txt") 1)
    as Hhit.
  { split; [ vm_compute; reflexivity | ]. exists "abc".
    split; [ exact Hread | ]. split; vm_compute; reflexivity. }
  destruct (proj1 (search_counts_case_insensitively (Fixture.python 15)
                     Fixture.executable Fixture.sqlite_execute Fixture.numeric_affinity
                     Fixture.CURRENT_TIMESTAMP Fixture.json_dumps Fixture.float_str)
              {[ "query" := VStr "B" ]} "B" Fixture.stray_state)
    as (listed & st' & Hrun & _ & Hfs & Hsound & _ & Hfiles & _).
  - vm_compute; reflexivity.
  - discriminate.
  - intros key text [].
  - rewrite Hglob. intros p [<- | []] _. exists "abc". exact Hread.
  - rewrite Hglob in Hsound, Hfiles.
    exists listed, st'. split; [ exact Hrun | ].
    destruct (Hfiles _ _ (or_introl eq_refl) Hhit) as [k Hk].
    destruct (Hsound _ _ Hk)
      as [(text & [] & _)
         | (p & [<- | []] & _ & (_ & t & Hread' & _ & ->) & (t' & Hstored & Hindex))].
    rewrite Hread in Hread'. injection Hread' as <-.
    rewrite Hfs, Hread in Hstored. injection Hstored as <-.
    rewrite Hstem, Hlower in Hindex. rewrite Hstem in Hk.
    split; [ exact Hk | exact Hindex ].
Defined.

(** C10 as stated fails.  With an empty content the call raises and
    appends nothing, so a newline is not always inserted.  And the
    content of a document is not always what the new content starts
    with: a document created with a carriage return in it holds, after
    the call, a line feed in its place. *)
Lemma append_counterexample :
  DocumentServer.call_tool "append_to_document"
    {[ "name" := VStr "a"; "content" := VStr EmptyString ]} Fixture.document_state
  = (Raise (Exn ValueError "name and content are required"), Fixture.document_state)
  ∧ DocumentServer.fs
      (snd (DocumentServer.call_tool "create_document"
              {[ "name" := VStr "r"; "content" := VStr Fixture.two_lines ]}
              Fixture.document_state))
    !! Path "documents/r.txt"
    = Some (File Fixture.two_lines)
  ∧ DocumentServer.fs
      (snd (DocumentServer.call_tool "append_to_document"
              {[ "name" := VStr "r"; "content" := VStr "c" ]}
              (snd (DocumentServer.call_tool "create_document"
                      {[ "name" := VStr "r"; "content" := VStr Fixture.two_lines ]}
                      Fixture.document_state))))
    !! Path "documents/r.txt"
    = Some (File ("a" +:+ nl +:+ "b" +:+ nl +:+ "c"))
  ∧ "a" +:+ nl +:+ "b" +:+ nl +:+ "c" ≠ Fixture.two_lines +:+ nl +:+ "c".
Proof.
  split; [ vm_compute; reflexivity | ].
  split; [ vm_compute; reflexivity | ].
  split; [ vm_compute; reflexivity | ].
  vm_compute. discriminate.
Qed.

(** C10 at a document with one line. *)
Lemma append_witness :
  read_text (<[Path "documents/a.txt" := File "Hello"]> Fixture.files)
    (DocumentServer.doc_path (VStr "a")) = Return "Hello"
  ∧ ∃ st',
      Fixture.run Document "append_to_document"
        {[ "name" := VStr "a"; "content" := VStr "World" ]}
        {| DocumentServer.fs := <[Path "documents/a.txt" := File "Hello"]> Fixture.files;
           DocumentServer.document_index := [(VStr "a", "hello")] |}
      = (reply "Appended 5 characters to 'a'", st')
      ∧ DocumentServer.fs st' !! DocumentServer.doc_path (VStr "a")
        = Some (File ("Hello" +:+ nl +:+ "World"))
      ∧ dict_get (DocumentServer.document_index st') (VStr "a")
        = Some ("hello" +:+ nl +:+ "world").
Proof.
  split; [ vm_compute; reflexivity | ].
  apply (append_inserts_newline (Fixture.python 15) Fixture.executable
           Fixture.sqlite_execute Fixture.numeric_affinity Fixture.CURRENT_TIMESTAMP
           Fixture.json_dumps Fixture.float_str
           {[ "name" := VStr "a"; "content" := VStr "World" ]} "a" "World" "Hello"
           {| DocumentServer.fs := <[Path "documents/a.txt" := File "Hello"]> Fixture.files;
              DocumentServer.document_index := [(VStr "a", "hello")] |}).
  - reflexivity.
  - reflexivity.
  - discriminate.
  - discriminate.
  - vm_compute. reflexivity.
  - vm_compute. reflexivity.
Defined.

End Examples.


(** ** Further properties of the three servers *)

Section Further.
Import Py Fs.

Variable python : string → filesystem → CodeServer.process.
Variable executable : string.
Variable sqlite_execute : string → DatabaseServer.database → DatabaseServer.exec_result.
Variable numeric_affinity : string → DatabaseServer.sqlvalue.
Variable CURRENT_TIMESTAMP : nat → string.
Variable json_dumps : DatabaseServer.json → string.
Variable float_str : float → string.

Local Abbreviation dispatch :=
  (call_tool python executable sqlite_execute numeric_affinity CURRENT_TIMESTAMP
     json_dumps float_str).

(** Picks the branch of [call_tool] for a literal tool name. *)
Ltac enter_tool :=
  unfold call_tool, CodeServer.call_tool, DatabaseServer.call_tool,
    DocumentServer.call_tool;
  repeat first [ rewrite decide_True by reflexivity
               | rewrite decide_False by discriminate ];
  cbv beta iota.

(** *** The code server *)

(** [subprocess.run] leaves the snippets as they were, whatever the
    child does. *)
Lemma subprocess_run_frame (code : value) (timeout : nat) (st : CodeServer.state) :
  CodeServer.code_store
    (snd (CodeServer.subprocess_run python executable code timeout st))
  = CodeServer.code_store st.
Proof.
  unfold CodeServer.subprocess_run.
  destruct code as [ | program | z]; try reflexivity.
  destruct (has_char NUL program); [ reflexivity | ].
  destruct (CodeServer.communicated _ _); reflexivity.
Qed.

Lemma execute_code_frame (code : value) (st : CodeServer.state) :
  ∃ text st',
    CodeServer.execute_code python executable code st = (reply text, st')
    ∧ CodeServer.code_store st' = CodeServer.code_store st.
Proof.
  unfold CodeServer.execute_code.
  pose proof (subprocess_run_frame code 10 st) as Hstore.
  destruct (CodeServer.subprocess_run python executable code 10 st) as [[result | e] st'];
    cbn [snd] in Hstore.
  - eauto.
  - destruct (cls e); eauto.
Qed.

Lemma write_file_frame (file_path content : value) (st : CodeServer.state) :
  ∃ text st',
    CodeServer.write_file file_path content st = (reply text, st')
    ∧ CodeServer.running st' = CodeServer.running st
    ∧ CodeServer.code_store st' = CodeServer.code_store st.
Proof.
  unfold CodeServer.write_file.
  destruct (CodeServer.path_of file_path) as [path | e]; [ | eauto ].
  destruct (mkdir_parents _ _) as [[[] | e] fs1]; [ | eauto ].
  destruct content as [ | text | z]; eauto.
  destruct (write_text fs1 path text) as [[[] | e] fs2]; eauto.
Qed.

Lemma read_file_replies (file_path : value) (st : CodeServer.state) :
  ∃ text, CodeServer.read_file file_path st = reply text.
Proof.
  unfold CodeServer.read_file.
  destruct (CodeServer.path_of file_path) as [path | e]; [ | eauto ].
  destruct (exists_ _ _) as [[ | ] | e]; [ | eauto | eauto ].
  destruct (read_text _ _); eauto.
Qed.

(** X1: on the code server a call, with arguments that are null, strings
    or integers, either raises a [ValueError] and leaves the state as it
    was, or returns exactly one text block; no other exception leaves
    [call_tool]. *)
Theorem code_calls_answer_in_band
    (tool_name : string) (arguments : gmap string value) (st : CodeServer.state) :
  (∃ e, dispatch Code tool_name arguments st = (Raise e, st) ∧ cls e = ValueError)
  ∨ (∃ text st', dispatch Code tool_name arguments st = (reply text, st')).
Proof.
  unfold call_tool, CodeServer.call_tool.
  repeat (destruct (decide (tool_name = _)) as [-> | _]);
    repeat match goal with
      | |- context [if ?b then (Raise _, _) else _] => destruct b
      end;
    try (left; eexists; split; reflexivity).
  - right. destruct (read_file_replies (get arguments "file_path") st) as [text ->]. eauto.
  - right. destruct (write_file_frame (get arguments "file_path") (get arguments "content") st)
      as (text & st' & -> & _). eauto.
  - right. destruct (execute_code_frame (get arguments "code") st)
      as (text & st' & -> & _). eauto.
  - right. eauto.
  - right. destruct (CodeServer.code_store st); eauto.
Qed.

(** X2: a snippet saved under a non-empty name is what [read_resource]
    returns for [code://name], whatever was stored under that name
    before; the snippets under other names, the files and the live
    processes are as they were. *)
Theorem saved_snippet_is_served
    (arguments : gmap string value) (n c : string) (st : CodeServer.state) :
  arguments !! "name" = Some (VStr n) →
  arguments !! "code" = Some (VStr c) →
  n ≠ EmptyString →
  c ≠ EmptyString →
  ∃ st',
    dispatch Code "save_code_snippet" arguments st
    = (reply ("Code snippet '" +:+ n +:+ "' saved successfully"), st')
    ∧ CodeServer.read_resource ("code://" +:+ n) st' = Return (VStr c)
    ∧ (∀ m, m ≠ n →
         CodeServer.read_resource ("code://" +:+ m) st'
         = CodeServer.read_resource ("code://" +:+ m) st)
    ∧ CodeServer.fs st' = CodeServer.fs st
    ∧ CodeServer.running st' = CodeServer.running st.
Proof.
  intros Hname Hcode Hn Hc. enter_tool.
  rewrite (get_present _ _ _ Hname), (get_present _ _ _ Hcode), !truthy_str by assumption.
  cbn [negb orb py_str]. eexists. split; [ reflexivity | ].
  assert (∀ m, startswith ("code://" +:+ m) "code://" = true
               ∧ drop_chars 7 ("code://" +:+ m) = m) as Huri.
  { intros m. split; [ | reflexivity ].
    unfold startswith. lazy beta iota delta [String.append]. fold String.append.
    cbn. destruct m; reflexivity. }
  split; [ | split; [ | split; reflexivity ] ].
  - unfold CodeServer.read_resource. destruct (Huri n) as [-> ->].
    cbn [CodeServer.code_store]. rewrite dict_get_set_eq. reflexivity.
  - intros m Hm. unfold CodeServer.read_resource. destruct (Huri m) as [-> ->].
    cbn [CodeServer.code_store]. rewrite dict_get_set_ne by congruence. reflexivity.
Qed.

(** *** Directories made on the way to a file *)



Lemma In_prefixes_whole (done parts : list string) :
  parts ≠ [] → In (done ++ parts) (prefixes done parts).
Proof.
  revert done. induction parts as [ | x rest IH]; intros done Hparts; [ congruence | ].
  cbn [prefixes]. destruct rest as [ | y rest].
  - left. reflexivity.
  - right. rewrite (app_assoc done [x] (y :: rest)) at 1. apply IH. discriminate.
Qed.




Lemma utf8_length_append (s t : string) :
  utf8_length (s +:+ t) = (utf8_length s + utf8_length t)%nat.
Proof.
  induction s as [ | c s IH]; [ reflexivity | ].
  change (String c s +:+ t) with (String c (s +:+ t)).
  change (utf8_length (String c ?x))
    with ((if (code c <? 128)%N then 1 else 2) + utf8_length x)%nat.
  rewrite IH. lia.
Qed.




(** *** Arguments that are there but empty *)

(** X4: a required argument that is present but falsy (the empty string,
    or zero) is refused like a missing one: [call_tool] raises a
    [ValueError] and leaves the state as it was.  The two arguments
    tested with [is None] instead, the [content] of [write_file] and the
    [age] of [insert_user], are the exceptions. *)
Theorem falsy_required_argument_raises
    (s : server) (tool : Tool) (key : string)
    (arguments : gmap string value) (v : value) (st : server_state s) :
  In tool (tools s) →
  In key (required tool) →
  arguments !! key = Some v →
  truthy v = false →
  (name tool, key) ≠ ("write_file", "content") →
  (name tool, key) ≠ ("insert_user", "age") →
  ∃ e, dispatch s (name tool) arguments st = (Raise e, st) ∧ cls e = ValueError.
Proof.
  intros Htool Hkey Hget%get_present Hfalsy Hcontent Hage.
  destruct s; simpl in Htool;
    repeat (destruct Htool as [<- | Htool]; [ | ]); try contradiction;
    simpl in Hkey;
    repeat (destruct Hkey as [<- | Hkey]; [ | ]); try contradiction;
    try (exfalso; apply Hcontent; reflexivity);
    try (exfalso; apply Hage; reflexivity);
    enter_tool; cbn [name];
    repeat first [ rewrite decide_True by reflexivity
                 | rewrite decide_False by discriminate ];
    rewrite Hget, Hfalsy; cbn [negb orb forallb id andb];
    rewrite ?orb_true_r, ?andb_false_r; cbn [negb];
    eexists; (split; [ reflexivity | reflexivity ]).
Qed.

(** *** The database server *)

Lemma user_id_le_max_rowid (u : DatabaseServer.user_row)
    (rows : list DatabaseServer.user_row) :
  In u rows →
  DatabaseServer.user_id u
  ≤ DatabaseServer.max_rowid (map DatabaseServer.user_id rows).
Proof.
  unfold DatabaseServer.max_rowid.
  induction rows as [ | w rows IH]; cbn [In map fold_right]; [ contradiction | ].
  intros [-> | Hin]; [ lia | ]. specialize (IH Hin). lia.
Qed.

Lemma find_new_row (e : string) (rows : list DatabaseServer.user_row)
    (u : DatabaseServer.user_row) :
  existsb (λ w, Stdlib.Strings.String.eqb (DatabaseServer.user_email w) e) rows = false →
  DatabaseServer.user_email u = e →
  List.find (λ w, Stdlib.Strings.String.eqb (DatabaseServer.user_email w) e) (rows ++ [u])
  = Some u.
Proof.
  intros Hfresh Hu. induction rows as [ | w rows IH]; cbn [app List.find existsb] in *.
  - rewrite Hu, Stdlib.Strings.String.eqb_refl. reflexivity.
  - apply orb_false_elim in Hfresh as [-> Hfresh]. exact (IH Hfresh).
Qed.

(** What [insert_into_users] does to the database: nothing when it
    raises, one new row with a new key and a new address otherwise. *)
Lemma insert_into_users_run
    (n e a : DatabaseServer.param) (now : string) (d : DatabaseServer.database) :
  (∃ err, DatabaseServer.insert_into_users numeric_affinity n e a now d = (Raise err, d))
  ∨ (∃ u,
       DatabaseServer.insert_into_users numeric_affinity n e a now d
       = (Return (DatabaseServer.user_id u),
          {| DatabaseServer.tables := DatabaseServer.tables d;
             DatabaseServer.users := DatabaseServer.users d ++ [u];
             DatabaseServer.users_seq := DatabaseServer.user_id u;
             DatabaseServer.products := DatabaseServer.products d;
             DatabaseServer.products_seq := DatabaseServer.products_seq d |})
       ∧ email_taken (DatabaseServer.user_email u) d = false
       ∧ (∀ w, In w (DatabaseServer.users d) →
               DatabaseServer.user_id w < DatabaseServer.user_id u)
       ∧ DatabaseServer.users_seq d < DatabaseServer.user_id u < 2 ^ 63).
Proof.
  unfold DatabaseServer.insert_into_users.
  destruct (DatabaseServer.table_exists "users" d); cbn [negb]; [ | left; eauto ].
  destruct (2 ^ 63 <=? _) eqn:Hroom; [ left; eauto | ].
  destruct (DatabaseServer.text_affinity n) as [name | ]; [ | left; eauto ].
  destruct (DatabaseServer.text_affinity e) as [email | ]; [ | left; eauto ].
  destruct (existsb _ _) eqn:Hfresh; [ left; eauto | ].
  right. eexists {| DatabaseServer.user_id := _ |}. cbn [DatabaseServer.user_id
    DatabaseServer.user_email].
  split; [ reflexivity | ]. split; [ exact Hfresh | ].
  apply Z.leb_gt in Hroom. unfold DatabaseServer.next_rowid in *. split.
  - intros w Hin%user_id_le_max_rowid. lia.
  - unfold DatabaseServer.max_rowid in *. lia.
Qed.

(** [insert_user] past its argument test: it always returns a text, and
    the database is either as it was or has one more row. *)
Lemma insert_user_outcome (name email age : value) (st : DatabaseServer.state) :
  ∃ text st',
    DatabaseServer.insert_user numeric_affinity CURRENT_TIMESTAMP name email age st
    = (reply text, st')
    ∧ (DatabaseServer.db st' = DatabaseServer.db st
       ∨ ∃ u,
           DatabaseServer.users (DatabaseServer.db st')
           = DatabaseServer.users (DatabaseServer.db st) ++ [u]
           ∧ email_taken (DatabaseServer.user_email u) (DatabaseServer.db st) = false
           ∧ (∀ w, In w (DatabaseServer.users (DatabaseServer.db st)) →
                   DatabaseServer.user_id w < DatabaseServer.user_id u)
           ∧ DatabaseServer.users_seq (DatabaseServer.db st)
             < DatabaseServer.user_id u
           ∧ DatabaseServer.tables (DatabaseServer.db st')
             = DatabaseServer.tables (DatabaseServer.db st)
           ∧ DatabaseServer.products (DatabaseServer.db st')
             = DatabaseServer.products (DatabaseServer.db st)).
Proof.
  unfold DatabaseServer.insert_user. cbn [DatabaseServer.execute DatabaseServer.db].
  destruct (DatabaseServer.table_exists "users" (DatabaseServer.db st)); cbn [negb];
    [ | cbn; eauto ].
  destruct (DatabaseServer.bind3 _ _ _) as [[[n e] a] | err].
  - destruct (insert_into_users_run n e a
                (CURRENT_TIMESTAMP (length (DatabaseServer.executed st)))
                (DatabaseServer.db st))
      as [[err ->] | (u & -> & Hfresh & Hkeys & Hseq)].
    + destruct (cls err); eexists _, _; (split; [ reflexivity | left; reflexivity ]).
    + eexists _, _. split; [ reflexivity | ]. right. exists u.
      cbn [DatabaseServer.commit DatabaseServer.db DatabaseServer.users
             DatabaseServer.tables DatabaseServer.products].
      repeat split; try assumption. lia.
  - destruct (cls err); eexists _, _; (split; [ reflexivity | left; reflexivity ]).
Qed.

(** X5: [insert_user] is all or nothing.  A call either raises a
    [ValueError] before anything is run, or returns one text block; in
    the second case the database is either as it was, or has exactly one
    more row in [users], whose address no row had and whose key is above
    every key in use and above the last key handed out. *)
Theorem insert_user_all_or_nothing
    (arguments : gmap string value) (st : DatabaseServer.state) :
  (∃ e, dispatch Database "insert_user" arguments st = (Raise e, st)
        ∧ cls e = ValueError)
  ∨ (∃ text st',
       dispatch Database "insert_user" arguments st = (reply text, st')
       ∧ (DatabaseServer.db st' = DatabaseServer.db st
          ∨ ∃ u,
              DatabaseServer.users (DatabaseServer.db st')
              = DatabaseServer.users (DatabaseServer.db st) ++ [u]
              ∧ email_taken (DatabaseServer.user_email u) (DatabaseServer.db st) = false
              ∧ (∀ w, In w (DatabaseServer.users (DatabaseServer.db st)) →
                      DatabaseServer.user_id w < DatabaseServer.user_id u)
              ∧ DatabaseServer.users_seq (DatabaseServer.db st)
                < DatabaseServer.user_id u
              ∧ DatabaseServer.tables (DatabaseServer.db st')
                = DatabaseServer.tables (DatabaseServer.db st)
              ∧ DatabaseServer.products (DatabaseServer.db st')
                = DatabaseServer.products (DatabaseServer.db st))).
Proof.
  enter_tool.
  destruct (negb (forallb id _)); [ left; eexists; split; reflexivity | right ].
  apply insert_user_outcome.
Qed.

Lemma execute_query_replies (query : value) (st : DatabaseServer.state) :
  ∃ text st',
    DatabaseServer.execute_query sqlite_execute json_dumps query st = (reply text, st').
Proof.
  unfold DatabaseServer.execute_query.
  destruct query as [ | q | z]; eauto.
  destruct (negb _); eauto.
  destruct (sqlite_execute q _) as [e | rows rowcount db']; eauto.
  destruct (startswith _ _); eauto. destruct rows; eauto.
Qed.

Lemma describe_table_replies (table_name : value) (st : DatabaseServer.state) :
  ∃ text st',
    DatabaseServer.describe_table sqlite_execute float_str table_name st
    = (reply text, st').
Proof.
  unfold DatabaseServer.describe_table.
  destruct (sqlite_execute _ _) as [e | columns rowcount db']; eauto.
  destruct columns as [ | col columns]; eauto.
  destruct (DatabaseServer.describe_columns _ _); eauto.
Qed.

(** X7: without a [users] table the two user tools fail in different
    ways.  [insert_user] catches the error and reports it in its text;
    [get_user] has no handler, and the [OperationalError] leaves
    [call_tool]. *)
Theorem missing_users_table
    (arguments : gmap string value) (n e : value) (a : value)
    (st : DatabaseServer.state) :
  arguments !! "name" = Some n →
  arguments !! "email" = Some e →
  arguments !! "age" = Some a →
  truthy n = true → truthy e = true → a ≠ VNone →
  DatabaseServer.table_exists "users" (DatabaseServer.db st) = false →
  dispatch Database "insert_user" arguments st
  = (reply "Error inserting user: no such table: users",
     DatabaseServer.execute "INSERT INTO users (name, email, age) VALUES (?, ?, ?)" st)
  ∧ dispatch Database "get_user" arguments st
    = (Raise (Exn OperationalError "no such table: users"),
       DatabaseServer.execute "SELECT * FROM users WHERE email = ?" st).
Proof.
  intros Hn He Ha Hname Hemail Hage Htable. split; enter_tool;
    rewrite ?(get_present _ _ _ Hn), ?(get_present _ _ _ He), ?(get_present _ _ _ Ha).
  - cbn [forallb id]. rewrite Hname, Hemail.
    assert (is_None a = false) as -> by (destruct a; [ congruence | reflexivity .. ]).
    cbn [negb andb]. unfold DatabaseServer.insert_user.
    cbn [DatabaseServer.execute DatabaseServer.db]. rewrite Htable. reflexivity.
  - rewrite Hemail. cbn [negb]. unfold DatabaseServer.get_user.
    cbn [DatabaseServer.execute DatabaseServer.db]. rewrite Htable. reflexivity.
Qed.

(** X8: a user that [insert_user] has inserted is the one [get_user]
    finds under the address: the row carries the key reported, the name,
    the address and the age given, and the time of the insertion. *)
Theorem inserted_user_is_found
    (first second : gmap string value) (n e : string) (a : Z)
    (st : DatabaseServer.state) :
  first !! "name" = Some (VStr n) → first !! "email" = Some (VStr e) →
  first !! "age" = Some (VInt a) →
  second !! "email" = Some (VStr e) →
  n ≠ EmptyString → e ≠ EmptyString →
  - 2 ^ 63 <= a < 2 ^ 63 →
  DatabaseServer.table_exists "users" (DatabaseServer.db st) = true →
  email_taken e (DatabaseServer.db st) = false →
  DatabaseServer.next_rowid (DatabaseServer.users_seq (DatabaseServer.db st))
    (map DatabaseServer.user_id (DatabaseServer.users (DatabaseServer.db st)))
  < 2 ^ 63 →
  let id := DatabaseServer.next_rowid (DatabaseServer.users_seq (DatabaseServer.db st))
              (map DatabaseServer.user_id (DatabaseServer.users (DatabaseServer.db st))) in
  let once := dispatch Database "insert_user" first st in
  let found := dispatch Database "get_user" second (snd once) in
  fst once
  = reply ("User '" +:+ n +:+ "' inserted successfully with ID " +:+ str_of_Z id)
  ∧ fst found
    = reply ("User found:" +:+ nl
             +:+ json_dumps
                   (DatabaseServer.JObj
                      [("id", DatabaseServer.JInt id);
                       ("name", DatabaseServer.JStr n);
                       ("email", DatabaseServer.JStr e);
                       ("age", DatabaseServer.JInt a);
                       ("created_at",
                        DatabaseServer.JStr
                          (CURRENT_TIMESTAMP (length (DatabaseServer.executed st))))]))
  ∧ DatabaseServer.db (snd found) = DatabaseServer.db (snd once).
Proof.
  intros Hn He Ha He' Hname Hemail Hage Htable Hfresh Hroom id once found.
  destruct (get_str _ _ _ Hn Hname) as [Hget Htruthy].
  destruct (get_str _ _ _ He Hemail) as [Hget' Htruthy'].
  destruct (get_str _ _ _ He' Hemail) as [Hget'' Htruthy''].
  assert (once = DatabaseServer.insert_user numeric_affinity CURRENT_TIMESTAMP
                   (VStr n) (VStr e) (VInt a) st) as Honce.
  { unfold once. enter_tool.
    rewrite Htruthy, Hget, Htruthy', Hget', (get_present _ _ _ Ha). reflexivity. }
  rewrite (insert_user_run numeric_affinity CURRENT_TIMESTAMP n e a st Hage Htable Hroom)
    in Honce.
  cbv zeta in Honce. rewrite Hfresh in Honce. fold id in Honce.
  unfold found. rewrite Honce. cbn [fst snd]. split; [ reflexivity | ].
  enter_tool. rewrite Htruthy'', Hget''. cbn [negb].
  unfold DatabaseServer.get_user.
  cbn [DatabaseServer.execute DatabaseServer.db DatabaseServer.tables].
  unfold DatabaseServer.table_exists in *. cbn [DatabaseServer.tables].
  rewrite Htable. cbn [negb DatabaseServer.bind].
  unfold DatabaseServer.select_user, DatabaseServer.table_exists.
  cbn [DatabaseServer.tables DatabaseServer.users DatabaseServer.text_affinity].
  rewrite Htable. cbn [negb].
  erewrite (find_new_row e); [ | exact Hfresh | reflexivity ].
  cbn [fst snd DatabaseServer.db]. split; [ | reflexivity ].
  do 3 f_equal.
Qed.

(** *** Starting the database server again *)

(** One sample row for [users]. *)
Lemma insert_into_users_text (n e : string) (a : Z) (now : string)
    (d : DatabaseServer.database) :
  DatabaseServer.table_exists "users" d = true →
  email_taken e d = false →
  DatabaseServer.insert_into_users numeric_affinity (DatabaseServer.PText n)
    (DatabaseServer.PText e) (DatabaseServer.PInteger a) now d
  = let id := DatabaseServer.next_rowid (DatabaseServer.users_seq d)
                (map DatabaseServer.user_id (DatabaseServer.users d)) in
    if 2 ^ 63 <=? id then
      (Raise (Exn OperationalError "database or disk is full"), d)
    else
      (Return id,
       {| DatabaseServer.tables := DatabaseServer.tables d;
          DatabaseServer.users :=
            DatabaseServer.users d
            ++ [{| DatabaseServer.user_id := id;
                   DatabaseServer.user_name := n;
                   DatabaseServer.user_email := e;
                   DatabaseServer.user_age := DatabaseServer.SInteger a;
                   DatabaseServer.user_created_at := DatabaseServer.SText now |}];
          DatabaseServer.users_seq := id;
          DatabaseServer.products := DatabaseServer.products d;
          DatabaseServer.products_seq := DatabaseServer.products_seq d |}).
Proof.
  intros Htable Hfresh. unfold DatabaseServer.insert_into_users.
  rewrite Htable. cbn [negb DatabaseServer.text_affinity]. cbv zeta.
  fold (email_taken e d). rewrite Hfresh. reflexivity.
Qed.

Lemma seed_users_run (now : string) (d : DatabaseServer.database) :
  DatabaseServer.table_exists "users" d = true →
  DatabaseServer.users d = [] →
  let key := Z.max (DatabaseServer.users_seq d) 0 in
  let seeded :=
    DatabaseServer.executemany_users numeric_affinity now [
      ("Alice Johnson", "alice@example.com", 30);
      ("Bob Smith", "bob@example.com", 25);
      ("Charlie Brown", "charlie@example.com", 35)] d in
  (key + 3 < 2 ^ 63 →
   fst seeded = Return tt
   ∧ DatabaseServer.tables (snd seeded) = DatabaseServer.tables d
   ∧ DatabaseServer.products (snd seeded) = DatabaseServer.products d
   ∧ DatabaseServer.products_seq (snd seeded) = DatabaseServer.products_seq d
   ∧ map DatabaseServer.user_id (DatabaseServer.users (snd seeded))
     = [key + 1; key + 2; key + 3]
   ∧ map DatabaseServer.user_email (DatabaseServer.users (snd seeded))
     = ["alice@example.com"; "bob@example.com"; "charlie@example.com"])
  ∧ (¬ key + 3 < 2 ^ 63 →
     fst seeded = Raise (Exn OperationalError "database or disk is full")).
Proof.
  intros Htable Hrows key seeded. subst seeded.
  cbn [DatabaseServer.executemany_users fst snd].
  rewrite insert_into_users_text
    by (try assumption; unfold email_taken; rewrite Hrows; reflexivity).
  cbv zeta. rewrite Hrows. cbn [map app].
  assert (DatabaseServer.next_rowid (DatabaseServer.users_seq d) [] = key + 1) as ->.
  { unfold DatabaseServer.next_rowid, DatabaseServer.max_rowid. reflexivity. }
  destruct (Z.leb_spec (2 ^ 63) (key + 1)) as [Hfull1 | Hroom1].
  { split; [ lia | reflexivity ]. }
  rewrite insert_into_users_text by first [ exact Htable | reflexivity ].
  cbv zeta. cbn [DatabaseServer.users DatabaseServer.users_seq map DatabaseServer.user_id].
  assert (DatabaseServer.next_rowid (key + 1) [key + 1] = key + 2) as ->.
  { unfold DatabaseServer.next_rowid, DatabaseServer.max_rowid. cbn [fold_right]. lia. }
  destruct (Z.leb_spec (2 ^ 63) (key + 2)) as [Hfull2 | Hroom2].
  { split; [ lia | reflexivity ]. }
  rewrite insert_into_users_text by first [ exact Htable | reflexivity ].
  cbv zeta. cbn [DatabaseServer.users DatabaseServer.users_seq map DatabaseServer.user_id app].
  assert (DatabaseServer.next_rowid (key + 2) [key + 1; key + 2] = key + 3) as ->.
  { unfold DatabaseServer.next_rowid, DatabaseServer.max_rowid. cbn [fold_right]. lia. }
  destruct (Z.leb_spec (2 ^ 63) (key + 3)) as [Hfull3 | Hroom3].
  { split; [ lia | reflexivity ]. }
  split; [ | lia ]. intros _. cbn. repeat split; reflexivity.
Qed.

Lemma insert_into_products_run (p : string * float * string * Z)
    (d : DatabaseServer.database) :
  DatabaseServer.table_exists "products" d = true →
  DatabaseServer.insert_into_products p d
  = let id := DatabaseServer.next_rowid (DatabaseServer.products_seq d)
                (map DatabaseServer.product_id (DatabaseServer.products d)) in
    if 2 ^ 63 <=? id then
      (Raise (Exn OperationalError "database or disk is full"), d)
    else
      (Return id,
       {| DatabaseServer.tables := DatabaseServer.tables d;
          DatabaseServer.users := DatabaseServer.users d;
          DatabaseServer.users_seq := DatabaseServer.users_seq d;
          DatabaseServer.products :=
            DatabaseServer.products d
            ++ [{| DatabaseServer.product_id := id;
                   DatabaseServer.product_name := fst (fst (fst p));
                   DatabaseServer.price := DatabaseServer.SReal (snd (fst (fst p)));
                   DatabaseServer.category := DatabaseServer.SText (snd (fst p));
                   DatabaseServer.stock := DatabaseServer.SInteger (snd p) |}];
          DatabaseServer.products_seq := id |}).
Proof.
  intros Htable. unfold DatabaseServer.insert_into_products. rewrite Htable. reflexivity.
Qed.

Lemma seed_products_run (d : DatabaseServer.database) :
  DatabaseServer.table_exists "products" d = true →
  DatabaseServer.products d = [] →
  let key := Z.max (DatabaseServer.products_seq d) 0 in
  let seeded :=
    DatabaseServer.executemany_products [
      ("Laptop", 999.99%float, "Electronics", 10);
      ("Mouse", 29.99%float, "Electronics", 50);
      ("Desk Chair", 199.99%float, "Furniture", 15)] d in
  (key + 3 < 2 ^ 63 →
   fst seeded = Return tt
   ∧ DatabaseServer.tables (snd seeded) = DatabaseServer.tables d
   ∧ DatabaseServer.users (snd seeded) = DatabaseServer.users d
   ∧ DatabaseServer.users_seq (snd seeded) = DatabaseServer.users_seq d
   ∧ map DatabaseServer.product_id (DatabaseServer.products (snd seeded))
     = [key + 1; key + 2; key + 3]
   ∧ map DatabaseServer.product_name (DatabaseServer.products (snd seeded))
     = ["Laptop"; "Mouse"; "Desk Chair"])
  ∧ (¬ key + 3 < 2 ^ 63 →
     fst seeded = Raise (Exn OperationalError "database or disk is full")).
Proof.
  intros Htable Hrows key seeded. subst seeded.
  cbn [DatabaseServer.executemany_products fst snd].
  rewrite insert_into_products_run by exact Htable.
  cbv zeta. rewrite Hrows. cbn [map app].
  assert (DatabaseServer.next_rowid (DatabaseServer.products_seq d) [] = key + 1) as ->.
  { unfold DatabaseServer.next_rowid, DatabaseServer.max_rowid. reflexivity. }
  destruct (Z.leb_spec (2 ^ 63) (key + 1)) as [Hfull1 | Hroom1].
  { split; [ lia | reflexivity ]. }
  rewrite insert_into_products_run by exact Htable.
  cbv zeta.
  cbn [DatabaseServer.products DatabaseServer.products_seq map DatabaseServer.product_id].
  assert (DatabaseServer.next_rowid (key + 1) [key + 1] = key + 2) as ->.
  { unfold DatabaseServer.next_rowid, DatabaseServer.max_rowid. cbn [fold_right]. lia. }
  destruct (Z.leb_spec (2 ^ 63) (key + 2)) as [Hfull2 | Hroom2].
  { split; [ lia | reflexivity ]. }
  rewrite insert_into_products_run by exact Htable.
  cbv zeta.
  cbn [DatabaseServer.products DatabaseServer.products_seq map DatabaseServer.product_id
         app].
  assert (DatabaseServer.next_rowid (key + 2) [key + 1; key + 2] = key + 3) as ->.
  { unfold DatabaseServer.next_rowid, DatabaseServer.max_rowid. cbn [fold_right]. lia. }
  destruct (Z.leb_spec (2 ^ 63) (key + 3)) as [Hfull3 | Hroom3].
  { split; [ lia | reflexivity ]. }
  split; [ | lia ]. intros _. cbn. repeat split; reflexivity.
Qed.

Lemma table_exists_create_table (t u : string) (names : list string) :
  existsb (Stdlib.Strings.String.eqb t) (DatabaseServer.create_table u names)
  = Stdlib.Strings.String.eqb t u
    || existsb (Stdlib.Strings.String.eqb t) names
    || (Stdlib.Strings.String.eqb t "sqlite_sequence"
        && negb (existsb (Stdlib.Strings.String.eqb u) names)).
Proof.
  unfold DatabaseServer.create_table.
  destruct (existsb (Stdlib.Strings.String.eqb u) names) eqn:Hu.
  - rewrite andb_false_r, orb_false_r.
    destruct (Stdlib.Strings.String.eqb_spec t u) as [-> | _]; [ | reflexivity ].
    rewrite Hu. reflexivity.
  - destruct (existsb (Stdlib.Strings.String.eqb "sqlite_sequence") names) eqn:Hseq;
      rewrite existsb_app; cbn [existsb negb]; rewrite ?orb_false_r, ?andb_true_r.
    + destruct (Stdlib.Strings.String.eqb_spec t "sqlite_sequence") as [-> | _].
      * rewrite Hseq, !orb_true_r. reflexivity.
      * rewrite orb_false_r. apply orb_comm.
    + rewrite orb_assoc, (orb_comm (existsb _ names)). reflexivity.
Qed.

(** X9: [init_database] may be run on any database file.  Afterwards
    both tables exist and every table that was there still is; a [users]
    or [products] table that has rows keeps exactly these rows and its
    last key.  A table that is new or empty is given the three sample
    rows, with the three keys after the last key handed out, provided
    these stay below 2^63; if they do not, for either table, the call
    raises the [OperationalError] of SQLite, and no sample row is kept
    in either table. *)
Theorem init_database_keeps_rows (d : DatabaseServer.database) (now : string) :
  let result := DatabaseServer.init_database numeric_affinity d now in
  let d' := snd result in
  let users_before :=
    if DatabaseServer.table_exists "users" d then DatabaseServer.users d else [] in
  let users_key :=
    if DatabaseServer.table_exists "users" d
    then Z.max (DatabaseServer.users_seq d) 0 else 0 in
  let products_before :=
    if DatabaseServer.table_exists "products" d then DatabaseServer.products d else [] in
  let products_key :=
    if DatabaseServer.table_exists "products" d
    then Z.max (DatabaseServer.products_seq d) 0 else 0 in
  let room :=
    (users_before = [] → users_key + 3 < 2 ^ 63)
    ∧ (products_before = [] → products_key + 3 < 2 ^ 63) in
  DatabaseServer.table_exists "users" d' = true
  ∧ DatabaseServer.table_exists "products" d' = true
  ∧ (∀ t, DatabaseServer.table_exists t d = true →
          DatabaseServer.table_exists t d' = true)
  ∧ (users_before ≠ [] →
     DatabaseServer.users d' = users_before
     ∧ DatabaseServer.users_seq d' = DatabaseServer.users_seq d)
  ∧ (products_before ≠ [] →
     DatabaseServer.products d' = products_before
     ∧ DatabaseServer.products_seq d' = DatabaseServer.products_seq d)
  ∧ (room →
     fst result = Return tt
     ∧ (users_before = [] →
        map DatabaseServer.user_id (DatabaseServer.users d')
        = [users_key + 1; users_key + 2; users_key + 3]
        ∧ map DatabaseServer.user_email (DatabaseServer.users d')
          = ["alice@example.com"; "bob@example.com"; "charlie@example.com"])
     ∧ (products_before = [] →
        map DatabaseServer.product_id (DatabaseServer.products d')
        = [products_key + 1; products_key + 2; products_key + 3]
        ∧ map DatabaseServer.product_name (DatabaseServer.products d')
          = ["Laptop"; "Mouse"; "Desk Chair"]))
  ∧ (¬ room →
     fst result = Raise (Exn OperationalError "database or disk is full")
     ∧ DatabaseServer.users d' = users_before
     ∧ DatabaseServer.products d' = products_before).
Proof.
  intros result d' users_before users_key products_before products_key room.
  subst result d'. unfold DatabaseServer.init_database. cbv zeta.
  set (d1 := DatabaseServer.Build_database
               (DatabaseServer.create_table "users" _) _ _ _ _).
  set (created := DatabaseServer.Build_database
                    (DatabaseServer.create_table "products" _) _ _ _ _).
  assert (∀ t, DatabaseServer.table_exists t d1
               = Stdlib.Strings.String.eqb t "users"
                 || DatabaseServer.table_exists t d
                 || (Stdlib.Strings.String.eqb t "sqlite_sequence"
                     && negb (DatabaseServer.table_exists "users" d))) as Hd1.
  { intros t. unfold DatabaseServer.table_exists. subst d1. cbn [DatabaseServer.tables].
    apply table_exists_create_table. }
  assert (∀ t, DatabaseServer.table_exists t created
               = Stdlib.Strings.String.eqb t "products"
                 || DatabaseServer.table_exists t d1
                 || (Stdlib.Strings.String.eqb t "sqlite_sequence"
                     && negb (DatabaseServer.table_exists "products" d1))) as Hcreated.
  { intros t. unfold DatabaseServer.table_exists. subst created.
    cbn [DatabaseServer.tables]. apply table_exists_create_table. }
  assert (DatabaseServer.table_exists "products" d1
          = DatabaseServer.table_exists "products" d) as Hhad.
  { rewrite Hd1. cbn. apply orb_false_r. }
  assert (DatabaseServer.users created = users_before
          ∧ Z.max (DatabaseServer.users_seq created) 0 = users_key
          ∧ DatabaseServer.products created = products_before
          ∧ Z.max (DatabaseServer.products_seq created) 0 = products_key)
    as (Husers & Hukey & Hproducts & Hpkey).
  { subst created users_before users_key products_before products_key.
    cbn [DatabaseServer.users DatabaseServer.users_seq DatabaseServer.products
           DatabaseServer.products_seq]. rewrite Hhad.
    subst d1. cbn [DatabaseServer.users DatabaseServer.users_seq DatabaseServer.products
                     DatabaseServer.products_seq].
    destruct (DatabaseServer.table_exists "users" d),
      (DatabaseServer.table_exists "products" d); repeat split; reflexivity. }
  assert (DatabaseServer.users_seq created = DatabaseServer.users_seq d
          ∨ users_before = []) as Huseq.
  { subst created users_before. cbn [DatabaseServer.users_seq]. subst d1.
    cbn [DatabaseServer.users_seq].
    destruct (DatabaseServer.table_exists "users" d); auto. }
  assert (DatabaseServer.products_seq created = DatabaseServer.products_seq d
          ∨ products_before = []) as Hpseq.
  { subst created products_before. cbn [DatabaseServer.products_seq]. rewrite Hhad.
    subst d1. cbn [DatabaseServer.products_seq].
    destruct (DatabaseServer.table_exists "products" d); auto. }
  assert (DatabaseServer.table_exists "users" created = true) as Hut.
  { rewrite Hcreated, Hd1. reflexivity. }
  assert (DatabaseServer.table_exists "products" created = true) as Hpt.
  { rewrite Hcreated. reflexivity. }
  assert (∀ t, DatabaseServer.table_exists t d = true →
               DatabaseServer.table_exists t created = true) as Hkept.
  { intros t Ht. rewrite Hcreated, Hd1, Ht, !orb_true_r. reflexivity. }
  clearbody created. clear d1 Hd1 Hcreated Hhad.
  clearbody users_before users_key products_before products_key.
  assert (∃ o du,
            match DatabaseServer.users created with
            | [] => DatabaseServer.executemany_users numeric_affinity now [
                      ("Alice Johnson", "alice@example.com", 30);
                      ("Bob Smith", "bob@example.com", 25);
                      ("Charlie Brown", "charlie@example.com", 35)] created
            | _ => (Return tt, created)
            end = (o, du)
            ∧ ((o = Return tt
                ∧ DatabaseServer.tables du = DatabaseServer.tables created
                ∧ DatabaseServer.products du = DatabaseServer.products created
                ∧ DatabaseServer.products_seq du = DatabaseServer.products_seq created
                ∧ (users_before ≠ [] → du = created)
                ∧ (users_before = [] →
                   users_key + 3 < 2 ^ 63
                   ∧ map DatabaseServer.user_id (DatabaseServer.users du)
                     = [users_key + 1; users_key + 2; users_key + 3]
                   ∧ map DatabaseServer.user_email (DatabaseServer.users du)
                     = ["alice@example.com"; "bob@example.com"; "charlie@example.com"]))
               ∨ (o = Raise (Exn OperationalError "database or disk is full")
                  ∧ users_before = [] ∧ ¬ users_key + 3 < 2 ^ 63)))
    as (o & du & -> & Hstage).
  { rewrite Husers. destruct users_before as [ | u rows].
    - destruct (seed_users_run now created Hut Husers) as [Hok Hfull].
      rewrite Hukey in Hok, Hfull.
      destruct (DatabaseServer.executemany_users _ _ _ _) as [o du].
      cbn [fst snd] in Hok, Hfull. exists o, du. split; [ reflexivity | ].
      destruct (Z_lt_dec (users_key + 3) (2 ^ 63)) as [Hroom | Hnone].
      + left. destruct (Hok Hroom) as (-> & Ht & Hp & Hs & Hids & Hmails).
        repeat split; try assumption; congruence.
      + right. auto.
    - exists (Return tt), created. split; [ reflexivity | ]. left.
      repeat split; congruence. }
  destruct Hstage as [(-> & Htables & Hprods & Hprodseq & Hsame & Hseeded)
                     | (-> & Hnone & Hfull)].
  2:{ cbn [fst snd]. rewrite Husers, Hproducts.
      split; [ exact Hut | ]. split; [ exact Hpt | ]. split; [ exact Hkept | ].
      split; [ congruence | ].
      split; [ intros Hrows; destruct Hpseq; [ auto | congruence ] | ].
      split; [ intros [Hroom _]; exfalso; exact (Hfull (Hroom Hnone)) | ].
      intros _. auto. }
  assert (DatabaseServer.table_exists "products" du = true) as Hpt'.
  { unfold DatabaseServer.table_exists in *. rewrite Htables. exact Hpt. }
  assert (∃ o dp,
            match DatabaseServer.products du with
            | [] => DatabaseServer.executemany_products [
                      ("Laptop", 999.99%float, "Electronics", 10);
                      ("Mouse", 29.99%float, "Electronics", 50);
                      ("Desk Chair", 199.99%float, "Furniture", 15)] du
            | _ => (Return tt, du)
            end = (o, dp)
            ∧ ((o = Return tt
                ∧ DatabaseServer.tables dp = DatabaseServer.tables du
                ∧ DatabaseServer.users dp = DatabaseServer.users du
                ∧ DatabaseServer.users_seq dp = DatabaseServer.users_seq du
                ∧ (products_before ≠ [] → dp = du)
                ∧ (products_before = [] →
                   products_key + 3 < 2 ^ 63
                   ∧ map DatabaseServer.product_id (DatabaseServer.products dp)
                     = [products_key + 1; products_key + 2; products_key + 3]
                   ∧ map DatabaseServer.product_name (DatabaseServer.products dp)
                     = ["Laptop"; "Mouse"; "Desk Chair"]))
               ∨ (o = Raise (Exn OperationalError "database or disk is full")
                  ∧ products_before = [] ∧ ¬ products_key + 3 < 2 ^ 63)))
    as (o & dp & -> & Hstage).
  { rewrite Hprods, Hproducts. rewrite Hproducts in Hprods.
    destruct products_before as [ | p rows].
    - destruct (seed_products_run du Hpt' Hprods) as [Hok Hfull].
      rewrite Hprodseq, Hpkey in Hok, Hfull.
      destruct (DatabaseServer.executemany_products _ _) as [o dp].
      cbn [fst snd] in Hok, Hfull. exists o, dp. split; [ reflexivity | ].
      destruct (Z_lt_dec (products_key + 3) (2 ^ 63)) as [Hroom | Hnone].
      + left. destruct (Hok Hroom) as (-> & Ht & Hu & Hs & Hids & Hnames).
        repeat split; try assumption; congruence.
      + right. auto.
    - exists (Return tt), du. split; [ reflexivity | ]. left.
      repeat split; congruence. }
  destruct Hstage as [(-> & Htables' & Hus & Huseq' & Hsame' & Hseeded')
                     | (-> & Hnone & Hfull)].
  2:{ cbn [fst snd]. rewrite Husers, Hproducts.
      split; [ exact Hut | ]. split; [ exact Hpt | ]. split; [ exact Hkept | ].
      split; [ intros Hrows; destruct Huseq; [ auto | congruence ] | ].
      split; [ congruence | ].
      split; [ intros [_ Hroom]; exfalso; exact (Hfull (Hroom Hnone)) | ].
      intros _. auto. }
  cbn [fst snd].
  split; [ unfold DatabaseServer.table_exists in *; rewrite Htables', Htables; exact Hut | ].
  split; [ unfold DatabaseServer.table_exists in *; rewrite Htables', Htables; exact Hpt | ].
  split.
  { intros t Ht. specialize (Hkept t Ht).
    unfold DatabaseServer.table_exists in *. rewrite Htables', Htables. exact Hkept. }
  split.
  { intros Hrows. rewrite Hus, Huseq', (Hsame Hrows).
    destruct Huseq; [ auto | congruence ]. }
  split.
  { intros Hrows. rewrite (Hsame' Hrows), Hprods, Hprodseq.
    destruct Hpseq; [ auto | congruence ]. }
  split.
  { intros _. split; [ reflexivity | ]. split.
    - intros Hrows. rewrite Hus. apply Hseeded. exact Hrows.
    - intros Hrows. apply Hseeded'. exact Hrows. }
  intros Hnoroom. exfalso. apply Hnoroom. split.
  - intros Hrows. apply Hseeded. exact Hrows.
  - intros Hrows. apply Hseeded'. exact Hrows.
Qed.

(** *** The document server *)

Lemma create_document_replies (doc_name content : value) (st : DocumentServer.state) :
  ∃ text st', DocumentServer.create_document doc_name content st = (reply text, st').
Proof.
  unfold DocumentServer.create_document.
  destruct content as [ | text | z]; eauto.
  destruct (write_text _ _ _) as [[[] | e] files]; eauto.
Qed.

Lemma read_document_replies (doc_name : value) (st : DocumentServer.state) :
  ∃ text, DocumentServer.read_document doc_name st = reply text.
Proof.
  unfold DocumentServer.read_document.
  destruct (exists_ _ _) as [[ | ] | e]; eauto. destruct (read_text _ _); eauto.
Qed.

Lemma list_documents_replies (st : DocumentServer.state) :
  ∃ text, DocumentServer.list_documents st = reply text.
Proof.
  unfold DocumentServer.list_documents.
  destruct (glob_txt _ _); eauto.
Qed.

Lemma search_documents_replies (query : value) (st : DocumentServer.state) :
  ∃ text st', DocumentServer.search_documents query st = (reply text, st').
Proof.
  unfold DocumentServer.search_documents.
  destruct query as [ | q | z]; eauto.
  destruct (DocumentServer.search_files _ _ _ _) as [[matches | e] st']; eauto.
  destruct matches as [ | m matches]; eauto.
  destruct (Sorting.sorted_matches _); eauto.
Qed.

Lemma append_to_document_replies (doc_name content : value) (st : DocumentServer.state) :
  ∃ text st', DocumentServer.append_to_document doc_name content st = (reply text, st').
Proof.
  unfold DocumentServer.append_to_document.
  destruct (exists_ _ _) as [[ | ] | e]; eauto.
  destruct (read_text _ _) as [existing | e]; eauto.
  destruct content as [ | text | z]; eauto.
  destruct (write_text _ _ _) as [[[] | e] files]; eauto.
Qed.

Lemma delete_document_replies (doc_name : value) (st : DocumentServer.state) :
  ∃ text st', DocumentServer.delete_document doc_name st = (reply text, st').
Proof.
  unfold DocumentServer.delete_document.
  destruct (exists_ _ _) as [[ | ] | e]; eauto.
  destruct (unlink _ _) as [[[] | e] files]; eauto.
Qed.

(** X10: on the document server a call either raises a [ValueError] and
    leaves the files and the index as they were, or returns exactly one
    text block: no error of the file system, of [sorted] or of a wrongly
    typed argument leaves [call_tool]. *)
Theorem document_calls_answer_in_band
    (tool_name : string) (arguments : gmap string value) (st : DocumentServer.state) :
  (∃ e, dispatch Document tool_name arguments st = (Raise e, st) ∧ cls e = ValueError)
  ∨ (∃ text st', dispatch Document tool_name arguments st = (reply text, st')).
Proof.
  unfold call_tool, DocumentServer.call_tool.
  repeat (destruct (decide (tool_name = _)) as [-> | _]);
    repeat match goal with
      | |- context [if ?b then (Raise _, _) else _] => destruct b
      end;
    try (left; eexists; split; reflexivity); right.
  - apply create_document_replies.
  - destruct (read_document_replies (get arguments "name") st) as [text ->]. eauto.
  - destruct (list_documents_replies st) as [text ->]. eauto.
  - apply search_documents_replies.
  - apply append_to_document_replies.
  - apply delete_document_replies.
Qed.

Lemma dict_pop_gone {K V : Type} `{EqDecision K} (d : dict K V) (k : K) :
  List.NoDup (dict_keys d) → dict_in k (dict_pop d k) = false.
Proof.
  unfold dict_in, dict_keys.
  induction d as [ | [k' v'] d IH]; cbn [dict_pop dict_get map fst]; [ reflexivity | ].
  intros Hd. apply List.NoDup_cons_iff in Hd as [Hnew Hd].
  destruct (decide (k = k')) as [-> | Hne].
  - destruct (dict_get d k') as [v | ] eqn:Hget; [ | reflexivity ].
    exfalso. apply Hnew. apply dict_get_In in Hget.
    exact (in_map fst _ _ Hget).
  - cbn [dict_get]. rewrite decide_False by assumption. exact (IH Hd).
Qed.

Lemma dict_get_pop_ne {K V : Type} `{EqDecision K} (d : dict K V) (k k' : K) :
  k ≠ k' → dict_get (dict_pop d k) k' = dict_get d k'.
Proof.
  intros Hne. induction d as [ | [k0 v0] d IH]; cbn [dict_pop dict_get]; [ reflexivity | ].
  destruct (decide (k = k0)) as [-> | Hne0].
  - rewrite decide_False by congruence. reflexivity.
  - cbn [dict_get]. destruct (decide (k' = k0)); [ reflexivity | exact IH ].
Qed.

(** X11: deleting a document removes its file and its entry of the
    index, and nothing else.  For a name without a slash whose file
    [documents/name.txt] is a regular file, the call reports success;
    afterwards the file is gone, the other files and the other entries
    of the index are as they were, and [read_document] no longer finds
    the document. *)
Theorem deleted_document_is_gone
    (arguments : gmap string value) (n : string) (st : DocumentServer.state) :
  arguments !! "name" = Some (VStr n) →
  n ≠ EmptyString →
  has_char "/" n = false →
  is_file (DocumentServer.fs st) (DocumentServer.doc_path (VStr n)) = true →
  List.NoDup (dict_keys (DocumentServer.document_index st)) →
  ∃ st',
    dispatch Document "delete_document" arguments st
    = (reply ("Document '" +:+ n +:+ "' deleted successfully"), st')
    ∧ DocumentServer.fs st'
      = delete (DocumentServer.doc_path (VStr n)) (DocumentServer.fs st)
    ∧ dict_in (VStr n) (DocumentServer.document_index st') = false
    ∧ (∀ k, k ≠ VStr n →
            dict_get (DocumentServer.document_index st') k
            = dict_get (DocumentServer.document_index st) k)
    ∧ dispatch Document "read_document" arguments st'
      = (reply ("Document '" +:+ n +:+ "' not found"), st').
Proof.
  intros Hname Hn _ Hfile Hkeys.
  destruct (get_str _ _ _ Hname Hn) as [Hget Htruthy].
  enter_tool. rewrite Htruthy, Hget. cbn [negb].
  unfold DocumentServer.delete_document, DocumentServer.read_document.
  cbn [py_str].
  set (p := DocumentServer.doc_path (VStr n)) in *.
  unfold is_file in Hfile. unfold exists_, unlink.
  destruct (look_up (DocumentServer.fs st) p) as [[text | | ] | e] eqn:Hlook;
    try discriminate.
  unfold look_up in Hlook.
  destruct (walk (DocumentServer.fs st) p) as [e | ] eqn:Hwalk; [ discriminate | ].
  destruct (entry_at (DocumentServer.fs st) p) as [found | ] eqn:Hentry;
    [ | discriminate ].
  injection Hlook as ->.
  destruct (entry_at_not_system (DocumentServer.fs st) p) as [Hsystem Hnull];
    try congruence.
  eexists. split; [ reflexivity | ].
  cbn [DocumentServer.fs DocumentServer.document_index].
  split; [ reflexivity | ]. split; [ apply dict_pop_gone; exact Hkeys | ].
  split; [ intros k Hk; apply dict_get_pop_ne; congruence | ].
  unfold look_up. rewrite walk_delete, Hwalk by reflexivity.
  rewrite (entry_at_files _ _ Hsystem Hnull), lookup_delete_eq. reflexivity.
Qed.

(** *** Indexing at startup *)

(** The loop of [main]: when every file can be read it indexes them
    all; a stem that two files share ends with the text of one of
    them. *)
Lemma index_all_run (files : list path) :
  ∀ st : DocumentServer.state,
    (∀ p, In p files → ∃ text, read_text (DocumentServer.fs st) p = Return text) →
    ∃ st',
      DocumentServer.index_all files st = (Return tt, st')
      ∧ DocumentServer.fs st' = DocumentServer.fs st
      ∧ (∀ p, In p files →
              ∃ p' text,
                In p' files ∧ stem p' = stem p
                ∧ read_text (DocumentServer.fs st) p' = Return text
                ∧ dict_get (DocumentServer.document_index st') (VStr (stem p))
                  = Some (lower text))
      ∧ (∀ k, (∀ p, In p files → k ≠ VStr (stem p)) →
              dict_get (DocumentServer.document_index st') k
              = dict_get (DocumentServer.document_index st) k).
Proof.
  induction files as [ | p rest IH]; intros st Hread; cbn [DocumentServer.index_all].
  - exists st. repeat split; auto. intros p [].
  - destruct (Hread p (or_introl eq_refl)) as [text Hp]. rewrite Hp.
    destruct (IH (DocumentServer.index_document (VStr (stem p)) text st))
      as (st' & -> & Hfs & Hall & Hkept).
    { intros q Hq. apply Hread. right. exact Hq. }
    cbn [DocumentServer.index_document DocumentServer.fs
           DocumentServer.document_index] in *.
    exists st'. split; [ reflexivity | ]. split; [ exact Hfs | ]. split.
    + intros q [<- | Hq].
      * destruct (in_dec String.eq_dec (stem p) (map stem rest)) as [Hshared | Halone].
        -- apply in_map_iff in Hshared as (q & Hstem & Hq).
           destruct (Hall q Hq) as (p' & text' & Hp' & Hstem' & Hread' & Hget).
           exists p', text'. rewrite <- Hstem.
           split; [ right; exact Hp' | ]. split; [ exact Hstem' | ].
           split; [ exact Hread' | exact Hget ].
        -- exists p, text. split; [ left; reflexivity | ]. split; [ reflexivity | ].
           split; [ exact Hp | ]. rewrite Hkept.
           ++ apply dict_get_set_eq.
           ++ intros q Hq [= Heq]. apply Halone. rewrite Heq. apply in_map. exact Hq.
      * destruct (Hall q Hq) as (p' & text' & Hp' & Hstem' & Hread' & Hget).
        exists p', text'.
        split; [ right; exact Hp' | ]. split; [ exact Hstem' | ].
        split; [ exact Hread' | exact Hget ].
    + intros k Hk. rewrite Hkept.
      * apply dict_get_set_ne. intros <-. exact (Hk p (or_introl eq_refl) eq_refl).
      * intros q Hq. apply Hk. right. exact Hq.
Qed.

(** X12: starting the document server.  When [documents] is not a regular
    file and every [*.txt] entry of it can be read, the startup makes
    the directory if it is missing, changes no file, and leaves an index
    that holds under the stem of every document file the lowercased text
    of a document file with that stem, and nothing under any other
    name. *)
Theorem startup_indexes_every_document (files : filesystem) :
  let made :=
    match files !! DocumentServer.DOCUMENTS_DIR with
    | Some _ => files
    | None => <[DocumentServer.DOCUMENTS_DIR := Dir]> files
    end in
  (∀ text, files !! DocumentServer.DOCUMENTS_DIR ≠ Some (File text)) →
  (∀ p, In p (glob_txt made DocumentServer.DOCUMENTS_DIR) →
        ∃ text, read_text made p = Return text) →
  ∃ st',
    DocumentServer.startup files = (Return tt, st')
    ∧ DocumentServer.fs st' = made
    ∧ (∀ p, In p (glob_txt made DocumentServer.DOCUMENTS_DIR) →
            ∃ p' text,
              In p' (glob_txt made DocumentServer.DOCUMENTS_DIR)
              ∧ stem p' = stem p
              ∧ read_text made p' = Return text
              ∧ dict_get (DocumentServer.document_index st') (VStr (stem p))
                = Some (lower text))
    ∧ (∀ k, (∀ p, In p (glob_txt made DocumentServer.DOCUMENTS_DIR) → k ≠ VStr (stem p)) →
            dict_in k (DocumentServer.document_index st') = false).
Proof.
  intros made Hdir Hread. unfold DocumentServer.startup.
  assert (∀ st, DocumentServer.fs st = made → DocumentServer.document_index st = [] →
            ∃ st',
              DocumentServer.index_all (glob_txt made DocumentServer.DOCUMENTS_DIR) st
              = (Return tt, st')
              ∧ DocumentServer.fs st' = made
              ∧ (∀ p, In p (glob_txt made DocumentServer.DOCUMENTS_DIR) →
                      ∃ p' text,
                        In p' (glob_txt made DocumentServer.DOCUMENTS_DIR)
                        ∧ stem p' = stem p
                        ∧ read_text made p' = Return text
                        ∧ dict_get (DocumentServer.document_index st') (VStr (stem p))
                          = Some (lower text))
              ∧ (∀ k, (∀ p, In p (glob_txt made DocumentServer.DOCUMENTS_DIR) →
                            k ≠ VStr (stem p)) →
                      dict_in k (DocumentServer.document_index st') = false)) as Hrun.
  { intros st Hfs Hempty.
    destruct (index_all_run (glob_txt made DocumentServer.DOCUMENTS_DIR) st)
      as (st' & Hall & Hfs' & Hin & Hkept).
    { rewrite Hfs. exact Hread. }
    exists st'. rewrite Hfs in *. split; [ exact Hall | ]. split; [ congruence | ].
    split; [ exact Hin | ].
    intros k Hk. unfold dict_in. rewrite (Hkept k Hk), Hempty. reflexivity. }
  subst made.
  destruct (files !! DocumentServer.DOCUMENTS_DIR) as [[text | ] | ] eqn:Hnode.
  - exfalso. exact (Hdir text eq_refl).
  - apply Hrun; reflexivity.
  - apply Hrun; reflexivity.
Qed.

(** *** Occurrence counts *)

Lemma contains_count_from (sub s : string) :
  is_empty sub = false → contains sub s = true → (1 ≤ count_from sub s 0)%nat.
Proof.
  intros Hsub. induction s as [ | c s IH]; cbn [contains count_from].
  - unfold startswith. destruct sub; [ discriminate | ]. cbn. discriminate.
  - destruct (startswith (String c s) sub); cbn [orb]; [ lia | exact IH ].
Qed.

Lemma contains_count (sub s : string) :
  contains sub s = true → (1 ≤ count s sub)%nat.
Proof.
  unfold count. destruct (is_empty sub) eqn:Hsub; [ lia | ].
  apply contains_count_from. exact Hsub.
Qed.

Lemma search_files_counts (query_lower : string) (files : list path) :
  ∀ (matches found : list (value * nat)) (st st' : DocumentServer.state),
    DocumentServer.search_files query_lower files matches st = (Return found, st') →
    (∀ m, In m matches → (1 ≤ snd m)%nat) →
    ∀ m, In m found → (1 ≤ snd m)%nat.
Proof.
  induction files as [ | p rest IH]; intros matches found st st';
    cbn [DocumentServer.search_files].
  - intros [= <- <-] Hpos. exact Hpos.
  - destruct (negb (dict_in _ _)); [ | apply IH ].
    destruct (read_text _ p) as [text | e]; [ | discriminate ].
    destruct (contains query_lower (lower text)) eqn:Hhit; [ | apply IH ].
    intros Hrun Hpos. apply (IH _ _ _ _ Hrun).
    intros m Hm. apply in_app_or in Hm as [Hm | [<- | []]]; [ exact (Hpos m Hm) | ].
    cbn [snd]. apply contains_count. exact Hhit.
Qed.

Lemma insert_sorted_keeps_entries {A : Type} (leb : A → A → bool) (x y : A) (l : list A) :
  In y (Sorting.insert_sorted leb x l) → y = x ∨ In y l.
Proof.
  induction l as [ | z l IH]; cbn [Sorting.insert_sorted In].
  - intros [<- | []]. left. reflexivity.
  - destruct (leb x z); cbn [In].
    + intros [<- | [<- | Hin]]; auto.
    + intros [<- | Hin]; [ auto | ]. destruct (IH Hin); auto.
Qed.

Lemma sort_keeps_entries {A : Type} (leb : A → A → bool) (y : A) (l : list A) :
  In y (Sorting.sort leb l) → In y l.
Proof.
  induction l as [ | x l IH]; cbn [Sorting.sort In]; [ auto | ].
  intros [-> | Hin]%insert_sorted_keeps_entries; auto.
Qed.

(** X13: a search never lists a document with no occurrence.  Every entry
    that the two loops of [search_documents] collect, and so every entry
    of the sorted list that is printed, has a count of at least one:
    [count] is only called on a text that contains the query. *)
Theorem search_lists_positive_counts
    (q : string) (st st' : DocumentServer.state) (found listed : list (value * nat)) :
  DocumentServer.search_files (lower q)
    (glob_txt (DocumentServer.fs st) DocumentServer.DOCUMENTS_DIR)
    (DocumentServer.search_index (lower q) (DocumentServer.document_index st)) st
  = (Return found, st') →
  Sorting.sorted_matches found = Return listed →
  ∀ doc_name k, In (doc_name, k) listed → (1 ≤ k)%nat.
Proof.
  intros Hrun Hsorted doc_name k Hin.
  assert (listed = Sorting.sort Sorting.match_leb found) as ->.
  { unfold Sorting.sorted_matches in Hsorted.
    destruct found as [ | first rest]; [ injection Hsorted as <-; reflexivity | ].
    destruct (List.filter _ rest); [ injection Hsorted as <-; reflexivity | discriminate ]. }
  apply sort_keeps_entries in Hin.
  apply (search_files_counts _ _ _ _ _ _ Hrun) in Hin; [ exact Hin | ].
  intros [key n] Hm. apply In_search_index in Hm as (text & _ & Hhit & ->).
  cbn [snd]. apply contains_count. exact Hhit.
Qed.

(** *** The path of a document with a plain name *)

Lemma append_cons (c : ascii) (s t : string) : String c s +:+ t = String c (s +:+ t).
Proof. reflexivity. Qed.

Lemma append_empty (s : string) : s +:+ EmptyString = s.
Proof. induction s as [ | c s IH]; [ reflexivity | ]. rewrite append_cons, IH. reflexivity. Qed.

Lemma rev_app_rev_app (s a b : string) :
  String.rev_app (String.rev_app s a) b = String.rev_app a (s +:+ b).
Proof.
  revert a b. induction s as [ | c s IH]; intros a b; [ reflexivity | ].
  cbn [String.rev_app]. rewrite IH. reflexivity.
Qed.

Lemma rev_app_append (s t a : string) :
  String.rev_app (s +:+ t) a = String.rev_app t (String.rev_app s a).
Proof.
  revert a. induction s as [ | c s IH]; intros a; [ reflexivity | ].
  rewrite append_cons. cbn [String.rev_app]. apply IH.
Qed.

Lemma has_char_append (c : ascii) (s t : string) :
  has_char c (s +:+ t) = has_char c s || has_char c t.
Proof.
  induction s as [ | d s IH]; [ reflexivity | ].
  rewrite append_cons. cbn [has_char]. destruct (ascii_dec c d); [ reflexivity | exact IH ].
Qed.

Lemma length_append (s t : string) :
  String.length (s +:+ t) = (String.length s + String.length t)%nat.
Proof.
  induction s as [ | c s IH]; [ reflexivity | ].
  rewrite append_cons. cbn [String.length]. rewrite IH. reflexivity.
Qed.

Lemma take_chars_append (s t : string) : take_chars (String.length s) (s +:+ t) = s.
Proof.
  induction s as [ | c s IH]; [ destruct t; reflexivity | ].
  rewrite append_cons. cbn [String.length take_chars]. rewrite IH. reflexivity.
Qed.

Lemma split_slash_plain (cur s : string) :
  has_char "/" s = false →
  split_slash cur s = [String.rev (String.rev_app s cur)].
Proof.
  revert cur. induction s as [ | c s IH]; intros cur; [ reflexivity | ].
  cbn [has_char split_slash String.rev_app].
  destruct (ascii_dec "/" c) as [ | Hc]; [ discriminate | ].
  destruct (ascii_dec c "/") as [ | _]; [ congruence | ]. apply IH.
Qed.

(** A name without a slash names the file [documents/name.txt], whose
    stem is the name. *)
Lemma doc_path_plain (n : string) :
  has_char "/" n = false →
  DocumentServer.doc_path (VStr n) = (false, ["documents"; n +:+ ".txt"]).
Proof.
  intros Hplain. unfold DocumentServer.doc_path, joinpath. cbn [py_str].
  assert (has_char "/" (n +:+ ".txt") = false) as Hfile.
  { rewrite has_char_append, Hplain. reflexivity. }
  assert (startswith (n +:+ ".txt") "/" = false) as ->.
  { unfold startswith. destruct n as [ | c n]; [ reflexivity | ].
    rewrite append_cons. cbn [has_char] in Hplain.
    cbn [Stdlib.Strings.String.prefix].
    destruct (ascii_dec "/" c); [ discriminate | reflexivity ]. }
  change DocumentServer.DOCUMENTS_DIR with (false, ["documents"]).
  unfold Path. rewrite (split_slash_plain _ _ Hfile).
  unfold String.rev at 1. rewrite rev_app_rev_app. cbn [String.rev_app fst snd].
  rewrite append_empty.
  assert (is_part (n +:+ ".txt") = true) as Hpart.
  { unfold is_part. destruct n as [ | c n]; [ reflexivity | ].
    rewrite append_cons. cbn [is_empty negb andb Stdlib.Strings.String.eqb].
    destruct (Ascii.eqb c "."); [ | reflexivity ]. destruct n; reflexivity. }
  cbn [List.filter]. rewrite Hpart. reflexivity.
Qed.

Lemma stem_plain (n : string) :
  n ≠ EmptyString → stem_of_name (n +:+ ".txt") = n.
Proof.
  intros Hn. unfold stem_of_name, String.rev.
  rewrite rev_app_append. cbn [String.rev_app last_dot].
  destruct (ascii_dec "t" "."); [ discriminate | ].
  destruct (ascii_dec "x" "."); [ discriminate | ].
  destruct (ascii_dec "." "."); [ | congruence ].
  cbn [fmap option_fmap option_map].
  rewrite length_append. cbn [String.length].
  replace (String.length n + 4 - 4)%nat with (String.length n) by lia.
  destruct n as [ | c n]; [ congruence | ].
  cbn [String.length Nat.ltb Nat.leb andb].
  apply (take_chars_append (String c n)).
Qed.

Lemma endswith_txt (n : string) : endswith (n +:+ ".txt") ".txt" = true.
Proof.
  unfold endswith, String.rev. rewrite rev_app_append.
  cbn [String.rev_app]. unfold startswith. cbn.
  destruct (String.rev_app n EmptyString); reflexivity.
Qed.

(** The way to a document with a plain name that fits is free where the
    [documents] directory exists, and the path names what the files
    have there. *)
Lemma doc_path_walk (files : filesystem) (n : string) :
  has_char "/" n = false →
  has_char NUL n = false →
  name_too_long (n +:+ ".txt") = false →
  files !! DocumentServer.DOCUMENTS_DIR = Some Dir →
  walk files (DocumentServer.doc_path (VStr n)) = None
  ∧ is_root (DocumentServer.doc_path (VStr n))
    || bool_decide (DocumentServer.doc_path (VStr n) = dev) = false
  ∧ bool_decide (DocumentServer.doc_path (VStr n) = dev_null) = false.
Proof.
  intros Hplain Hnul Hfits Hdir. rewrite (doc_path_plain n Hplain).
  split; [ | split; [ reflexivity | reflexivity ] ].
  unfold walk.
  assert (has_nul (false, ["documents"; n +:+ ".txt"]) = false) as ->.
  { unfold has_nul. cbn [snd existsb]. rewrite has_char_append, Hnul. reflexivity. }
  assert ((PATH_MAX <=? utf8_length (path_str (false, ["documents"; n +:+ ".txt"])))%nat
          = false) as ->.
  { apply Nat.leb_gt.
    change (path_str (false, ["documents"; n +:+ ".txt"]))
      with ("documents" +:+ "/" +:+ (n +:+ ".txt")).
    unfold name_too_long, NAME_MAX in Hfits. apply Nat.ltb_ge in Hfits.
    rewrite !utf8_length_append in *.
    change (utf8_length "documents") with 9%nat. change (utf8_length "/") with 1%nat.
    unfold PATH_MAX. lia. }
  cbn [fst snd removelast way_error app].
  change (name_too_long "documents") with false. cbv iota.
  rewrite (entry_at_files files (false, ["documents"])) by reflexivity.
  change (false, ["documents"]) with DocumentServer.DOCUMENTS_DIR. rewrite Hdir.
  unfold path_name. cbn [snd List.last]. rewrite Hfits. reflexivity.
Qed.

Lemma is_dir_documents (files : filesystem) :
  files !! DocumentServer.DOCUMENTS_DIR = Some Dir →
  is_dir files DocumentServer.DOCUMENTS_DIR = true.
Proof.
  intros Hdir. unfold is_dir, look_up.
  assert (walk files DocumentServer.DOCUMENTS_DIR = None) as -> by reflexivity.
  rewrite (entry_at_files files DocumentServer.DOCUMENTS_DIR) by reflexivity.
  rewrite Hdir. reflexivity.
Qed.

(** X14: a document created under a plain name is listed.  For a
    non-empty content and a non-empty name without a slash or a NUL
    whose file name [name.txt] has 255 bytes at most, in an existing
    [documents] directory where no directory has the file's name,
    [create_document] reports success, writes the file
    [documents/name.txt] and indexes its lowercased text; afterwards the
    directory listing that [list_documents] and [list_resources] read
    has the file. *)
Theorem created_document_is_listed
    (arguments : gmap string value) (n c : string) (st : DocumentServer.state) :
  arguments !! "name" = Some (VStr n) →
  arguments !! "content" = Some (VStr c) →
  n ≠ EmptyString →
  c ≠ EmptyString →
  has_char "/" n = false →
  has_char NUL n = false →
  name_too_long (n +:+ ".txt") = false →
  DocumentServer.fs st !! DocumentServer.DOCUMENTS_DIR = Some Dir →
  DocumentServer.fs st !! DocumentServer.doc_path (VStr n) ≠ Some Dir →
  ∃ st',
    dispatch Document "create_document" arguments st
    = (reply ("Document '" +:+ n +:+ "' created successfully ("
              +:+ str_of_nat (String.length c) +:+ " characters)"), st')
    ∧ DocumentServer.fs st'
      = <[DocumentServer.doc_path (VStr n) := File c]> (DocumentServer.fs st)
    ∧ read_text (DocumentServer.fs st') (DocumentServer.doc_path (VStr n))
      = Return (universal_newlines c)
    ∧ dict_get (DocumentServer.document_index st') (VStr n) = Some (lower c)
    ∧ In (DocumentServer.doc_path (VStr n))
         (glob_txt (DocumentServer.fs st') DocumentServer.DOCUMENTS_DIR)
    ∧ stem (DocumentServer.doc_path (VStr n)) = n.
Proof.
  intros Hname Hcontent Hn Hc Hplain Hnul Hfits Hdir Hfree.
  destruct (get_str _ _ _ Hname Hn) as [Hget Htruthy].
  destruct (get_str _ _ _ Hcontent Hc) as [Hgetc Htruthyc].
  enter_tool. rewrite Htruthy, Hget, Htruthyc, Hgetc. cbn [negb orb].
  unfold DocumentServer.create_document. cbn [py_str].
  destruct (doc_path_walk (DocumentServer.fs st) n Hplain Hnul Hfits Hdir)
    as (Hwalk & Hsystem & Hnull).
  pose proof (doc_path_plain n Hplain) as Hpath.
  set (p := DocumentServer.doc_path (VStr n)) in *.
  assert (parent p = DocumentServer.DOCUMENTS_DIR) as Hparent
    by (rewrite Hpath; reflexivity).
  assert (is_root p = false) as Hroot by (rewrite Hpath; reflexivity).
  assert (p ≠ DocumentServer.DOCUMENTS_DIR) as Hne.
  { rewrite Hpath. intros Heq. vm_compute in Heq. discriminate Heq. }
  assert (write_text (DocumentServer.fs st) p c
          = (Return tt, <[p := File c]> (DocumentServer.fs st))) as ->.
  { unfold write_text, open_w. rewrite Hwalk, (entry_at_files _ _ Hsystem Hnull).
    destruct (DocumentServer.fs st !! p) as [[old | ] | ] eqn:Hnode;
      [ reflexivity | exfalso; exact (Hfree eq_refl) | reflexivity ]. }
  eexists. split; [ reflexivity | ].
  cbn [DocumentServer.index_document DocumentServer.set_fs DocumentServer.fs
         DocumentServer.document_index].
  split; [ reflexivity | ]. split; [ | split; [ apply dict_get_set_eq | split ] ].
  - unfold read_text, look_up. rewrite walk_insert, Hwalk by reflexivity.
    rewrite (entry_at_files _ _ Hsystem Hnull), lookup_insert_eq. reflexivity.
  - unfold glob_txt. rewrite is_dir_documents
      by (rewrite lookup_insert_ne by exact Hne; exact Hdir).
    apply filter_In. split.
    + apply list_elem_of_In, list_elem_of_fmap.
      exists (p, File c). split; [ reflexivity | ].
      apply elem_of_map_to_list. apply lookup_insert_eq.
    + rewrite Hroot, bool_decide_eq_true_2 by exact Hparent.
      rewrite Hpath. unfold path_name. cbn [snd List.last negb andb].
      apply endswith_txt.
  - rewrite Hpath. unfold stem, path_name. cbn [snd List.last]. apply stem_plain.
    exact Hn.
Qed.

(** *** The catalog and the dispatcher *)

(** [get_user] past its argument test returns a text or raises what
    SQLite raises, which is no [ValueError]. *)
Lemma get_user_outcome (email : value) (st : DatabaseServer.state) :
  ∃ st',
    (∃ text, DatabaseServer.get_user json_dumps email st = (reply text, st'))
    ∨ (∃ e, DatabaseServer.get_user json_dumps email st = (Raise e, st')
            ∧ cls e ≠ ValueError).
Proof.
  unfold DatabaseServer.get_user. cbn [DatabaseServer.execute DatabaseServer.db].
  eexists. destruct (negb (DatabaseServer.table_exists "users" _)) eqn:Htable.
  { right. eexists. split; [ reflexivity | discriminate ]. }
  destruct email as [ | s | z]; cbn [DatabaseServer.bind].
  - unfold DatabaseServer.select_user. cbn [DatabaseServer.db]. rewrite Htable.
    left. eexists. reflexivity.
  - unfold DatabaseServer.select_user. cbn [DatabaseServer.db DatabaseServer.text_affinity].
    rewrite Htable. destruct (List.find _ _); left; eexists; reflexivity.
  - destruct ((- 2 ^ 63 <=? z) && (z <? 2 ^ 63)).
    + unfold DatabaseServer.select_user.
      cbn [DatabaseServer.db DatabaseServer.text_affinity].
      rewrite Htable. destruct (List.find _ _); left; eexists; reflexivity.
    + right. eexists. split; [ reflexivity | discriminate ].
Qed.

(** Names the handler that a call has reached and rewrites the call
    with what the handler returns. *)
Ltac answered :=
  match goal with
  | |- context [CodeServer.read_file ?a ?s] =>
      destruct (read_file_replies a s) as [? ->]
  | |- context [CodeServer.write_file ?a ?b ?s] =>
      destruct (write_file_frame a b s) as (? & ? & -> & _)
  | |- context [CodeServer.execute_code _ _ ?a ?s] =>
      destruct (execute_code_frame a s) as (? & ? & -> & _)
  | |- context [DatabaseServer.execute_query _ _ ?a ?s] =>
      destruct (execute_query_replies a s) as (? & ? & ->)
  | |- context [DatabaseServer.describe_table _ _ ?a ?s] =>
      destruct (describe_table_replies a s) as (? & ? & ->)
  | |- context [DatabaseServer.insert_user _ _ ?a ?b ?c ?s] =>
      destruct (insert_user_outcome a b c s) as (? & ? & -> & _)
  | |- context [DatabaseServer.get_user _ ?a ?s] =>
      destruct (get_user_outcome a s) as (? & [[? ->] | (? & -> & ?)])
  | |- context [DocumentServer.create_document ?a ?b ?s] =>
      destruct (create_document_replies a b s) as (? & ? & ->)
  | |- context [DocumentServer.read_document ?a ?s] =>
      destruct (read_document_replies a s) as [? ->]
  | |- context [DocumentServer.list_documents ?s] =>
      destruct (list_documents_replies s) as [? ->]
  | |- context [DocumentServer.search_documents ?a ?s] =>
      destruct (search_documents_replies a s) as (? & ? & ->)
  | |- context [DocumentServer.append_to_document ?a ?b ?s] =>
      destruct (append_to_document_replies a b s) as (? & ? & ->)
  | |- context [DocumentServer.delete_document ?a ?s] =>
      destruct (delete_document_replies a s) as (? & ? & ->)
  end.

(** X15: the catalog and the dispatcher agree.  [call_tool] answers with
    the error [Unknown tool] exactly for the names that [list_tools] of
    the server does not list: every tool that is advertised has a
    handler, and no handler is reached under a name that is not
    advertised. *)
Theorem unknown_tool_iff_not_listed
    (s : server) (tool_name : string)
    (arguments : gmap string value) (st : server_state s) :
  fst (dispatch s tool_name arguments st)
  = Raise (Exn ValueError ("Unknown tool: " +:+ tool_name))
  ↔ ¬ In tool_name (map name (tools s)).
Proof.
  split.
  - intros Hunknown Hlisted. revert Hunknown.
    destruct s; cbn in Hlisted;
      repeat (destruct Hlisted as [<- | Hlisted]; [ | ]); try contradiction;
      enter_tool;
      repeat match goal with
        | |- context [if ?b then (Raise _, _) else _] => destruct b
        end;
      try answered;
      unfold DatabaseServer.list_tables;
      try match goal with
        | |- context [CodeServer.code_store ?s] => destruct (CodeServer.code_store s)
        end;
      cbn [fst];
      try discriminate;
      intros Hmsg; injection Hmsg as Hmsg; try (injection Hmsg as Hmsg);
      first [ lazy beta iota delta [String.append] in Hmsg; discriminate Hmsg
            | subst; cbn in *; congruence ].
  - intros Hnew.
    destruct s; cbn in Hnew; unfold call_tool, CodeServer.call_tool,
      DatabaseServer.call_tool, DocumentServer.call_tool;
      repeat (rewrite decide_False by (intros ->; apply Hnew; tauto));
      reflexivity.
Qed.

End Further.

(** ** The further properties at concrete inputs *)

Section FurtherExamples.
Import Py Fs.

(** X2 at a snippet saved on a server that has none. *)
Lemma saved_snippet_witness :
  ∃ st',
    Fixture.run Code "save_code_snippet"
      {[ "name" := VStr "hello"; "code" := VStr "print(1)" ]} Fixture.code_state
    = (reply "Code snippet 'hello' saved successfully", st')
    ∧ CodeServer.read_resource "code://hello" st' = Return (VStr "print(1)").
Proof.
  destruct (saved_snippet_is_served (Fixture.python 15) Fixture.executable
              Fixture.sqlite_execute Fixture.numeric_affinity Fixture.CURRENT_TIMESTAMP
              Fixture.json_dumps Fixture.float_str
              {[ "name" := VStr "hello"; "code" := VStr "print(1)" ]}
              "hello" "print(1)" Fixture.code_state)
    as (st' & Hsaved & Hread & _).
  - reflexivity.
  - reflexivity.
  - discriminate.
  - discriminate.
  - exists st'. split; [ exact Hsaved | exact Hread ].
Defined.


(** X4 at [create_document] with an empty content. *)
Lemma falsy_argument_witness :
  truthy (VStr EmptyString) = false
  ∧ ∃ e,
      Fixture.run Document "create_document"
        {[ "name" := VStr "a"; "content" := VStr EmptyString ]} Fixture.document_state
      = (Raise e, Fixture.document_state)
      ∧ cls e = ValueError.
Proof.
  split; [ reflexivity | ].
  apply (falsy_required_argument_raises (Fixture.python 15) Fixture.executable
           Fixture.sqlite_execute Fixture.numeric_affinity Fixture.CURRENT_TIMESTAMP
           Fixture.json_dumps Fixture.float_str Document
           {| name := "create_document";
              description := "Create a new text document";
              properties := [("name", "string"); ("content", "string")];
              required := ["name"; "content"] |}
           "content" {[ "name" := VStr "a"; "content" := VStr EmptyString ]}
           (VStr EmptyString) Fixture.document_state).
  - left. reflexivity.
  - right. left. reflexivity.
  - reflexivity.
  - reflexivity.
  - discriminate.
  - discriminate.
Defined.

(** X7 on a database file that has no table yet. *)
Lemma missing_users_table_witness :
  DatabaseServer.table_exists "users" DatabaseServer.empty_database = false
  ∧ Fixture.run Database "insert_user"
      {[ "name" := VStr "Dana"; "email" := VStr "dana@example.com"; "age" := VInt 41 ]}
      {| DatabaseServer.db := DatabaseServer.empty_database;
         DatabaseServer.executed := [] |}
    = (reply "Error inserting user: no such table: users",
       {| DatabaseServer.db := DatabaseServer.empty_database;
          DatabaseServer.executed :=
            ["INSERT INTO users (name, email, age) VALUES (?, ?, ?)"] |})
  ∧ Fixture.run Database "get_user"
      {[ "name" := VStr "Dana"; "email" := VStr "dana@example.com"; "age" := VInt 41 ]}
      {| DatabaseServer.db := DatabaseServer.empty_database;
         DatabaseServer.executed := [] |}
    = (Raise (Exn OperationalError "no such table: users"),
       {| DatabaseServer.db := DatabaseServer.empty_database;
          DatabaseServer.executed := ["SELECT * FROM users WHERE email = ?"] |}).
Proof.
  split; [ reflexivity | ].
  apply (missing_users_table (Fixture.python 15) Fixture.executable
           Fixture.sqlite_execute Fixture.numeric_affinity Fixture.CURRENT_TIMESTAMP
           Fixture.json_dumps Fixture.float_str
           {[ "name" := VStr "Dana"; "email" := VStr "dana@example.com";
              "age" := VInt 41 ]}
           (VStr "Dana") (VStr "dana@example.com") (VInt 41)
           {| DatabaseServer.db := DatabaseServer.empty_database;
              DatabaseServer.executed := [] |}).
  - vm_compute. reflexivity.
  - vm_compute. reflexivity.
  - vm_compute. reflexivity.
  - reflexivity.
  - reflexivity.
  - discriminate.
  - reflexivity.
Defined.

(** X8 at a fourth user of the seeded database. *)
Lemma inserted_user_witness :
  email_taken "dana@example.com" (DatabaseServer.db Fixture.database_state) = false
  ∧ fst (Fixture.run Database "get_user" {[ "email" := VStr "dana@example.com" ]}
           (snd (Fixture.run Database "insert_user"
                   {[ "name" := VStr "Dana"; "email" := VStr "dana@example.com";
                      "age" := VInt 41 ]} Fixture.database_state)))
    = reply ("User found:" +:+ nl
             +:+ Fixture.json_dumps
                   (DatabaseServer.JObj
                      [("id", DatabaseServer.JInt 4);
                       ("name", DatabaseServer.JStr "Dana");
                       ("email", DatabaseServer.JStr "dana@example.com");
                       ("age", DatabaseServer.JInt 41);
                       ("created_at", DatabaseServer.JStr "2025-12-01 00:00:00")])).
Proof.
  split; [ vm_compute; reflexivity | ].
  pose proof (inserted_user_is_found (Fixture.python 15) Fixture.executable
                Fixture.sqlite_execute Fixture.numeric_affinity Fixture.CURRENT_TIMESTAMP
                Fixture.json_dumps Fixture.float_str
                {[ "name" := VStr "Dana"; "email" := VStr "dana@example.com";
                   "age" := VInt 41 ]}
                {[ "email" := VStr "dana@example.com" ]}
                "Dana" "dana@example.com" 41 Fixture.database_state) as H.
  specialize (H ltac:(vm_compute; reflexivity) ltac:(vm_compute; reflexivity)
                ltac:(vm_compute; reflexivity) ltac:(vm_compute; reflexivity)).
  specialize (H ltac:(discriminate) ltac:(discriminate) ltac:(lia)).
  specialize (H ltac:(vm_compute; reflexivity) ltac:(vm_compute; reflexivity)
                ltac:(vm_compute; reflexivity)).
  cbv zeta in H. destruct H as (_ & Hfound & _). exact Hfound.
Defined.

(** X9 at a database file whose [users] table is empty and has handed
    out the last key: the start raises, and no sample row is kept. *)
Lemma init_database_witness :
  fst (DatabaseServer.init_database Fixture.numeric_affinity Fixture.exhausted
         (Fixture.CURRENT_TIMESTAMP 0))
  = Raise (Exn OperationalError "database or disk is full")
  ∧ DatabaseServer.users
      (snd (DatabaseServer.init_database Fixture.numeric_affinity Fixture.exhausted
              (Fixture.CURRENT_TIMESTAMP 0)))
    = []
  ∧ DatabaseServer.products
      (snd (DatabaseServer.init_database Fixture.numeric_affinity Fixture.exhausted
              (Fixture.CURRENT_TIMESTAMP 0)))
    = [].
Proof.
  apply (init_database_keeps_rows Fixture.numeric_affinity Fixture.exhausted
           (Fixture.CURRENT_TIMESTAMP 0)).
  intros [Hroom _]. specialize (Hroom eq_refl). vm_compute in Hroom. discriminate Hroom.
Defined.

(** X11 at a document with one line. *)
Lemma deleted_document_witness :
  is_file (<[Path "documents/a.txt" := File "Hello"]> Fixture.files)
    (DocumentServer.doc_path (VStr "a")) = true
  ∧ ∃ st',
      Fixture.run Document "delete_document" {[ "name" := VStr "a" ]}
        {| DocumentServer.fs := <[Path "documents/a.txt" := File "Hello"]> Fixture.files;
           DocumentServer.document_index := [(VStr "a", "hello")] |}
      = (reply "Document 'a' deleted successfully", st')
      ∧ dict_in (VStr "a") (DocumentServer.document_index st') = false
      ∧ Fixture.run Document "read_document" {[ "name" := VStr "a" ]} st'
        = (reply "Document 'a' not found", st').
Proof.
  split; [ vm_compute; reflexivity | ].
  destruct (deleted_document_is_gone (Fixture.python 15) Fixture.executable
              Fixture.sqlite_execute Fixture.numeric_affinity Fixture.CURRENT_TIMESTAMP
              Fixture.json_dumps Fixture.float_str
              {[ "name" := VStr "a" ]} "a"
              {| DocumentServer.fs :=
                   <[Path "documents/a.txt" := File "Hello"]> Fixture.files;
                 DocumentServer.document_index := [(VStr "a", "hello")] |})
    as (st' & Hdeleted & _ & Hindex & _ & Hread).
  - reflexivity.
  - discriminate.
  - reflexivity.
  - vm_compute. reflexivity.
  - apply List.NoDup_cons; [ intros [] | apply List.NoDup_nil ].
  - exists st'. split; [ exact Hdeleted | ]. split; [ exact Hindex | exact Hread ].
Defined.

(** X12 at a directory that holds one document. *)
Lemma startup_witness :
  ∃ st',
    DocumentServer.startup (<[Path "documents/x.txt" := File "ABC"]> Fixture.files)
    = (Return tt, st')
    ∧ dict_get (DocumentServer.document_index st') (VStr "x") = Some "abc".
Proof.
  pose proof (startup_indexes_every_document
                (<[Path "documents/x.txt" := File "ABC"]> Fixture.files)) as H.
  cbv zeta in H.
  match type of H with
  | _ → (∀ p, In p (glob_txt ?made _) → _) → _ =>
      assert (glob_txt made DocumentServer.DOCUMENTS_DIR = [Path "documents/x.txt"])
        as Hglob by (vm_compute; reflexivity);
      assert (read_text made (Path "documents/x.txt") = Return "ABC")
        as Hread by (vm_compute; reflexivity)
  end.
  rewrite Hglob in H.
  assert (stem (Path "documents/x.txt") = "x") as Hstem by (vm_compute; reflexivity).
  assert (lower "ABC" = "abc") as Hlower by (vm_compute; reflexivity).
  destruct H as (st' & Hstart & _ & Hindexed & _).
  - intros text. vm_compute. discriminate.
  - intros p [<- | []]. exists "ABC". exact Hread.
  - exists st'. split; [ exact Hstart | ].
    destruct (Hindexed (Path "documents/x.txt") (or_introl eq_refl))
      as (p' & text & [<- | []] & _ & Hread' & Hget).
    rewrite Hread in Hread'. injection Hread' as <-.
    rewrite Hstem, Hlower in Hget. exact Hget.
Defined.

(** X13 at a file the index does not know, which the query hits once. *)
Lemma positive_counts_witness :
  DocumentServer.search_files (lower "B")
    (glob_txt (DocumentServer.fs Fixture.stray_state) DocumentServer.DOCUMENTS_DIR)
    (DocumentServer.search_index (lower "B")
       (DocumentServer.document_index Fixture.stray_state))
    Fixture.stray_state
  = (Return [(VStr "x", 1%nat)],
     DocumentServer.index_document (VStr "x") "abc" Fixture.stray_state)
  ∧ Sorting.sorted_matches [(VStr "x", 1%nat)] = Return [(VStr "x", 1%nat)]
  ∧ (1 ≤ 1)%nat.
Proof.
  assert (DocumentServer.search_files (lower "B")
            (glob_txt (DocumentServer.fs Fixture.stray_state) DocumentServer.DOCUMENTS_DIR)
            (DocumentServer.search_index (lower "B")
               (DocumentServer.document_index Fixture.stray_state))
            Fixture.stray_state
          = (Return [(VStr "x", 1%nat)],
             DocumentServer.index_document (VStr "x") "abc" Fixture.stray_state))
    as Hrun by (vm_compute; reflexivity).
  assert (Sorting.sorted_matches [(VStr "x", 1%nat)] = Return [(VStr "x", 1%nat)])
    as Hsorted by reflexivity.
  split; [ exact Hrun | ]. split; [ exact Hsorted | ].
  exact (search_lists_positive_counts "B" Fixture.stray_state _ _ _ Hrun Hsorted
           (VStr "x") 1%nat (or_introl eq_refl)).
Defined.

(** X14 at the first document of an empty directory. *)
Lemma created_document_witness :
  ∃ st',
    Fixture.run Document "create_document"
      {[ "name" := VStr "a"; "content" := VStr "Hello" ]} Fixture.document_state
    = (reply "Document 'a' created successfully (5 characters)", st')
    ∧ In (Path "documents/a.txt")
         (glob_txt (DocumentServer.fs st') DocumentServer.DOCUMENTS_DIR)
    ∧ dict_get (DocumentServer.document_index st') (VStr "a") = Some "hello".
Proof.
  destruct (created_document_is_listed (Fixture.python 15) Fixture.executable
              Fixture.sqlite_execute Fixture.numeric_affinity Fixture.CURRENT_TIMESTAMP
              Fixture.json_dumps Fixture.float_str
              {[ "name" := VStr "a"; "content" := VStr "Hello" ]} "a" "Hello"
              Fixture.document_state)
    as (st' & Hcreated & _ & _ & Hindex & Hglob & _).
  - reflexivity.
  - reflexivity.
  - discriminate.
  - discriminate.
  - reflexivity.
  - reflexivity.
  - vm_compute. reflexivity.
  - vm_compute. reflexivity.
  - vm_compute. discriminate.
  - exists st'. split; [ exact Hcreated | ]. split; [ exact Hglob | exact Hindex ].
Defined.

End FurtherExamples.
